(** * The trace/visualisation state engine of eSim's plot window

    A shallow embedding of [src/ngspiceSimulation/plot_window.py]: the
    colour allocator, the dataset load, the digital timing view, the time-axis
    rescaler, the two measurement cursors and the expression plotter of class
    [plotWindow], followed by the properties the specification states about
    them.

    Conventions of the embedding.
    - Python floats (and the [Decimal] samples of the data provider) are
      exact rationals [Q]; rounding is not modelled.
    - A Python [dict] is an insertion-ordered association list ([PyDict]),
      because [plot_timing_diagram] depends on the iteration order of
      [trace_visibility].
    - [Line2D] objects are shared between the axes, [active_traces] and
      [cursor_lines]; they live in a store [artists] indexed by identity.
    - Formatted strings ([f"{v:.3f}"]) keep the number they format.
    - Widget construction, painting and [canvas.draw()] are not state of the
      engine and are left out; [QMessageBox.warning] appends to [messages]. *)

From Stdlib Require Import Ascii String QArith Qround Qminmax Qabs Lqa.
From stdpp Require Import base decidable option list strings pretty gmap.

Local Open Scope Q_scope.

(** ** Numbers *)

Module Num.

(** [a > b] on floats. *)
Definition gt (a b : Q) : bool := negb (Qle_bool a b).

(** [a < b] on floats. *)
Definition lt (a b : Q) : bool := gt b a.

(** [a != b] on floats. *)
Definition ne (a b : Q) : bool := negb (Qeq_bool a b).

(** [np.max] and [np.min]; numpy raises [ValueError] on an empty array,
    which is [None] here. *)
Definition np_max (l : list Q) : option Q :=
  match l with
  | [] => None
  | v :: l' => Some (foldl Qmax v l')
  end.

Definition np_min (l : list Q) : option Q :=
  match l with
  | [] => None
  | v :: l' => Some (foldl Qmin v l')
  end.

(** [q % 1.0]: Python's float remainder takes the sign of the divisor. *)
Definition mod1 (q : Q) : Q := q - inject_Z (Qfloor q).

(** [np.where(raw > threshold, high, 0)] *)
Definition np_where_gt (raw : list Q) (threshold high : Q) : list Q :=
  map (λ v, if gt v threshold then high else 0) raw.

End Num.

(** ** Python dictionaries: insertion-ordered, keys unique *)

Module PyDict.
Section dict.
Context {K V : Type} `{EqDecision K}.

(** [d.get(k)] *)
Fixpoint get (d : list (K * V)) (k : K) : option V :=
  match d with
  | [] => None
  | (k', v) :: d' => if decide (k' = k) then Some v else get d' k
  end.

(** [d[k] = v]: an existing key keeps its place, a new key goes last. *)
Fixpoint set (d : list (K * V)) (k : K) (v : V) : list (K * V) :=
  match d with
  | [] => [(k, v)]
  | (k', v') :: d' =>
      if decide (k' = k) then (k, v) :: d' else (k', v') :: set d' k v
  end.

(** [k in d] *)
Definition contains (d : list (K * V)) (k : K) : bool :=
  bool_decide (is_Some (get d k)).

(** [d.get(k, dflt)] *)
Definition get_default (d : list (K * V)) (k : K) (dflt : V) : V :=
  default dflt (get d k).

Definition keys (d : list (K * V)) : list K := d.*1.
Definition values (d : list (K * V)) : list V := d.*2.
Definition len (d : list (K * V)) : nat := length d.
End dict.
End PyDict.

(** ** Data model *)

(** The three analysis kinds of [DataExtraction]. *)
Inductive analysis := AC_ANALYSIS | TRANSIENT_ANALYSIS | DC_ANALYSIS.

Global Instance analysis_eq_dec : EqDecision analysis.
Proof. solve_decision. Defined.

(** What the plot window reads from the data provider [obj_dataext]
    (class [DataExtraction], module [data_extraction]): the independent
    axis [x], one sample list per trace [y], the trace names [NBList] and the
    voltage/current split point. *)
Module DataExtraction.
Record t := mk {
  x : list Q;
  y : list (list Q);
  NBList : list string;
  volts_length : nat
}.
End DataExtraction.

(** Python exceptions that the modelled code can raise. *)
Inductive exn :=
| IndexError
| ValueError
| AttributeError
| ZeroDivisionError
| OverflowError
| ArithmeticError
| OtherError (name : string).

(** A formatted string together with the number it shows. *)
Inductive fstring :=
| FText (s : string)
| F3f (pre : string) (v : Q) (post : string)
| F6g (pre : string) (v : Q) (post : string).

Inductive drawstyle := DrawDefault | DrawStepsPost.

(** A matplotlib [Line2D]. *)
Record Line2D := mkLine {
  xdata : list Q;
  ydata : list Q;
  line_color : string;
  linewidth : Q;
  linestyle : string;
  line_alpha : Q;
  line_label : string;
  line_drawstyle : drawstyle
}.

Definition set_xdata (xs : list Q) (l : Line2D) : Line2D :=
  mkLine xs (ydata l) (line_color l) (linewidth l) (linestyle l)
         (line_alpha l) (line_label l) (line_drawstyle l).

(** A matplotlib [Text]. *)
Record Text := mkText {
  text_x : Q;
  text_y : Q;
  text_s : fstring;
  text_color : string
}.

(** A y-axis tick label and its colour. *)
Record TickLabel := mkTick {
  tick_text : string;
  tick_color : string
}.

(** The matplotlib axes: the lines attached to it (by identity, in drawing
    order), its texts, limits, ticks, labels, title and x scale. *)
Record Axes := mkAxes {
  ax_lines : list nat;
  ax_texts : list Text;
  xlim : option (Q * Q);
  ylim : option (Q * Q);
  yticks : list Q;
  yticklabels : list TickLabel;
  xlabel : string;
  ylabel : string;
  title : option fstring;
  xscale : string
}.

(** [fig.add_subplot(111)] on a cleared figure. *)
Definition new_axes : Axes :=
  mkAxes [] [] None None [] [] "" "" None "linear".

Definition set_ax_lines (v : list nat) (a : Axes) : Axes :=
  mkAxes v (ax_texts a) (xlim a) (ylim a) (yticks a) (yticklabels a)
    (xlabel a) (ylabel a) (title a) (xscale a).

Definition set_ax_texts (v : list Text) (a : Axes) : Axes :=
  mkAxes (ax_lines a) v (xlim a) (ylim a) (yticks a) (yticklabels a)
    (xlabel a) (ylabel a) (title a) (xscale a).

Definition set_ax_xlim (v : option (Q * Q)) (a : Axes) : Axes :=
  mkAxes (ax_lines a) (ax_texts a) v (ylim a) (yticks a) (yticklabels a)
    (xlabel a) (ylabel a) (title a) (xscale a).

Definition set_ax_ylim (v : option (Q * Q)) (a : Axes) : Axes :=
  mkAxes (ax_lines a) (ax_texts a) (xlim a) v (yticks a) (yticklabels a)
    (xlabel a) (ylabel a) (title a) (xscale a).

Definition set_ax_yticks (v : list Q) (a : Axes) : Axes :=
  mkAxes (ax_lines a) (ax_texts a) (xlim a) (ylim a) v (yticklabels a)
    (xlabel a) (ylabel a) (title a) (xscale a).

Definition set_ax_yticklabels (v : list TickLabel) (a : Axes) : Axes :=
  mkAxes (ax_lines a) (ax_texts a) (xlim a) (ylim a) (yticks a) v (xlabel a)
    (ylabel a) (title a) (xscale a).

Definition set_ax_xlabel (v : string) (a : Axes) : Axes :=
  mkAxes (ax_lines a) (ax_texts a) (xlim a) (ylim a) (yticks a)
    (yticklabels a) v (ylabel a) (title a) (xscale a).

Definition set_ax_ylabel (v : string) (a : Axes) : Axes :=
  mkAxes (ax_lines a) (ax_texts a) (xlim a) (ylim a) (yticks a)
    (yticklabels a) (xlabel a) v (title a) (xscale a).

Definition set_ax_title (v : option fstring) (a : Axes) : Axes :=
  mkAxes (ax_lines a) (ax_texts a) (xlim a) (ylim a) (yticks a)
    (yticklabels a) (xlabel a) (ylabel a) v (xscale a).

Definition set_ax_xscale (v : string) (a : Axes) : Axes :=
  mkAxes (ax_lines a) (ax_texts a) (xlim a) (ylim a) (yticks a)
    (yticklabels a) (xlabel a) (ylabel a) (title a) v.

(** The threshold [QDoubleSpinBox]. *)
Record SpinBox := mkSpinBox {
  sb_value : Q;
  sb_minimum : Q;
  sb_special_value_text : fstring
}.

(** The persisted configuration: three name-keyed dictionaries and a flag. *)
Record Config := mkConfig {
  trace_colours : list (string * string);
  cfg_trace_thickness : list (string * Q);
  cfg_trace_style : list (string * string);
  experimental_acdc : bool
}.

(** ** Constants *)

Definition DEFAULT_LINE_THICKNESS : Q := 1.5.
Definition DEFAULT_VERTICAL_SPACING : Q := 1.2.
Definition CURSOR_ALPHA : Q := 0.7.
Definition THRESHOLD_ALPHA : Q := 0.5.

(** The line width matplotlib uses when a call gives none
    ([rcParams["lines.linewidth"]]). *)
Definition RC_LINEWIDTH : Q := 1.5.

Definition VIBRANT_COLOR_PALETTE : list string :=
  [ "#E53935"; "#1E88E5"; "#43A047"; "#FB8C00"; "#8E24AA"; "#00ACC1";
    "#D81B60"; "#6D4C41"; "#FDD835"; "#039BE5"; "#C0CA33"; "#37474F" ].

Definition TIME_UNIT_THRESHOLD_NS : Q := 1 # 1000000.
Definition TIME_UNIT_THRESHOLD_US : Q := 1 # 1000.
Definition TIME_UNIT_THRESHOLD_MS : Q := 1.


(** ** The plot window

    The attributes of [plotWindow] that the engine reads or writes.
    [obj_dataext], [plot_type] and [data_info] are what
    [load_simulation_data] gets from the data provider; [axes] is [None]
    until the first [refresh_plot] ([hasattr(self, 'axes')]). *)
Record plotWindow := mkWindow {
  obj_dataext : DataExtraction.t;
  plot_type : analysis * nat;
  data_info : nat * nat;
  volts_length : nat;
  config : Config;
  color_palette : list string;
  color : list string;
  active_traces : list (nat * nat);
  trace_visibility : list (nat * bool);
  trace_colors : list (nat * string);
  trace_thickness : list (nat * Q);
  trace_style : list (nat * string);
  trace_names : list (nat * string);
  cursor_lines : list (option nat);
  cursor_positions : list (option Q);
  timing_annotations : list (nat * Text);
  logic_threshold : option Q;
  vertical_spacing : Q;
  threshold_spinbox : SpinBox;
  timing_check : bool;
  legend_check : bool;
  func_input : string;
  cursor1_label : fstring;
  cursor2_label : fstring;
  delta_label : fstring;
  measure_label : fstring;
  messages : list string;
  artists : gmap nat Line2D;
  next_artist : nat;
  axes : option Axes
}.

(** Attribute assignment, one setter per mutable attribute. *)
Definition set_volts_length (v : nat) (s : plotWindow) : plotWindow :=
  mkWindow (obj_dataext s) (plot_type s) (data_info s) v (config s)
    (color_palette s) (color s) (active_traces s) (trace_visibility s)
    (trace_colors s) (trace_thickness s) (trace_style s) (trace_names s)
    (cursor_lines s) (cursor_positions s) (timing_annotations s)
    (logic_threshold s) (vertical_spacing s) (threshold_spinbox s)
    (timing_check s) (legend_check s) (func_input s) (cursor1_label s)
    (cursor2_label s) (delta_label s) (measure_label s) (messages s)
    (artists s) (next_artist s) (axes s).

Definition set_config (v : Config) (s : plotWindow) : plotWindow :=
  mkWindow (obj_dataext s) (plot_type s) (data_info s) (volts_length s) v
    (color_palette s) (color s) (active_traces s) (trace_visibility s)
    (trace_colors s) (trace_thickness s) (trace_style s) (trace_names s)
    (cursor_lines s) (cursor_positions s) (timing_annotations s)
    (logic_threshold s) (vertical_spacing s) (threshold_spinbox s)
    (timing_check s) (legend_check s) (func_input s) (cursor1_label s)
    (cursor2_label s) (delta_label s) (measure_label s) (messages s)
    (artists s) (next_artist s) (axes s).

Definition set_color (v : list string) (s : plotWindow) : plotWindow :=
  mkWindow (obj_dataext s) (plot_type s) (data_info s) (volts_length s)
    (config s) (color_palette s) v (active_traces s) (trace_visibility s)
    (trace_colors s) (trace_thickness s) (trace_style s) (trace_names s)
    (cursor_lines s) (cursor_positions s) (timing_annotations s)
    (logic_threshold s) (vertical_spacing s) (threshold_spinbox s)
    (timing_check s) (legend_check s) (func_input s) (cursor1_label s)
    (cursor2_label s) (delta_label s) (measure_label s) (messages s)
    (artists s) (next_artist s) (axes s).

Definition set_active_traces (v : list (nat * nat)) (s : plotWindow) : plotWindow :=
  mkWindow (obj_dataext s) (plot_type s) (data_info s) (volts_length s)
    (config s) (color_palette s) (color s) v (trace_visibility s)
    (trace_colors s) (trace_thickness s) (trace_style s) (trace_names s)
    (cursor_lines s) (cursor_positions s) (timing_annotations s)
    (logic_threshold s) (vertical_spacing s) (threshold_spinbox s)
    (timing_check s) (legend_check s) (func_input s) (cursor1_label s)
    (cursor2_label s) (delta_label s) (measure_label s) (messages s)
    (artists s) (next_artist s) (axes s).

Definition set_trace_visibility (v : list (nat * bool)) (s : plotWindow) : plotWindow :=
  mkWindow (obj_dataext s) (plot_type s) (data_info s) (volts_length s)
    (config s) (color_palette s) (color s) (active_traces s) v
    (trace_colors s) (trace_thickness s) (trace_style s) (trace_names s)
    (cursor_lines s) (cursor_positions s) (timing_annotations s)
    (logic_threshold s) (vertical_spacing s) (threshold_spinbox s)
    (timing_check s) (legend_check s) (func_input s) (cursor1_label s)
    (cursor2_label s) (delta_label s) (measure_label s) (messages s)
    (artists s) (next_artist s) (axes s).

Definition set_trace_colors (v : list (nat * string)) (s : plotWindow) : plotWindow :=
  mkWindow (obj_dataext s) (plot_type s) (data_info s) (volts_length s)
    (config s) (color_palette s) (color s) (active_traces s)
    (trace_visibility s) v (trace_thickness s) (trace_style s) (trace_names s)
    (cursor_lines s) (cursor_positions s) (timing_annotations s)
    (logic_threshold s) (vertical_spacing s) (threshold_spinbox s)
    (timing_check s) (legend_check s) (func_input s) (cursor1_label s)
    (cursor2_label s) (delta_label s) (measure_label s) (messages s)
    (artists s) (next_artist s) (axes s).

Definition set_trace_thickness (v : list (nat * Q)) (s : plotWindow) : plotWindow :=
  mkWindow (obj_dataext s) (plot_type s) (data_info s) (volts_length s)
    (config s) (color_palette s) (color s) (active_traces s)
    (trace_visibility s) (trace_colors s) v (trace_style s) (trace_names s)
    (cursor_lines s) (cursor_positions s) (timing_annotations s)
    (logic_threshold s) (vertical_spacing s) (threshold_spinbox s)
    (timing_check s) (legend_check s) (func_input s) (cursor1_label s)
    (cursor2_label s) (delta_label s) (measure_label s) (messages s)
    (artists s) (next_artist s) (axes s).

Definition set_trace_style (v : list (nat * string)) (s : plotWindow) : plotWindow :=
  mkWindow (obj_dataext s) (plot_type s) (data_info s) (volts_length s)
    (config s) (color_palette s) (color s) (active_traces s)
    (trace_visibility s) (trace_colors s) (trace_thickness s) v
    (trace_names s) (cursor_lines s) (cursor_positions s)
    (timing_annotations s) (logic_threshold s) (vertical_spacing s)
    (threshold_spinbox s) (timing_check s) (legend_check s) (func_input s)
    (cursor1_label s) (cursor2_label s) (delta_label s) (measure_label s)
    (messages s) (artists s) (next_artist s) (axes s).

Definition set_trace_names (v : list (nat * string)) (s : plotWindow) : plotWindow :=
  mkWindow (obj_dataext s) (plot_type s) (data_info s) (volts_length s)
    (config s) (color_palette s) (color s) (active_traces s)
    (trace_visibility s) (trace_colors s) (trace_thickness s) (trace_style s)
    v (cursor_lines s) (cursor_positions s) (timing_annotations s)
    (logic_threshold s) (vertical_spacing s) (threshold_spinbox s)
    (timing_check s) (legend_check s) (func_input s) (cursor1_label s)
    (cursor2_label s) (delta_label s) (measure_label s) (messages s)
    (artists s) (next_artist s) (axes s).

Definition set_cursor_lines (v : list (option nat)) (s : plotWindow) : plotWindow :=
  mkWindow (obj_dataext s) (plot_type s) (data_info s) (volts_length s)
    (config s) (color_palette s) (color s) (active_traces s)
    (trace_visibility s) (trace_colors s) (trace_thickness s) (trace_style s)
    (trace_names s) v (cursor_positions s) (timing_annotations s)
    (logic_threshold s) (vertical_spacing s) (threshold_spinbox s)
    (timing_check s) (legend_check s) (func_input s) (cursor1_label s)
    (cursor2_label s) (delta_label s) (measure_label s) (messages s)
    (artists s) (next_artist s) (axes s).

Definition set_cursor_positions (v : list (option Q)) (s : plotWindow) : plotWindow :=
  mkWindow (obj_dataext s) (plot_type s) (data_info s) (volts_length s)
    (config s) (color_palette s) (color s) (active_traces s)
    (trace_visibility s) (trace_colors s) (trace_thickness s) (trace_style s)
    (trace_names s) (cursor_lines s) v (timing_annotations s)
    (logic_threshold s) (vertical_spacing s) (threshold_spinbox s)
    (timing_check s) (legend_check s) (func_input s) (cursor1_label s)
    (cursor2_label s) (delta_label s) (measure_label s) (messages s)
    (artists s) (next_artist s) (axes s).

Definition set_timing_annotations (v : list (nat * Text)) (s : plotWindow) : plotWindow :=
  mkWindow (obj_dataext s) (plot_type s) (data_info s) (volts_length s)
    (config s) (color_palette s) (color s) (active_traces s)
    (trace_visibility s) (trace_colors s) (trace_thickness s) (trace_style s)
    (trace_names s) (cursor_lines s) (cursor_positions s) v
    (logic_threshold s) (vertical_spacing s) (threshold_spinbox s)
    (timing_check s) (legend_check s) (func_input s) (cursor1_label s)
    (cursor2_label s) (delta_label s) (measure_label s) (messages s)
    (artists s) (next_artist s) (axes s).

Definition set_logic_threshold (v : option Q) (s : plotWindow) : plotWindow :=
  mkWindow (obj_dataext s) (plot_type s) (data_info s) (volts_length s)
    (config s) (color_palette s) (color s) (active_traces s)
    (trace_visibility s) (trace_colors s) (trace_thickness s) (trace_style s)
    (trace_names s) (cursor_lines s) (cursor_positions s)
    (timing_annotations s) v (vertical_spacing s) (threshold_spinbox s)
    (timing_check s) (legend_check s) (func_input s) (cursor1_label s)
    (cursor2_label s) (delta_label s) (measure_label s) (messages s)
    (artists s) (next_artist s) (axes s).

Definition set_vertical_spacing (v : Q) (s : plotWindow) : plotWindow :=
  mkWindow (obj_dataext s) (plot_type s) (data_info s) (volts_length s)
    (config s) (color_palette s) (color s) (active_traces s)
    (trace_visibility s) (trace_colors s) (trace_thickness s) (trace_style s)
    (trace_names s) (cursor_lines s) (cursor_positions s)
    (timing_annotations s) (logic_threshold s) v (threshold_spinbox s)
    (timing_check s) (legend_check s) (func_input s) (cursor1_label s)
    (cursor2_label s) (delta_label s) (measure_label s) (messages s)
    (artists s) (next_artist s) (axes s).

Definition set_threshold_spinbox (v : SpinBox) (s : plotWindow) : plotWindow :=
  mkWindow (obj_dataext s) (plot_type s) (data_info s) (volts_length s)
    (config s) (color_palette s) (color s) (active_traces s)
    (trace_visibility s) (trace_colors s) (trace_thickness s) (trace_style s)
    (trace_names s) (cursor_lines s) (cursor_positions s)
    (timing_annotations s) (logic_threshold s) (vertical_spacing s) v
    (timing_check s) (legend_check s) (func_input s) (cursor1_label s)
    (cursor2_label s) (delta_label s) (measure_label s) (messages s)
    (artists s) (next_artist s) (axes s).

Definition set_cursor1_label (v : fstring) (s : plotWindow) : plotWindow :=
  mkWindow (obj_dataext s) (plot_type s) (data_info s) (volts_length s)
    (config s) (color_palette s) (color s) (active_traces s)
    (trace_visibility s) (trace_colors s) (trace_thickness s) (trace_style s)
    (trace_names s) (cursor_lines s) (cursor_positions s)
    (timing_annotations s) (logic_threshold s) (vertical_spacing s)
    (threshold_spinbox s) (timing_check s) (legend_check s) (func_input s) v
    (cursor2_label s) (delta_label s) (measure_label s) (messages s)
    (artists s) (next_artist s) (axes s).

Definition set_cursor2_label (v : fstring) (s : plotWindow) : plotWindow :=
  mkWindow (obj_dataext s) (plot_type s) (data_info s) (volts_length s)
    (config s) (color_palette s) (color s) (active_traces s)
    (trace_visibility s) (trace_colors s) (trace_thickness s) (trace_style s)
    (trace_names s) (cursor_lines s) (cursor_positions s)
    (timing_annotations s) (logic_threshold s) (vertical_spacing s)
    (threshold_spinbox s) (timing_check s) (legend_check s) (func_input s)
    (cursor1_label s) v (delta_label s) (measure_label s) (messages s)
    (artists s) (next_artist s) (axes s).

Definition set_delta_label (v : fstring) (s : plotWindow) : plotWindow :=
  mkWindow (obj_dataext s) (plot_type s) (data_info s) (volts_length s)
    (config s) (color_palette s) (color s) (active_traces s)
    (trace_visibility s) (trace_colors s) (trace_thickness s) (trace_style s)
    (trace_names s) (cursor_lines s) (cursor_positions s)
    (timing_annotations s) (logic_threshold s) (vertical_spacing s)
    (threshold_spinbox s) (timing_check s) (legend_check s) (func_input s)
    (cursor1_label s) (cursor2_label s) v (measure_label s) (messages s)
    (artists s) (next_artist s) (axes s).

Definition set_measure_label (v : fstring) (s : plotWindow) : plotWindow :=
  mkWindow (obj_dataext s) (plot_type s) (data_info s) (volts_length s)
    (config s) (color_palette s) (color s) (active_traces s)
    (trace_visibility s) (trace_colors s) (trace_thickness s) (trace_style s)
    (trace_names s) (cursor_lines s) (cursor_positions s)
    (timing_annotations s) (logic_threshold s) (vertical_spacing s)
    (threshold_spinbox s) (timing_check s) (legend_check s) (func_input s)
    (cursor1_label s) (cursor2_label s) (delta_label s) v (messages s)
    (artists s) (next_artist s) (axes s).

Definition set_messages (v : list string) (s : plotWindow) : plotWindow :=
  mkWindow (obj_dataext s) (plot_type s) (data_info s) (volts_length s)
    (config s) (color_palette s) (color s) (active_traces s)
    (trace_visibility s) (trace_colors s) (trace_thickness s) (trace_style s)
    (trace_names s) (cursor_lines s) (cursor_positions s)
    (timing_annotations s) (logic_threshold s) (vertical_spacing s)
    (threshold_spinbox s) (timing_check s) (legend_check s) (func_input s)
    (cursor1_label s) (cursor2_label s) (delta_label s) (measure_label s) v
    (artists s) (next_artist s) (axes s).

Definition set_artists (v : gmap nat Line2D) (s : plotWindow) : plotWindow :=
  mkWindow (obj_dataext s) (plot_type s) (data_info s) (volts_length s)
    (config s) (color_palette s) (color s) (active_traces s)
    (trace_visibility s) (trace_colors s) (trace_thickness s) (trace_style s)
    (trace_names s) (cursor_lines s) (cursor_positions s)
    (timing_annotations s) (logic_threshold s) (vertical_spacing s)
    (threshold_spinbox s) (timing_check s) (legend_check s) (func_input s)
    (cursor1_label s) (cursor2_label s) (delta_label s) (measure_label s)
    (messages s) v (next_artist s) (axes s).

Definition set_next_artist (v : nat) (s : plotWindow) : plotWindow :=
  mkWindow (obj_dataext s) (plot_type s) (data_info s) (volts_length s)
    (config s) (color_palette s) (color s) (active_traces s)
    (trace_visibility s) (trace_colors s) (trace_thickness s) (trace_style s)
    (trace_names s) (cursor_lines s) (cursor_positions s)
    (timing_annotations s) (logic_threshold s) (vertical_spacing s)
    (threshold_spinbox s) (timing_check s) (legend_check s) (func_input s)
    (cursor1_label s) (cursor2_label s) (delta_label s) (measure_label s)
    (messages s) (artists s) v (axes s).

Definition set_axes (v : option Axes) (s : plotWindow) : plotWindow :=
  mkWindow (obj_dataext s) (plot_type s) (data_info s) (volts_length s)
    (config s) (color_palette s) (color s) (active_traces s)
    (trace_visibility s) (trace_colors s) (trace_thickness s) (trace_style s)
    (trace_names s) (cursor_lines s) (cursor_positions s)
    (timing_annotations s) (logic_threshold s) (vertical_spacing s)
    (threshold_spinbox s) (timing_check s) (legend_check s) (func_input s)
    (cursor1_label s) (cursor2_label s) (delta_label s) (measure_label s)
    (messages s) (artists s) (next_artist s) v.

Definition set_timing_check (v : bool) (s : plotWindow) : plotWindow :=
  mkWindow (obj_dataext s) (plot_type s) (data_info s) (volts_length s)
    (config s) (color_palette s) (color s) (active_traces s)
    (trace_visibility s) (trace_colors s) (trace_thickness s) (trace_style s)
    (trace_names s) (cursor_lines s) (cursor_positions s)
    (timing_annotations s) (logic_threshold s) (vertical_spacing s)
    (threshold_spinbox s) v (legend_check s) (func_input s) (cursor1_label s)
    (cursor2_label s) (delta_label s) (measure_label s) (messages s)
    (artists s) (next_artist s) (axes s).

Definition set_legend_check (v : bool) (s : plotWindow) : plotWindow :=
  mkWindow (obj_dataext s) (plot_type s) (data_info s) (volts_length s)
    (config s) (color_palette s) (color s) (active_traces s)
    (trace_visibility s) (trace_colors s) (trace_thickness s) (trace_style s)
    (trace_names s) (cursor_lines s) (cursor_positions s)
    (timing_annotations s) (logic_threshold s) (vertical_spacing s)
    (threshold_spinbox s) (timing_check s) v (func_input s) (cursor1_label s)
    (cursor2_label s) (delta_label s) (measure_label s) (messages s)
    (artists s) (next_artist s) (axes s).

Definition set_func_input (v : string) (s : plotWindow) : plotWindow :=
  mkWindow (obj_dataext s) (plot_type s) (data_info s) (volts_length s)
    (config s) (color_palette s) (color s) (active_traces s)
    (trace_visibility s) (trace_colors s) (trace_thickness s) (trace_style s)
    (trace_names s) (cursor_lines s) (cursor_positions s)
    (timing_annotations s) (logic_threshold s) (vertical_spacing s)
    (threshold_spinbox s) (timing_check s) (legend_check s) v
    (cursor1_label s) (cursor2_label s) (delta_label s) (measure_label s)
    (messages s) (artists s) (next_artist s) (axes s).

(** ** Statements that may raise

    A statement is a function from the window's state to an outcome and the
    state it leaves behind; an exception keeps the mutations made before it
    was raised. *)

Inductive outcome (A : Type) :=
| Return (a : A)
| Raise (e : exn).
Arguments Return {A} a.
Arguments Raise {A} e.

Definition M (A : Type) : Type := plotWindow → outcome A * plotWindow.

Global Instance M_ret : MRet M := λ A a s, (Return a, s).

Global Instance M_bind : MBind M := λ A B f m s,
  match m s with
  | (Return a, s') => f a s'
  | (Raise e, s') => (Raise e, s')
  end.

Definition gets {A} (f : plotWindow → A) : M A := λ s, (Return (f s), s).

Definition modify (f : plotWindow → plotWindow) : M unit :=
  λ s, (Return tt, f s).

Definition raise {A} (e : exn) : M A := λ s, (Raise e, s).

(** Nothing to do. *)
Definition skip : M unit := mret tt.

(** A lookup that raises [e] when it finds nothing. *)
Definition from_option {A} (e : exn) (o : option A) : M A :=
  match o with
  | Some a => mret a
  | None => raise e
  end.

(** [try: m  except <caught>: handler]; the handler runs in the state
    that the exception left. *)
Definition try_except {A} (m : M A) (caught : exn → bool) (handler : M A)
    : M A :=
  λ s, match m s with
       | (Raise e, s') => if caught e then handler s' else (Raise e, s')
       | r => r
       end.

Global Instance M_fmap : FMap M := λ A B f m s,
  match m s with
  | (Return a, s') => (Return (f a), s')
  | (Raise e, s') => (Raise e, s')
  end.

(** [for a in l: body(a)] *)
Fixpoint for_each {A} (l : list A) (body : A → M unit) : M unit :=
  match l with
  | [] => skip
  | a :: l' => _ ← body a; for_each l' body
  end.

(** [enumerate(l)] *)
Definition enumerate {A} (l : list A) : list (nat * A) := imap pair l.

(** [l[-1]] *)
Definition last_item {A} (l : list A) : option A := last l.

(** [QMessageBox.warning(self, "Warning!!", text)] *)
Definition warning (text : string) : M unit :=
  modify (λ s, set_messages (messages s ++ [text]) s).

(** ** Construction

    [_initialize_data_structures], [load_config] and the widgets made by
    [create_control_panel]: the two check boxes start unchecked and the
    input line empty.  [spin0] is the value Qt gives the threshold spin box
    after [setRange(-100, 100)]; the source never calls [setValue] on it. *)
Definition init (dataext : DataExtraction.t) (ptype : analysis * nat)
    (dinfo : nat * nat) (cfg : Config) (spin0 : Q) : plotWindow :=
  {| obj_dataext := dataext; plot_type := ptype; data_info := dinfo;
     volts_length := 0; config := cfg;
     color_palette := VIBRANT_COLOR_PALETTE; color := [];
     active_traces := []; trace_visibility := []; trace_colors := [];
     trace_thickness := []; trace_style := []; trace_names := [];
     cursor_lines := []; cursor_positions := []; timing_annotations := [];
     logic_threshold := None; vertical_spacing := DEFAULT_VERTICAL_SPACING;
     threshold_spinbox := mkSpinBox spin0 (-100) (FText "Auto");
     timing_check := false; legend_check := false; func_input := "";
     cursor1_label := FText "Cursor 1: Not set";
     cursor2_label := FText "Cursor 2: Not set";
     delta_label := FText "Delta: --"; measure_label := FText "";
     messages := []; artists := ∅; next_artist := 0; axes := None |}.

(** ** Persistence of the styling *)

(** [self.trace_names.get(idx, self.obj_dataext.NBList[idx])]: the default
    is evaluated first, so an index outside [NBList] raises. *)
Definition trace_label (s : plotWindow) (idx : nat) : option string :=
  dflt ← DataExtraction.NBList (obj_dataext s) !! idx;
  Some (PyDict.get_default (trace_names s) idx dflt).

(** [{trace_label(idx): v for idx, v in d.items()}] *)
Definition by_name {V} (s : plotWindow) (d : list (nat * V))
    : option (list (string * V)) :=
  foldl (λ acc kv, acc ← acc; name ← trace_label s kv.1;
                   Some (PyDict.set acc name kv.2))
        (Some []) d.

(** [save_config]: rebuilds the three dictionaries of [self.config] from
    the registry; an exception stops it where it is and is logged.  The
    write to the configuration file is outside the engine. *)
Definition save_config (s : plotWindow) : plotWindow :=
  match by_name s (trace_colors s) with
  | None => s
  | Some colours =>
      let c1 := mkConfig colours (cfg_trace_thickness (config s))
                         (cfg_trace_style (config s))
                         (experimental_acdc (config s)) in
      match by_name s (trace_thickness s) with
      | None => set_config c1 s
      | Some thickness =>
          let c2 := mkConfig colours thickness (cfg_trace_style c1)
                             (experimental_acdc c1) in
          match by_name s (trace_style s) with
          | None => set_config c2 s
          | Some style =>
              set_config (mkConfig colours thickness style
                                   (experimental_acdc c2)) s
          end
      end
  end.

(** ** ColorAllocator *)

Section ColorAllocator.

(** [QtGui.QColor.fromHsvF(h, s, v).name()], the conversion of Qt. *)
Variable fromHsvF_name : Q → Q → Q → string.

(** [set(self.trace_colors.values())] *)
Definition used_colors (s : plotWindow) : gset string :=
  list_to_set (PyDict.values (trace_colors s)).

(** [[color for color in self.color_palette if color not in used_colors]] *)
Definition available_colors (s : plotWindow) : list string :=
  filter (λ c, c ∉ used_colors s) (color_palette s).

(** The hue of the fallback colour. *)
Definition fallback_hue (s : plotWindow) : Q :=
  Num.mod1 (0.618033988749895
            * inject_Z (Z.of_nat (PyDict.len (trace_colors s)))).


Definition assign_trace_color (index : nat) (s : plotWindow) : plotWindow :=
  let s :=
    match available_colors s with
    | c :: _ => set_trace_colors (PyDict.set (trace_colors s) index c) s
    | [] =>
        let hue := fallback_hue s in
        let color := fromHsvF_name hue 0.7 0.8 in
        set_trace_colors (PyDict.set (trace_colors s) index color) s
    end in
  save_config s.

End ColorAllocator.

(** ** Dataset load *)

(** [self.color_palette[i % len(self.color_palette)]] *)
Definition palette_cycle (i : nat) : M string :=
  pal ← gets color_palette;
  if decide (length pal = 0%nat) then raise ZeroDivisionError
  else from_option IndexError (pal !! (i mod length pal)%nat).

(** The body of the loop of [populate_waveform_list]. *)
Definition populate_item (i : nat) (node_name : string) : M unit :=
  saved_colors ← gets (λ s, trace_colours (config s));
  saved_thickness ← gets (λ s, cfg_trace_thickness (config s));
  saved_style ← gets (λ s, cfg_trace_style (config s));
  c ← gets color;
  col ← match PyDict.get saved_colors node_name with
        | Some saved => mret saved
        | None =>
            match c !! i with
            | Some ci => mret ci
            | None => palette_cycle i
            end
        end;
  _ ← modify (λ s, set_trace_colors (PyDict.set (trace_colors s) i col) s);
  _ ← modify (λ s, set_trace_thickness
        (PyDict.set (trace_thickness s) i
           (PyDict.get_default saved_thickness node_name
                               DEFAULT_LINE_THICKNESS)) s);
  _ ← modify (λ s, set_trace_style
        (PyDict.set (trace_style s) i
           (PyDict.get_default saved_style node_name "-")) s);
  modify (λ s, set_trace_visibility (PyDict.set (trace_visibility s) i false) s).

Definition populate_waveform_list : M unit :=
  names ← gets (λ s, DataExtraction.NBList (obj_dataext s));
  for_each (enumerate names) (λ kv, populate_item kv.1 kv.2).

Definition load_simulation_data : M unit :=
  n ← gets (λ s, (data_info s).1);
  _ ← for_each (seq 0 (n - 1))
        (λ i, col ← palette_cycle i;
              modify (λ s, set_color (color s ++ [col]) s));
  _ ← modify (λ s, set_volts_length (data_info s).2 s);
  names ← gets (λ s, DataExtraction.NBList (obj_dataext s));
  _ ← for_each (enumerate names)
        (λ kv, modify (λ s, set_trace_names
                              (PyDict.set (trace_names s) kv.1 kv.2) s));
  populate_waveform_list.

(** ** Drawing on the axes *)

(** [self.axes]: an [AttributeError] before the first refresh. *)
Definition the_axes : M Axes :=
  ax ← gets axes; from_option AttributeError ax.

Definition update_axes (f : Axes → Axes) : M unit :=
  ax ← the_axes; modify (set_axes (Some (f ax))).

(** A new [Line2D] attached to the axes; its identity is returned. *)
Definition add_line (l : Line2D) : M nat :=
  _ ← the_axes;
  id ← gets next_artist;
  _ ← modify (λ s, set_next_artist (S id)
                     (set_artists (<[id := l]> (artists s)) s));
  _ ← update_axes (λ ax, set_ax_lines (ax_lines ax ++ [id]) ax);
  mret id.

(** [self.axes.plot(xs, ys, ...)] and its variants: matplotlib raises
    [ValueError] when the two sequences differ in length. *)
Definition axes_plot (xs ys : list Q) (style : string) (ds : drawstyle)
    (lw : Q) (c lbl : string) : M nat :=
  _ ← the_axes;
  if decide (length xs = length ys)
  then add_line (mkLine xs ys c lw style 1 lbl ds)
  else raise ValueError.

(** [self.axes.step(xs, ys, where="post", ...)] *)
Definition axes_step (xs ys : list Q) (lw : Q) (c lbl : string) : M nat :=
  axes_plot xs ys "-" DrawStepsPost lw c lbl.

(** [self.axes.text(tx, ty, s, color=c)] *)
Definition axes_text (t : Text) : M unit :=
  update_axes (λ ax, set_ax_texts (ax_texts ax ++ [t]) ax).

(** ** AxisUnitScaler *)

(** The unit and the scale chosen for a time span. *)
Definition time_unit (time_span : Q) : string * Q :=
  if Num.lt time_span TIME_UNIT_THRESHOLD_NS then ("ns", 1000000000)
  else if Num.lt time_span TIME_UNIT_THRESHOLD_US then ("µs", 1000000)
  else if Num.lt time_span TIME_UNIT_THRESHOLD_MS then ("ms", 1000)
  else ("s", 1).

(** [line.set_xdata(scaled_x)] for every line of [self.active_traces]. *)
Definition rescale_lines (scaled_x : list Q) (active : list (nat * nat))
    (arts : gmap nat Line2D) : gmap nat Line2D :=
  foldl (λ acc kv, alter (set_xdata scaled_x) kv.2 acc) arts active.

Definition set_time_axis_label (s : plotWindow) : plotWindow :=
  match axes s with
  | None => s
  | Some ax =>
      let time_data := DataExtraction.x (obj_dataext s) in
      if decide (length time_data < 2)%nat
      then set_axes (Some (set_ax_xlabel "Time (s)" ax)) s
      else
        match head time_data, last_item time_data with
        | Some t_first, Some t_last =>
            let time_span := t_last - t_first in
            let '(unit, scale) := time_unit time_span in
            let s :=
              if Num.ne scale 1
              then
                let scaled_x := map (λ t, t * scale) time_data in
                set_artists
                  (rescale_lines scaled_x (active_traces s) (artists s)) s
              else s in
            set_axes (Some (set_ax_xlabel ("Time (" +:+ unit +:+ ")") ax)) s
        | _, _ => s
        end
  end.

(** ** DigitalTimingRenderer *)

(** [[i for i, v in self.trace_visibility.items() if v]] *)
Definition visible_indices (s : plotWindow) : list nat :=
  (filter (λ kv, kv.2 = true) (trace_visibility s)).*1.

(** [for idx in indices: data.extend(self.obj_dataext.y[idx])] *)
Fixpoint gather (ys : list (list Q)) (indices : list nat)
    : option (list Q) :=
  match indices with
  | [] => Some []
  | idx :: rest =>
      d ← ys !! idx; more ← gather ys rest; Some (d ++ more)
  end.

(** The traces whose samples fix [vmin] and [vmax]: the visible
    voltage traces, or every visible trace when there is none. *)
Definition candidate_indices (s : plotWindow) : list nat :=
  let visible := visible_indices s in
  let voltage :=
    filter (λ i, i < DataExtraction.volts_length (obj_dataext s))%nat
           visible in
  if decide (voltage = []) then visible else voltage.

Definition update_timing_tick_colors (s : plotWindow) : plotWindow :=
  match axes s with
  | None => s
  | Some ax =>
      let visible := visible_indices s in
      let recolor (i : nat) (lab : TickLabel) : TickLabel :=
        match reverse visible !! i with
        | Some idx =>
            match PyDict.get (trace_colors s) idx with
            | Some c => mkTick (tick_text lab) c
            | None => lab
            end
        | None => lab
        end in
      set_axes (Some (set_ax_yticklabels (imap recolor (yticklabels ax)) ax)) s
  end.

(** The body of the drawing loop, for the trace [idx] at rank [rank];
    it returns the tick position and the tick label it appends. *)
Definition timing_trace (time_data : list Q) (t_last vmax spacing
    annotation_offset_base : Q) (rank idx : nat) : M (Q * string) :=
  ys ← gets (λ s, DataExtraction.y (obj_dataext s));
  raw_data ← from_option IndexError (ys !! idx);
  threshold ← gets logic_threshold;
  threshold ← from_option (OtherError "TypeError") threshold;
  let logic_data := Num.np_where_gt raw_data threshold vmax in
  let offset := inject_Z (Z.of_nat rank) * spacing in
  let logic_offset := map (λ v, v + offset) logic_data in
  color ← gets (λ s, PyDict.get_default (trace_colors s) idx "blue");
  thickness ← gets (λ s, PyDict.get_default (trace_thickness s) idx
                                            DEFAULT_LINE_THICKNESS);
  label ← gets (λ s, trace_label s idx);
  label ← from_option IndexError label;
  line ← axes_step time_data logic_offset thickness color label;
  _ ← modify (λ s, set_active_traces
                     (PyDict.set (active_traces s) idx line) s);
  let y_center := offset + vmax / 2 in
  final ← from_option IndexError (last_item raw_data);
  let annotation_offset :=
    annotation_offset_base
    * (1 + 0.1 * inject_Z (Z.of_nat (rank mod 3))) in
  let text_obj := mkText (t_last + annotation_offset) y_center
                         (F3f " " final " V") color in
  _ ← axes_text text_obj;
  _ ← modify (λ s, set_timing_annotations
                     (PyDict.set (timing_annotations s) idx text_obj) s);
  mret (y_center, label).

(** [for a in l: out.append(body(a))] *)
Fixpoint for_collect {A B} (l : list A) (body : A → M B) : M (list B) :=
  match l with
  | [] => mret []
  | a :: l' => b ← body a; bs ← for_collect l' body; mret (b :: bs)
  end.

Definition plot_timing_diagram : M unit :=
  visible ← gets visible_indices;
  if decide (visible = []) then skip
  else
    voltage_indices ← gets candidate_indices;
    ys ← gets (λ s, DataExtraction.y (obj_dataext s));
    all_voltage_data ← from_option IndexError (gather ys voltage_indices);
    vmin ← from_option ValueError (Num.np_min all_voltage_data);
    vmax ← from_option ValueError (Num.np_max all_voltage_data);
    sb ← gets threshold_spinbox;
    _ ← (if Qeq_bool (sb_value sb) (sb_minimum sb)
         then
           _ ← modify (set_logic_threshold (Some (0.7 * vmax)));
           modify (set_threshold_spinbox
                     (mkSpinBox (sb_value sb) (sb_minimum sb)
                                (F3f "Auto (" (0.7 * vmax) " V)")))
         else modify (set_logic_threshold (Some (sb_value sb))));
    time_data ← gets (λ s, DataExtraction.x (obj_dataext s));
    _ ← the_axes;
    t_first ← from_option IndexError (head time_data);
    t_last ← from_option IndexError (last_item time_data);
    _ ← update_axes (set_ax_xlim (Some (t_first, t_last)));
    spacing ← gets (λ s, vertical_spacing s * vmax);
    let annotation_offset_base := 0.01 * (t_last - t_first) in
    ticks ← for_collect (enumerate (reverse visible))
              (λ ri, timing_trace time_data t_last vmax spacing
                                  annotation_offset_base ri.1 ri.2);
    _ ← update_axes
          (set_ax_ylim
             (Some ((-0.5) * vmax,
                    inject_Z (Z.of_nat (length visible)) * spacing
                    + 0.1 * vmax)));
    _ ← update_axes (set_ax_yticks ticks.*1);
    _ ← update_axes
          (set_ax_yticklabels ((λ l, mkTick l "black") <$> ticks.*2));
    _ ← modify update_timing_tick_colors;
    _ ← modify set_time_axis_label;
    threshold ← gets logic_threshold;
    threshold ← from_option (OtherError "TypeError") threshold;
    _ ← add_line (mkLine [0; 1] [threshold; threshold] "red" 1 ":"
                         THRESHOLD_ALPHA "" DrawDefault);
    legend ← gets legend_check;
    if legend : bool then skip
    else update_axes
           (set_ax_title
              (Some (F3f "Digital Timing Diagram (Threshold: " threshold
                         " V)"))).

(** ** Refresh *)

Inductive analysis_type := ac_linear | ac_log | transient | dc.

(** The first visible trace, [0] when there is none. *)
Definition first_visible (s : plotWindow) : nat :=
  default 0%nat (head (visible_indices s)).

(** The body of the loop of [_plot_analysis_data] for a visible trace. *)
Definition plot_trace (kind : analysis_type) (trace_index : nat) : M unit :=
  fallback ← palette_cycle trace_index;
  color ← gets (λ s, PyDict.get_default (trace_colors s) trace_index
                                        fallback);
  label ← gets (λ s, trace_label s trace_index);
  label ← from_option IndexError label;
  thickness ← gets (λ s, PyDict.get_default (trace_thickness s) trace_index
                                            DEFAULT_LINE_THICKNESS);
  style ← gets (λ s, PyDict.get_default (trace_style s) trace_index "-");
  _ ← the_axes;
  xs ← gets (λ s, DataExtraction.x (obj_dataext s));
  ys ← gets (λ s, DataExtraction.y (obj_dataext s));
  data ← from_option IndexError (ys !! trace_index);
  let plot_style := if decide (style = "steps-post") then "-" else style in
  line ←
    match kind with
    | transient | dc =>
        if decide (style = "steps-post")
        then axes_step xs data thickness color label
        else axes_plot xs data plot_style DrawDefault thickness color label
    | ac_log =>
        _ ← update_axes (set_ax_xscale "log");
        axes_plot xs data plot_style DrawDefault thickness color label
    | ac_linear =>
        axes_plot xs data plot_style DrawDefault thickness color label
    end;
  modify (λ s, set_active_traces
                 (PyDict.set (active_traces s) trace_index line) s).

Definition _plot_analysis_data (kind : analysis_type) : M unit :=
  _ ← modify (set_axes (Some new_axes));
  visible ← gets visible_indices;
  _ ← for_each visible (plot_trace kind);
  fv ← gets first_visible;
  vl ← gets volts_length;
  _ ← update_axes
        (set_ax_xlabel
           match kind with
           | ac_linear | ac_log => "freq-->"
           | transient => "time-->"
           | dc => "Voltage Sweep(V)-->"
           end);
  _ ← update_axes
        (set_ax_ylabel
           (if decide (fv < vl)%nat then "Voltage(V)-->"
            else "Current(I)-->"));
  if decide (length visible = 0%nat)
  then axes_text (mkText 0.5 0.5
                         (FText "Please select at least one waveform")
                         "black")
  else skip.

(** [refresh_plot]: the figure and [active_traces] are cleared and the
    view is drawn again on new axes.  The grid and the legend decorate the
    axes and are not modelled. *)
Definition refresh_plot : M unit :=
  _ ← modify (set_active_traces []);
  timing ← gets timing_check;
  if timing : bool
  then
    _ ← modify (set_axes (Some new_axes));
    plot_timing_diagram
  else
    pt ← gets plot_type;
    match pt.1 with
    | AC_ANALYSIS =>
        if decide (pt.2 = 1%nat) then _plot_analysis_data ac_log
        else _plot_analysis_data ac_linear
    | TRANSIENT_ANALYSIS => _plot_analysis_data transient
    | DC_ANALYSIS => _plot_analysis_data dc
    end.

(** ** CursorMeasurement *)

(** [line.remove()]: the line leaves the axes. *)
Definition line_remove (id : nat) : M unit :=
  modify (λ s,
    match axes s with
    | Some ax =>
        set_axes (Some (set_ax_lines (filter (λ i, i ≠ id) (ax_lines ax)) ax))
                 s
    | None => s
    end).

(** [l[i] = v] on a Python list: [IndexError] outside the list. *)
Definition list_assign {A} (l : list A) (i : nat) (v : A)
    : option (list A) :=
  if decide (i < length l)%nat then Some (<[i := v]> l) else None.

(** [set_cursor(cursor_num, x_pos, axes)]; [on_canvas_click] passes
    [self.axes]. *)
Definition set_cursor (cursor_num : nat) (x_pos : Q) : M unit :=
  lines ← gets cursor_lines;
  _ ← match lines !! cursor_num with
      | Some (Some old) => line_remove old
      | _ => skip
      end;
  let color := if decide (cursor_num = 0%nat) then "red" else "blue" in
  line ← add_line (mkLine [x_pos; x_pos] [0; 1] color RC_LINEWIDTH "--"
                          CURSOR_ALPHA "" DrawDefault);
  lines ← gets cursor_lines;
  _ ← (if decide (length lines ≤ cursor_num)%nat
       then
         _ ← modify (λ s, set_cursor_lines (cursor_lines s ++ [Some line]) s);
         modify (λ s, set_cursor_positions
                        (cursor_positions s ++ [Some x_pos]) s)
       else
         lines' ← from_option IndexError
                    (list_assign lines cursor_num (Some line));
         _ ← modify (set_cursor_lines lines');
         positions ← gets cursor_positions;
         positions' ← from_option IndexError
                        (list_assign positions cursor_num (Some x_pos));
         modify (set_cursor_positions positions'));
  _ ← (if decide (cursor_num = 0%nat)
       then modify (set_cursor1_label (F6g "Cursor 1: " x_pos ""))
       else modify (set_cursor2_label (F6g "Cursor 2: " x_pos "")));
  positions ← gets cursor_positions;
  match positions with
  | Some p0 :: Some p1 :: _ =>
      let delta := Qabs (p1 - p0) in
      _ ← modify (set_delta_label (F6g "Delta: " delta ""));
      pt ← gets plot_type;
      if decide (pt.1 = AC_ANALYSIS)
      then
        let freq_delta := if Num.ne delta 0 then 1 / delta else 0 in
        modify (set_measure_label (F6g "Freq: " freq_delta " Hz"))
      else skip
  | _ => skip
  end.

(** [on_canvas_click]: a left click places cursor 0, a middle click
    cursor 1; [xdata] is the position of the click inside the axes. *)
Definition on_canvas_click (button : nat) (xdata : Q) : M unit :=
  ax ← gets axes;
  match ax with
  | None => skip
  | Some _ =>
      if decide (button = 1%nat) then set_cursor 0 xdata
      else if decide (button = 2%nat) then set_cursor 1 xdata
      else skip
  end.

Definition clear_cursors : M unit :=
  lines ← gets cursor_lines;
  _ ← for_each lines (λ line, match line with
                              | Some id => line_remove id
                              | None => skip
                              end);
  _ ← modify (set_cursor_lines []);
  _ ← modify (set_cursor_positions []);
  _ ← modify (set_cursor1_label (FText "Cursor 1: Not set"));
  _ ← modify (set_cursor2_label (FText "Cursor 2: Not set"));
  _ ← modify (set_delta_label (FText "Delta: --"));
  modify (set_measure_label (FText "")).

(** [on_waveform_toggle(item)]: [index] is the trace of the item and
    [selected] its selection state. *)
Definition on_waveform_toggle (fromHsvF_name : Q → Q → Q → string)
    (index : nat) (selected : bool) : M unit :=
  _ ← modify (λ s, set_trace_visibility
                     (PyDict.set (trace_visibility s) index selected) s);
  colors ← gets trace_colors;
  _ ← (if selected && negb (PyDict.contains colors index)
       then modify (assign_trace_color fromHsvF_name index)
       else skip);
  label ← gets (λ s, trace_label s index);
  _ ← from_option IndexError label;
  refresh_plot.

(** ** ExpressionEvaluator *)

(** [text.split(" ")] *)
Fixpoint split_space (text : string) : list string :=
  match text with
  | EmptyString => [EmptyString]
  | String c rest =>
      if decide (c = " "%char) then EmptyString :: split_space rest
      else
        match split_space rest with
        | word :: words => String c word :: words
        | [] => [String c EmptyString]
        end
  end.

(** [" ".join(parts)] *)
Fixpoint join_space (parts : list string) : string :=
  match parts with
  | [] => ""
  | [p] => p
  | p :: rest => p +:+ " " +:+ join_space rest
  end.

(** The tokens of the input line: a trailing empty token is dropped. *)
Definition function_parts (s : plotWindow) : list string :=
  let parts := split_space (func_input s) in
  if decide (last_item parts = Some "") then removelast parts else parts.

(** The index of the first trace called [name], if any. *)
Definition find_trace (names : list string) (name : string) : option nat :=
  fst <$> list_find (λ trace_name, name = trace_name) names.

(** The tokens at the even positions. *)
Fixpoint operands (parts : list string) : list string :=
  match parts with
  | [] => []
  | [operand] => [operand]
  | operand :: _ :: rest => operand :: operands rest
  end.

(** The traces matched by the operands; an operand that names no trace
    contributes nothing. *)
Definition match_traces (names parts : list string) : list nat :=
  omap (find_trace names) (operands parts).

(** The exceptions caught by
    [except (ArithmeticError, ZeroDivisionError)]. *)
Definition is_arithmetic (e : exn) : bool :=
  match e with
  | ZeroDivisionError | ArithmeticError | OverflowError => true
  | _ => false
  end.

Section ExpressionEvaluator.

(** [str(v)] on a sample, and Python's [eval] on an expression string:
    [eval] runs the expression as code in the scope of the method, so it is
    a statement that may raise and may change the window. *)
Variable py_str : Q → string.
Variable py_eval : string → M Q.

(** The expression of sample [j]: every even position of the copy of
    [function_parts] is replaced by the text of the operand's sample. *)
Definition expression_parts (parts : list string) (combo_data : list (list Q))
    (j : nat) : option (list string) :=
  mapM id
    (imap (λ i part,
             if Nat.even i
             then match combo_data !! (i / 2)%nat with
                  | Some data => py_str <$> data !! j
                  | None => Some part
                  end
             else Some part)
          parts).

(** The evaluation loop over the sample indices [js]; [None] is the
    [return] after the arithmetic warning. *)
Fixpoint evaluate (parts : list string) (combo_data : list (list Q))
    (js : list nat) (final_result : list Q) : M (option (list Q)) :=
  match js with
  | [] => mret (Some final_result)
  | j :: js' =>
      expr ← from_option IndexError (expression_parts parts combo_data j);
      let expression_string := join_space expr in
      value ← try_except (Some <$> py_eval expression_string) is_arithmetic
                 (_ ← warning "Division by zero or arithmetic error!";
                  mret None);
      match value with
      | Some v => evaluate parts combo_data js' (final_result ++ [v])
      | None => mret None
      end
  end.

(** The [x vs y] form. *)
Definition plot_versus (parts : list string) (trace_indices : list nat)
    : M unit :=
  ax ← gets axes;
  match ax with
  | None => skip
  | Some _ =>
      ys ← gets (λ s, DataExtraction.y (obj_dataext s));
      i0 ← from_option IndexError (trace_indices !! 0%nat);
      x_data ← from_option IndexError (ys !! i0);
      i1 ← from_option IndexError (trace_indices !! 1%nat);
      y_data ← from_option IndexError (ys !! i1);
      p0 ← from_option IndexError (parts !! 0%nat);
      p2 ← from_option IndexError (parts !! 2%nat);
      _ ← axes_plot x_data y_data "-" DrawDefault RC_LINEWIDTH "green"
                    (p0 +:+ " vs " +:+ p2);
      vl ← gets volts_length;
      if decide (max_list trace_indices < vl)%nat
      then
        _ ← update_axes (set_ax_ylabel "Voltage(V)-->");
        update_axes (set_ax_xlabel "Voltage(V)-->")
      else
        _ ← update_axes (set_ax_ylabel "Current(I)-->");
        update_axes (set_ax_xlabel "Current(I)-->")
  end.

Definition plot_function : M unit :=
  parts ← gets function_parts;
  if decide (length parts ≤ 2)%nat
  then warning "Too Few Arguments/SYNTAX Error!
Refer Examples"
  else
    names ← gets (λ s, DataExtraction.NBList (obj_dataext s));
    let trace_indices := match_traces names parts in
    if decide (length trace_indices ≠ length parts / 2 + 1)%nat
    then warning
      "One of the operands doesn't belong to the above list of Nodes!!"
    else if decide (length parts = 3%nat ∧ parts !! 1%nat = Some "vs")
    then plot_versus parts trace_indices
    else
      vl ← gets volts_length;
      let voltage_indices := filter (λ idx, idx < vl)%nat trace_indices in
      let current_indices := filter (λ idx, vl ≤ idx)%nat trace_indices in
      if decide (voltage_indices ≠ [] ∧ current_indices ≠ [])
      then warning "Do not combine Voltage and Current!!"
      else
        ys ← gets (λ s, DataExtraction.y (obj_dataext s));
        combo_data ← from_option IndexError
                       (mapM (λ idx, ys !! idx) trace_indices);
        first ← from_option IndexError (combo_data !! 0%nat);
        result ← evaluate parts combo_data (seq 0 (length first)) [];
        match result with
        | None => skip
        | Some final_result =>
            ax ← gets axes;
            match ax with
            | None => skip
            | Some _ =>
                xs ← gets (λ s, DataExtraction.x (obj_dataext s));
                _ ← axes_plot xs final_result "-" DrawDefault 2 "green"
                              (join_space parts);
                skip
            end
        end.

End ExpressionEvaluator.

(** ** The restricted arithmetic grammar of the specification

    Numeric literals, [+ - * /] and parentheses: the language the
    specification allows the evaluator to accept.  It is used to state what
    the specification asks of [plot_function]. *)

Inductive arith_token := TNum | TSign | TMul | TOpen | TClose.

Definition is_digit (c : ascii) : bool :=
  let n := nat_of_ascii c in (48 <=? n)%nat && (n <=? 57)%nat.

(** The tokens of an expression; [None] on a character outside the
    grammar.  [in_number] tells that the previous character was part of a
    literal. *)
Fixpoint lex (e : string) (in_number : bool) : option (list arith_token) :=
  match e with
  | EmptyString => Some []
  | String c rest =>
      if is_digit c || bool_decide (c = "."%char)
      then
        if in_number then lex rest true
        else cons TNum <$> lex rest true
      else if bool_decide (c = " "%char) then lex rest false
      else if bool_decide (c = "+"%char) || bool_decide (c = "-"%char)
      then cons TSign <$> lex rest false
      else if bool_decide (c = "*"%char) || bool_decide (c = "/"%char)
      then cons TMul <$> lex rest false
      else if bool_decide (c = "("%char) then cons TOpen <$> lex rest false
      else if bool_decide (c = ")"%char) then cons TClose <$> lex rest false
      else None
  end.

(** An infix expression: operands and operators alternate (a sign may
    prefix an operand) and the parentheses balance.  [operand] tells that an
    operand is expected and [depth] counts the open parentheses. *)
Fixpoint well_formed (ts : list arith_token) (operand : bool) (depth : nat)
    : bool :=
  match ts with
  | [] => negb operand && bool_decide (depth = 0%nat)
  | t :: ts' =>
      match t, operand with
      | TNum, true => well_formed ts' false depth
      | TSign, _ => well_formed ts' true depth
      | TOpen, true => well_formed ts' true (S depth)
      | TMul, false => well_formed ts' true depth
      | TClose, false =>
          match depth with
          | O => false
          | S d => well_formed ts' false d
          end
      | _, _ => false
      end
  end.

Definition restricted_expression (e : string) : bool :=
  match lex e false with
  | Some ts => well_formed ts true 0
  | None => false
  end.

(** What the specification asks: the evaluation never consults the
    general evaluator outside the restricted grammar, so two evaluators that
    agree on the grammar give the same plot. *)
Definition restricted_evaluation (py_str : Q → string) (s : plotWindow)
    : Prop :=
  ∀ eval1 eval2 : string → M Q,
    (∀ e, restricted_expression e = true → eval1 e = eval2 e) →
    plot_function py_str eval1 s = plot_function py_str eval2 s.

(** The expression of sample [j] in the words of the specification:
    each operand replaced by its value at [j], the operators kept. *)
Definition substituted (py_str : Q → string) (parts : list string)
    (combo_data : list (list Q)) (j : nat) : list string :=
  imap (λ i part,
          if Nat.even i
          then py_str (nth j (nth (i / 2) combo_data []) 0)
          else part)
       parts.

(** ** Sample inputs *)

(** A rendering of integral samples, for the examples. *)
Definition show_sample (v : Q) : string := pretty (Qnum v).

(** A transient run with two voltage traces and one current trace. *)
Definition sample_data : DataExtraction.t :=
  DataExtraction.mk [0; 1; 2] [[0; 5; 0]; [5; 0; 4]; [1; 1; 1]]
                    ["v1"; "v2"; "i1"] 2.

Definition no_config : Config := mkConfig [] [] [] false.

(** A conversion of HSV colours, for the examples. *)
Definition sample_hsv (h s v : Q) : string := "hsv".

(** The window after construction on [dataext]; the outcome of the load
    is dropped. *)
Definition loaded (dataext : DataExtraction.t) (ptype : analysis)
    (cfg : Config) (spin0 : Q) : plotWindow :=
  (load_simulation_data
     (init dataext (ptype, 0%nat)
           (S (length (DataExtraction.NBList dataext)),
            DataExtraction.volts_length dataext)
           cfg spin0)).2.

(** The sample run loaded, the timing view ticked and the threshold spin
    box at its minimum. *)
Definition sample_window : plotWindow :=
  set_timing_check true
    (loaded sample_data TRANSIENT_ANALYSIS no_config (-100)).

(** Thirteen traces, one more than the palette has colours. *)
Definition thirteen_names : list string :=
  [ "n0"; "n1"; "n2"; "n3"; "n4"; "n5"; "n6"; "n7"; "n8"; "n9"; "n10";
    "n11"; "n12" ].

Definition thirteen_data : DataExtraction.t :=
  DataExtraction.mk [0; 1; 2] (replicate 13 [0; 5; 0]) thirteen_names 13.

Definition thirteen_window : plotWindow :=
  loaded thirteen_data TRANSIENT_ANALYSIS no_config (-100).

(** ** Vocabulary of the properties *)

(** [returns m s Q]: run from [s], the statement [m] returns normally,
    with a result and a final state that satisfy [Q]. *)
Definition returns {A} (m : M A) (s : plotWindow)
    (Q : A → plotWindow → Prop) : Prop :=
  ∃ a s', m s = (Return a, s') ∧ Q a s'.

(** The colour a trace gets at load: the saved colour of its name, or
    else the palette colour at its index modulo the palette size. *)
Definition load_color (cfg : Config) (i : nat) (name : string)
    : option string :=
  match PyDict.get (trace_colours cfg) name with
  | Some saved => Some saved
  | None =>
      VIBRANT_COLOR_PALETTE !! (i mod length VIBRANT_COLOR_PALETTE)%nat
  end.

(** A saved configuration that gives trace [n12] a colour of its own. *)
Definition saved_n12 : Config := mkConfig [("n12", "#000000")] [] [] false.

(** The last sentence of C10 as it is stated: after the load of a dataset
    with more traces than the palette has colours, two distinct traces hold
    the same colour. *)
Definition overflow_shares_a_color (dataext : DataExtraction.t)
    (cfg : Config) : Prop :=
  let s := loaded dataext TRANSIENT_ANALYSIS cfg (-100) in
  (length VIBRANT_COLOR_PALETTE < length (DataExtraction.NBList dataext))%nat
  → ∃ i j c, i ≠ j ∧ PyDict.get (trace_colors s) i = Some c
             ∧ PyDict.get (trace_colors s) j = Some c.

(** A window on an AC run after its first refresh, with no cursor set. *)
Definition ac_window : plotWindow :=
  (refresh_plot (loaded sample_data AC_ANALYSIS no_config (-100))).2.

(** A millisecond-scale transient run: traces [v1] and [v2] visible in
    the timing view, drawn once. *)
Definition ms_data : DataExtraction.t :=
  DataExtraction.mk [0; 1 # 1000; 2 # 1000]
                    [[0; 5; 0]; [5; 0; 4]; [1; 1; 1]]
                    ["v1"; "v2"; "i1"] 2.

Definition show (indices : list nat) (s : plotWindow) : plotWindow :=
  foldl (λ s i, set_trace_visibility (PyDict.set (trace_visibility s) i true)
                                     s)
        s indices.

Definition ms_window : plotWindow :=
  (refresh_plot
     (show [0%nat; 1%nat]
           (set_timing_check true
              (loaded ms_data TRANSIENT_ANALYSIS no_config (-100))))).2.

(** The data that a drawing of the timing view needs: a visible trace, a
    time axis with a sample, and for every visible trace a name and as many
    samples as the time axis has. *)
Definition timing_ready (s : plotWindow) : Prop :=
  visible_indices s ≠ []
  ∧ DataExtraction.x (obj_dataext s) ≠ []
  ∧ ∀ idx, idx ∈ visible_indices s →
      is_Some (DataExtraction.NBList (obj_dataext s) !! idx)
      ∧ ∃ raw, DataExtraction.y (obj_dataext s) !! idx = Some raw
               ∧ length raw = length (DataExtraction.x (obj_dataext s)).

(** The attributes that the drawing of the timing view reads. *)
Definition same_inputs (s s' : plotWindow) : Prop :=
  obj_dataext s' = obj_dataext s
  ∧ trace_visibility s' = trace_visibility s
  ∧ trace_colors s' = trace_colors s
  ∧ trace_thickness s' = trace_thickness s
  ∧ trace_names s' = trace_names s
  ∧ logic_threshold s' = logic_threshold s
  ∧ vertical_spacing s' = vertical_spacing s
  ∧ legend_check s' = legend_check s
  ∧ timing_check s' = timing_check s
  ∧ threshold_spinbox s' = threshold_spinbox s.

(** The y-series of the timing view for a trace: the logic level of
    every sample, lifted by the rank of the trace. *)
Definition stacked_levels (raw : list Q) (threshold vmax spacing : Q)
    (rank : nat) : list Q :=
  map (λ v, (if Num.gt v threshold then vmax else 0)
            + inject_Z (Z.of_nat rank) * spacing)
      raw.

(** The threshold that a drawing of the timing view uses: 0.7 of the
    maximum while the spin box shows its special value, else the value of the
    spin box. *)
Definition effective_threshold (s : plotWindow) (vmax : Q) : Q :=
  if Qeq_bool (sb_value (threshold_spinbox s))
              (sb_minimum (threshold_spinbox s))
  then 0.7 * vmax
  else sb_value (threshold_spinbox s).

(** What a drawing of the timing view leaves as it found it. *)
Definition controls_kept (s s' : plotWindow) : Prop :=
  obj_dataext s' = obj_dataext s
  ∧ trace_visibility s' = trace_visibility s
  ∧ vertical_spacing s' = vertical_spacing s
  ∧ timing_check s' = timing_check s
  ∧ sb_value (threshold_spinbox s') = sb_value (threshold_spinbox s)
  ∧ sb_minimum (threshold_spinbox s') = sb_minimum (threshold_spinbox s).

(** The sample window with [v1] and [v2] visible, on new axes, as
    [refresh_plot] hands it to [plot_timing_diagram]: the maximum of the
    visible samples is 5 and the spacing factor 1.2. *)
Definition timing_window : plotWindow :=
  set_axes (Some new_axes) (show [0%nat; 1%nat] sample_window).

(** The input line of [s] is accepted as elementwise arithmetic: it has
    at least three tokens [parts], every operand names a trace, it is not the
    [vs] form, the operands are not a mix of voltages and currents, and
    [combo_data] holds the samples of the operands. *)
Definition elementwise_request (s : plotWindow) (parts : list string)
    (combo_data : list (list Q)) : Prop :=
  let trace_indices :=
    match_traces (DataExtraction.NBList (obj_dataext s)) parts in
  parts = function_parts s
  ∧ (2 < length parts)%nat
  ∧ length trace_indices = (length parts / 2 + 1)%nat
  ∧ ¬ (length parts = 3%nat ∧ parts !! 1%nat = Some "vs")
  ∧ ¬ (filter (λ idx, idx < volts_length s)%nat trace_indices ≠ []
       ∧ filter (λ idx, volts_length s ≤ idx)%nat trace_indices ≠ [])
  ∧ mapM (λ idx, DataExtraction.y (obj_dataext s) !! idx) trace_indices
    = Some combo_data.

(** An evaluator that answers without touching the window. *)
Definition pure_eval (answer : string → outcome Q) : string → M Q :=
  λ e s, (answer e, s).

(** Python's answers on the expressions of the examples. *)
Definition sample_eval : string → M Q :=
  pure_eval (λ e,
    if decide (e = "0 + 5") then Return 5
    else if decide (e = "5 + 0") then Return 5
    else if decide (e = "0 + 4") then Return 4
    else if decide (e = "0 / 5") then Return 0
    else if decide (e = "5 / 0") then Raise ZeroDivisionError
    else Raise (OtherError "SyntaxError")).

(** The sample run on axes, with [func] typed into the input line. *)
Definition function_window (func : string) : plotWindow :=
  set_axes (Some new_axes)
    (set_func_input func
       (loaded sample_data TRANSIENT_ANALYSIS no_config (-100))).

(** ** Invariants used by the proofs *)

(** The part of the window that the load never changes, and the colours
    prepared in [self.color]. *)
Definition load_frame (cfg : Config) (names : list string)
    (s : plotWindow) : Prop :=
  color_palette s = VIBRANT_COLOR_PALETTE
  ∧ config s = cfg
  ∧ DataExtraction.NBList (obj_dataext s) = names
  ∧ ∀ k c, color s !! k = Some c →
      VIBRANT_COLOR_PALETTE !! (k mod length VIBRANT_COLOR_PALETTE)%nat
      = Some c.

(** What the loop of [populate_waveform_list] has established once the
    first [n] traces are done. *)
Definition populated (cfg : Config) (names : list string) (n : nat)
    (s : plotWindow) : Prop :=
  load_frame cfg names s
  ∧ (∀ i name, names !! i = Some name → (i < n)%nat →
       PyDict.get (trace_colors s) i = load_color cfg i name
       ∧ PyDict.get (trace_visibility s) i = Some false)
  ∧ Forall (λ kv, kv.2 = false) (trace_visibility s)
  ∧ (∀ i, is_Some (PyDict.get (trace_visibility s) i) →
          is_Some (PyDict.get (trace_colors s) i)).

(** What the drawing loop has put on the axes once the first [n] traces
    of [order] are drawn, starting from the window [s] with axes [ax]. *)
Definition traces_drawn (s : plotWindow) (ax : Axes) (order : list nat)
    (threshold vmax spacing : Q) (n : nat) (s' : plotWindow) : Prop :=
  same_inputs s s'
  ∧ next_artist s' = (next_artist s + n)%nat
  ∧ (∃ ax', axes s' = Some ax'
            ∧ ax_lines ax' = ax_lines ax ++ seq (next_artist s) n)
  ∧ ∀ rank idx, order !! rank = Some idx → (rank < n)%nat →
      ∃ line raw,
        artists s' !! (next_artist s + rank)%nat = Some line
        ∧ DataExtraction.y (obj_dataext s) !! idx = Some raw
        ∧ ydata line = stacked_levels raw threshold vmax spacing rank
        ∧ line_drawstyle line = DrawStepsPost.

(** The decorations drawn after the loop keep the lines of the axes and
    the y-data of every line. *)
Definition decorated (s s' : plotWindow) (ax : Axes) : Prop :=
  (∃ ax', axes s' = Some ax' ∧ ax_lines ax' = ax_lines ax)
  ∧ same_inputs s s'
  ∧ next_artist s' = next_artist s
  ∧ ∀ id line, artists s !! id = Some line →
      ∃ line', artists s' !! id = Some line'
               ∧ ydata line' = ydata line
               ∧ line_drawstyle line' = line_drawstyle line.

(** ** Vocabulary of the further properties *)

(** [always K m]: the statement [m] keeps [K], whether it returns or
    raises. *)
Definition always {A} (K : plotWindow → Prop) (m : M A) : Prop :=
  ∀ s, K s → K (m s).2.

(** The attributes that a redraw has no business with: the data, the
    configuration, the registry of the traces, the cursors and their labels,
    the controls and the messages. *)
Definition registry (s : plotWindow) :=
  (obj_dataext s, plot_type s, data_info s, volts_length s, config s,
   color_palette s, color s, trace_visibility s, trace_colors s,
   trace_thickness s, trace_style s, trace_names s, cursor_lines s,
   cursor_positions s, vertical_spacing s, sb_value (threshold_spinbox s),
   sb_minimum (threshold_spinbox s), timing_check s, legend_check s,
   func_input s, cursor1_label s, cursor2_label s, delta_label s,
   measure_label s, messages s).

(** During a redraw that started from [s0] with [lo] artists made: the
    registry is that of [s0], there are axes, and every line on them was
    made since. *)
Definition redrawing (s0 : plotWindow) (lo : nat) (s : plotWindow) : Prop :=
  registry s = registry s0
  ∧ (lo ≤ next_artist s)%nat
  ∧ ∃ ax, axes s = Some ax ∧ ∀ id, id ∈ ax_lines ax → (lo ≤ id)%nat.

(** The data that a drawing of the normal view needs: a palette to fall
    back on, and for every visible trace a name and as many samples as the
    axis has. *)
Definition plot_ready (s : plotWindow) : Prop :=
  color_palette s ≠ []
  ∧ ∀ idx, idx ∈ visible_indices s →
      is_Some (DataExtraction.NBList (obj_dataext s) !! idx)
      ∧ ∃ raw, DataExtraction.y (obj_dataext s) !! idx = Some raw
               ∧ length raw = length (DataExtraction.x (obj_dataext s)).

(** How the normal view styles the line of the trace [idx]: the registry's
    colour (else the palette colour of the index), thickness, name and
    style; the style [steps-post] gives a step line under transient and DC
    analysis and a solid line otherwise. *)
Definition styled_as (s : plotWindow) (kind : analysis_type) (idx : nat)
    (line : Line2D) : Prop :=
  let style := PyDict.get_default (trace_style s) idx "-" in
  Some (line_color line)
  = match PyDict.get (trace_colors s) idx with
    | Some c => Some c
    | None => color_palette s !! (idx mod length (color_palette s))%nat
    end
  ∧ linewidth line
    = PyDict.get_default (trace_thickness s) idx DEFAULT_LINE_THICKNESS
  ∧ Some (line_label line) = trace_label s idx
  ∧ linestyle line = (if decide (style = "steps-post") then "-" else style)
  ∧ (line_drawstyle line = DrawStepsPost
     ↔ style = "steps-post" ∧ (kind = transient ∨ kind = dc)).

(** The sample run with [v1] and [i1] visible, in the normal view. *)
Definition normal_window : plotWindow :=
  show [0%nat; 2%nat] (loaded sample_data TRANSIENT_ANALYSIS no_config (-100)).

(** What the loop of [populate_waveform_list] has established about the
    thickness and the style once the first [n] traces are done: the saved
    value of the trace's name, or else the default. *)
Definition styles_loaded (cfg : Config) (names : list string) (n : nat)
    (s : plotWindow) : Prop :=
  ∀ i name, names !! i = Some name → (i < n)%nat →
    PyDict.get (trace_thickness s) i
    = Some (PyDict.get_default (cfg_trace_thickness cfg) name
                               DEFAULT_LINE_THICKNESS)
    ∧ PyDict.get (trace_style s) i
      = Some (PyDict.get_default (cfg_trace_style cfg) name "-").

(** A registry that can be saved and found again: the traces have distinct
    names, the names in [trace_names] are those of the data provider (as the
    load sets them and [rename_trace] keeps them), and the three styling
    dictionaries are dictionaries with no entry outside the traces. *)
Definition saveable (s : plotWindow) : Prop :=
  let names := DataExtraction.NBList (obj_dataext s) in
  NoDup names
  ∧ (∀ k name, PyDict.get (trace_names s) k = Some name →
               names !! k = Some name)
  ∧ (NoDup (PyDict.keys (trace_colors s))
     ∧ ∀ k, k ∈ PyDict.keys (trace_colors s) → (k < length names)%nat)
  ∧ (NoDup (PyDict.keys (trace_thickness s))
     ∧ ∀ k, k ∈ PyDict.keys (trace_thickness s) → (k < length names)%nat)
  ∧ (NoDup (PyDict.keys (trace_style s))
     ∧ ∀ k, k ∈ PyDict.keys (trace_style s) → (k < length names)%nat).

(** The sample run after the user has given [v2] a colour, a thickness and
    a style of their own. *)
Definition restyled_window : plotWindow :=
  let s := loaded sample_data TRANSIENT_ANALYSIS no_config (-100) in
  set_trace_style (PyDict.set (trace_style s) 1%nat "--")
    (set_trace_thickness (PyDict.set (trace_thickness s) 1%nat 3)
       (set_trace_colors (PyDict.set (trace_colors s) 1%nat "#000000") s)).

(** * Properties *)

(** Rational arithmetic stays folded during symbolic execution. *)
Local Arguments Qplus : simpl never.
Local Arguments Qminus : simpl never.
Local Arguments Qmult : simpl never.
Local Arguments Qdiv : simpl never.
Local Arguments Qopp : simpl never.
Local Arguments Qinv : simpl never.
Local Arguments Qabs : simpl never.
Local Arguments Qmax : simpl never.
Local Arguments Qmin : simpl never.
Local Arguments Qeq_bool : simpl never.
Local Arguments Qle_bool : simpl never.
Local Arguments inject_Z : simpl never.

(** ** Dictionaries *)

Section dict_facts.
Context {K V : Type} `{EqDecision K}.
Implicit Types (d : list (K * V)) (k : K) (v : V).

Lemma get_set_eq d k v : PyDict.get (PyDict.set d k v) k = Some v.
Proof.
  induction d as [|[k' v'] d IH]; simpl.
  - by rewrite decide_True.
  - destruct (decide (k' = k)); simpl.
    + by rewrite decide_True.
    + by rewrite decide_False.
Qed.

Lemma get_set_ne d k k' v :
  k ≠ k' → PyDict.get (PyDict.set d k v) k' = PyDict.get d k'.
Proof.
  intros Hne. induction d as [|[k0 v0] d IH]; simpl.
  - by rewrite decide_False.
  - destruct (decide (k0 = k)) as [->|]; simpl.
    + by rewrite !decide_False.
    + destruct (decide (k0 = k')); done.
Qed.

Lemma get_Some_values d k v :
  PyDict.get d k = Some v → v ∈ PyDict.values d.
Proof.
  unfold PyDict.values.
  induction d as [|[k' v'] d IH]; simpl; [done|].
  destruct (decide (k' = k)).
  - intros [= ->]. apply list_elem_of_here.
  - intros Hd. apply list_elem_of_further. by apply IH.
Qed.

Lemma get_is_Some_keys d k :
  is_Some (PyDict.get d k) ↔ k ∈ PyDict.keys d.
Proof.
  unfold PyDict.keys.
  induction d as [|[k' v'] d IH]; simpl.
  - split; [by intros [? ?]|by intros ?%elem_of_nil].
  - destruct (decide (k' = k)) as [->|Hne].
    + split; [intros _; apply list_elem_of_here|by eauto].
    + rewrite IH, elem_of_cons. split; [by right|].
      by intros [?|?].
Qed.

Lemma keys_set_new d k v :
  k ∉ PyDict.keys d → PyDict.set d k v = d ++ [(k, v)].
Proof.
  unfold PyDict.keys.
  induction d as [|[k' v'] d IH]; simpl; [done|].
  rewrite not_elem_of_cons. intros [Hne Hd].
  rewrite decide_False by done. by rewrite IH.
Qed.

End dict_facts.

(** ** Statements *)

Lemma bind_Return {A B} (m : M A) (f : A → M B) s a s' :
  m s = (Return a, s') → (m ≫= f) s = f a s'.
Proof. unfold mbind, M_bind. by intros ->. Qed.

Lemma bind_Raise {A B} (m : M A) (f : A → M B) s e s' :
  m s = (Raise e, s') → (m ≫= f) s = (Raise e, s').
Proof. unfold mbind, M_bind. by intros ->. Qed.

Lemma for_each_app {A} (l1 l2 : list A) (body : A → M unit) s :
  for_each (l1 ++ l2) body s
  = (for_each l1 body ≫= λ _, for_each l2 body) s.
Proof.
  revert s. induction l1 as [|a l1 IH]; intros s; simpl.
  - done.
  - unfold mbind, M_bind. destruct (body a s) as [[[]|e] s1]; [|done].
    apply IH.
Qed.

(** ** ColorAllocator *)

Lemma save_config_trace_colors s :
  trace_colors (save_config s) = trace_colors s.
Proof.
  unfold save_config.
  repeat (match goal with |- context [match ?o with _ => _ end] =>
            destruct o end); done.
Qed.

Lemma filter_first_split {A} (P : A → Prop) `{∀ a, Decision (P a)}
    (l : list A) (c : A) (rest : list A) :
  filter P l = c :: rest →
  ∃ pre post, l = pre ++ c :: post ∧ (∀ a, a ∈ pre → ¬ P a) ∧ P c.
Proof.
  induction l as [|a l IH]; [done|].
  rewrite filter_cons. destruct (decide (P a)) as [Ha|Ha].
  - intros [= -> _]. exists [], l. split_and!; [done| |done].
    by intros ? ?%elem_of_nil.
  - intros (pre & post & -> & Hpre & Hc)%IH.
    exists (a :: pre), post. split_and!; [done| |done].
    intros a' [->|?]%elem_of_cons; auto.
Qed.

Lemma elem_of_used_colors s c :
  c ∈ used_colors s ↔ c ∈ PyDict.values (trace_colors s).
Proof. unfold used_colors. by rewrite elem_of_list_to_set. Qed.

Lemma available_colors_nonempty s c :
  c ∈ color_palette s → c ∉ PyDict.values (trace_colors s) →
  available_colors s ≠ [].
Proof.
  intros Hc Hfree Hnil.
  assert (c ∈ available_colors s) as Hin.
  { unfold available_colors. apply list_elem_of_filter.
    by rewrite elem_of_used_colors. }
  rewrite Hnil in Hin. by apply elem_of_nil in Hin.
Qed.

(** C8. While a palette colour is free, [assign_trace_color] gives the
    trace the first palette colour that no tracked trace holds: the colours
    before it in the palette are all in use, it is not, the colours of the
    other traces are left as they were and every one of them differs from
    the new colour. *)
Theorem assign_trace_color_first_unused
    (fromHsvF_name : Q → Q → Q → string) (s : plotWindow) (index : nat) :
  (∃ c, c ∈ color_palette s ∧ c ∉ PyDict.values (trace_colors s)) →
  ∃ pre c post,
    color_palette s = pre ++ (c :: post)
    ∧ (∀ c', c' ∈ pre → c' ∈ PyDict.values (trace_colors s))
    ∧ (c ∉ PyDict.values (trace_colors s))
    ∧ PyDict.get (trace_colors (assign_trace_color fromHsvF_name index s))
                 index = Some c
    ∧ ∀ j cj, j ≠ index →
        PyDict.get (trace_colors (assign_trace_color fromHsvF_name index s))
                   j = Some cj →
        (PyDict.get (trace_colors s) j = Some cj ∧ cj ≠ c).
Proof.
  intros (c0 & Hpal & Hfree).
  pose proof (available_colors_nonempty s c0 Hpal Hfree) as Hne.
  unfold assign_trace_color. rewrite save_config_trace_colors.
  destruct (available_colors s) as [|c rest] eqn:Hav; [done|].
  apply filter_first_split in Hav as (pre & post & Hsplit & Hpre & Hc).
  rewrite elem_of_used_colors in Hc.
  exists pre, c, post. split_and!; [done| |done| |].
  - intros c' Hc'. specialize (Hpre c' Hc').
    rewrite elem_of_used_colors in Hpre.
    destruct (decide (c' ∈ PyDict.values (trace_colors s))); tauto.
  - cbn. apply get_set_eq.
  - intros j cj Hj. cbn. rewrite get_set_ne by done. intros Hget.
    split; [done|]. intros ->. apply Hc. by eapply get_Some_values.
Qed.

Lemma assign_trace_color_first_unused_witness :
  (∃ c, c ∈ color_palette sample_window
        ∧ c ∉ PyDict.values (trace_colors sample_window))
  ∧ PyDict.get (trace_colors (assign_trace_color sample_hsv 7%nat sample_window))
               7%nat = Some "#FB8C00".
Proof.
  assert (∃ c, c ∈ color_palette sample_window
               ∧ c ∉ PyDict.values (trace_colors sample_window)) as Hfree.
  { exists "#FB8C00". split; apply (bool_decide_unpack _); by vm_compute. }
  split; [exact Hfree|].
  destruct (assign_trace_color_first_unused sample_hsv sample_window 7%nat
              Hfree)
    as (pre & c & post & _ & _ & _ & Hget & _).
  rewrite Hget. f_equal.
  apply (inj Some). rewrite <- Hget. by vm_compute.
Defined.





(** ** Statements that return *)

Section returns.
Context {A B : Type}.
Implicit Types (s : plotWindow) (Q : A → plotWindow → Prop).

Lemma returns_ret (a : A) s Q : Q a s → returns (mret a) s Q.
Proof. intros HQ. by exists a, s. Qed.

Lemma returns_bind (m : M A) (f : A → M B) s (R : B → plotWindow → Prop) :
  returns m s (λ a s', returns (f a) s' R) → returns (m ≫= f) s R.
Proof.
  intros (a & s' & Hm & b & s'' & Hf & HR).
  exists b, s''. split; [|done]. by rewrite (bind_Return _ _ _ _ _ Hm).
Qed.

Lemma returns_gets (f : plotWindow → A) s Q :
  Q (f s) s → returns (gets f) s Q.
Proof. intros HQ. by exists (f s), s. Qed.

Lemma returns_from_option (e : exn) (o : option A) (a : A) s Q :
  o = Some a → Q a s → returns (from_option e o) s Q.
Proof. intros -> HQ. by exists a, s. Qed.

Lemma returns_mono (m : M A) s Q (Q' : A → plotWindow → Prop) :
  returns m s Q → (∀ a s', Q a s' → Q' a s') → returns m s Q'.
Proof. intros (a & s' & Hm & HQ) Himp. exists a, s'. auto. Qed.

End returns.

Lemma returns_modify (f : plotWindow → plotWindow) s
    (Q : unit → plotWindow → Prop) :
  Q tt (f s) → returns (modify f) s Q.
Proof. intros HQ. by exists tt, (f s). Qed.

Lemma returns_skip s (Q : unit → plotWindow → Prop) :
  Q tt s → returns skip s Q.
Proof. intros HQ. by exists tt, s. Qed.

(** A loop returns when its body keeps an invariant of the items already
    processed. *)
Lemma returns_for_each {A} (l : list A) (body : A → M unit)
    (I : list A → plotWindow → Prop) s :
  I [] s →
  (∀ pre a post s1, l = pre ++ a :: post → I pre s1 →
     returns (body a) s1 (λ _ s2, I (pre ++ [a]) s2)) →
  returns (for_each l body) s (λ _ s', I l s').
Proof.
  intros Hinit Hbody.
  cut (∀ todo pre s1, l = pre ++ todo → I pre s1 →
         returns (for_each todo body) s1 (λ _ s', I l s')).
  { intros Hgen. by apply (Hgen l [] s). }
  induction todo as [|a todo IH]; intros pre s1 Hl Hpre; simpl.
  - apply returns_skip. by rewrite Hl, app_nil_r.
  - apply returns_bind.
    eapply returns_mono; [by eapply Hbody|].
    intros [] s2 H2. simpl in H2. apply (IH (pre ++ [a])); [|done].
    by rewrite <- app_assoc.
Qed.

Lemma returns_for_collect {A B} (l : list A) (body : A → M B)
    (I : list A → list B → plotWindow → Prop) s :
  I [] [] s →
  (∀ pre a post bs s1, l = pre ++ a :: post → I pre bs s1 →
     returns (body a) s1 (λ b s2, I (pre ++ [a]) (bs ++ [b]) s2)) →
  returns (for_collect l body) s (λ bs s', I l bs s').
Proof.
  intros Hinit Hbody.
  cut (∀ todo pre bs s1, l = pre ++ todo → I pre bs s1 →
         returns (for_collect todo body) s1
                 (λ bs' s', I l (bs ++ bs') s')).
  { intros Hgen. by apply (Hgen l [] [] s). }
  induction todo as [|a todo IH]; intros pre bs s1 Hl Hpre; simpl.
  - apply returns_ret. by rewrite Hl, !app_nil_r.
  - apply returns_bind.
    eapply returns_mono; [by eapply Hbody|].
    intros b s2 H2. simpl in H2. apply returns_bind.
    eapply returns_mono.
    { apply (IH (pre ++ [a]) (bs ++ [b])); [|done]. by rewrite <- app_assoc. }
    intros bs' s3 H3. simpl in H3. apply returns_ret.
    by rewrite <- app_assoc in H3.
Qed.

(** The item at a position of [enumerate]. *)
Lemma enumerate_split {A} (l : list A) pre (a : nat * A) post :
  enumerate l = pre ++ a :: post →
  a.1 = length pre ∧ l !! length pre = Some a.2.
Proof.
  intros Hl.
  assert (enumerate l !! length pre = Some a) as Hlook.
  { rewrite Hl. by apply list_lookup_middle. }
  unfold enumerate in Hlook. rewrite list_lookup_imap in Hlook.
  destruct (l !! length pre) as [v|]; [|done].
  simpl in Hlook. by injection Hlook as <-.
Qed.

Lemma enumerate_length {A} (l : list A) : length (enumerate l) = length l.
Proof. apply length_imap. Qed.

(** ** Dataset load *)

Lemma palette_lookup (i : nat) :
  is_Some (VIBRANT_COLOR_PALETTE !! (i mod length VIBRANT_COLOR_PALETTE)%nat).
Proof.
  apply lookup_lt_is_Some. apply Nat.mod_upper_bound. by vm_compute.
Qed.

Lemma palette_cycle_returns (i : nat) s (Q : string → plotWindow → Prop) :
  color_palette s = VIBRANT_COLOR_PALETTE →
  (∀ c, VIBRANT_COLOR_PALETTE !! (i mod length VIBRANT_COLOR_PALETTE)%nat
        = Some c → Q c s) →
  returns (palette_cycle i) s Q.
Proof.
  intros Hpal HQ. unfold palette_cycle.
  apply returns_bind, returns_gets. simpl. rewrite Hpal.
  destruct (palette_lookup i) as [c Hc].
  rewrite decide_False by (by vm_compute).
  eapply returns_from_option; [exact Hc|]. by apply HQ.
Qed.

Lemma populate_item_returns cfg names (i : nat) (name : string) s
    (Q : unit → plotWindow → Prop) :
  load_frame cfg names s →
  (∀ col, load_color cfg i name = Some col →
     Q tt (set_trace_visibility (PyDict.set (trace_visibility s) i false)
            (set_trace_style
               (PyDict.set (trace_style s) i
                  (PyDict.get_default (cfg_trace_style cfg) name "-"))
               (set_trace_thickness
                  (PyDict.set (trace_thickness s) i
                     (PyDict.get_default (cfg_trace_thickness cfg) name
                                         DEFAULT_LINE_THICKNESS))
                  (set_trace_colors (PyDict.set (trace_colors s) i col)
                                    s))))) →
  returns (populate_item i name) s Q.
Proof.
  intros (Hpal & Hcfg & Hnames & Hcolor) HQ. unfold populate_item.
  do 4 (apply returns_bind, returns_gets; simpl). rewrite Hcfg.
  apply returns_bind.
  assert (returns
    match PyDict.get (trace_colours cfg) name with
    | Some saved => mret saved
    | None => match color s !! i with
              | Some ci => mret ci
              | None => palette_cycle i
              end
    end s (λ col s', s' = s ∧ load_color cfg i name = Some col)) as Hcol.
  { unfold load_color. destruct (PyDict.get (trace_colours cfg) name).
    - by apply returns_ret.
    - destruct (color s !! i) as [ci|] eqn:Hci.
      + apply returns_ret. split; [done|]. by apply Hcolor.
      + by apply palette_cycle_returns. }
  eapply returns_mono; [exact Hcol|]. intros col s' [-> Hload]. simpl.
  do 3 (apply returns_bind, returns_modify; simpl).
  apply returns_modify. by apply HQ.
Qed.

Lemma seq_split (m : nat) pre (a : nat) post :
  seq 0 m = pre ++ a :: post → a = length pre.
Proof.
  intros Hl.
  assert (seq 0 m !! length pre = Some a) as Hlook.
  { rewrite Hl. by apply list_lookup_middle. }
  apply lookup_seq in Hlook as [-> _]. done.
Qed.

Lemma Forall_dict_set {K V} `{EqDecision K} (P : K * V → Prop)
    (d : list (K * V)) k v :
  Forall P d → P (k, v) → Forall P (PyDict.set d k v).
Proof.
  intros Hd Hkv. induction Hd as [|[k' v'] d Hh Ht IH]; simpl.
  - by constructor.
  - destruct (decide (k' = k)); by constructor.
Qed.

Lemma populate_waveform_list_returns cfg names s :
  populated cfg names 0 s →
  returns populate_waveform_list s
          (λ _ s', populated cfg names (length names) s').
Proof.
  intros Hinit. unfold populate_waveform_list.
  apply returns_bind, returns_gets. simpl.
  destruct Hinit as (Hframe & Hinit).
  pose proof Hframe as (_ & _ & -> & _).
  eapply returns_mono.
  { apply (returns_for_each _ _
             (λ pre s', populated cfg names (length pre) s')).
    - by split.
    - intros pre [i name] post s1 Hsplit (Hfr & Hdone & Hvis & Hcol).
      apply enumerate_split in Hsplit as [Hi Hname]. simpl in Hi, Hname.
      subst i. eapply populate_item_returns; [exact Hfr|].
      intros col Hload. simpl in Hload. rewrite length_app. simpl.
      split_and!.
      + exact Hfr.
      + intros i name' Hname' Hlt. simpl.
        destruct (decide (length pre = i)) as [<-|Hne].
        * rewrite !get_set_eq. split; [|done]. congruence.
        * rewrite !get_set_ne by done. apply Hdone; [done|lia].
      + simpl. by apply Forall_dict_set.
      + intros i. simpl.
        destruct (decide (length pre = i)) as [<-|Hne].
        * rewrite !get_set_eq. eauto.
        * rewrite !get_set_ne by done. apply Hcol. }
  intros [] s'. by rewrite enumerate_length.
Qed.

Lemma load_simulation_data_returns dataext ptype dinfo cfg spin0 :
  returns load_simulation_data (init dataext ptype dinfo cfg spin0)
          (λ _ s', populated cfg (DataExtraction.NBList dataext)
                             (length (DataExtraction.NBList dataext)) s').
Proof.
  set (names := DataExtraction.NBList dataext).
  set (ready := λ s : plotWindow,
         load_frame cfg names s ∧ trace_colors s = []
         ∧ trace_visibility s = []).
  unfold load_simulation_data.
  apply returns_bind, returns_gets. simpl.
  apply returns_bind.
  eapply returns_mono.
  { apply (returns_for_each _ _
             (λ pre s', ready s' ∧ length (color s') = length pre)).
    - repeat split; simpl; try done.
    - intros pre i post s1 Hsplit [((Hpal & Hcfg & Hnames & Hcolor)
                                     & Hc & Hv) Hlen].
      apply seq_split in Hsplit as ->.
      apply returns_bind. apply palette_cycle_returns; [done|].
      intros col Hcol. apply returns_modify.
      repeat split; simpl; try done.
      + intros k c. destruct (decide (k = length (color s1))) as [->|Hne].
        * rewrite lookup_app_r, Nat.sub_diag by done. simpl.
          intros [= <-]. by rewrite Hlen.
        * intros Hk. apply Hcolor.
          destruct (decide (k < length (color s1))%nat).
          -- by rewrite lookup_app_l in Hk.
          -- apply lookup_lt_Some in Hk. rewrite length_app in Hk.
             simpl in Hk. lia.
      + rewrite !length_app. simpl. lia. }
  intros [] s1 [Hready _]. simpl.
  apply returns_bind, returns_modify. simpl.
  apply returns_bind, returns_gets. simpl.
  apply returns_bind.
  eapply returns_mono.
  { apply (returns_for_each _ _ (λ _ s', ready s')).
    - destruct Hready as ((? & ? & ? & ?) & ? & ?). by repeat split.
    - intros pre kv post s2 _ ((? & ? & ? & ?) & ? & ?).
      apply returns_modify. by repeat split. }
  intros [] s2 (Hframe & Hc & Hv). simpl.
  apply populate_waveform_list_returns.
  split_and!; [done| | |].
  - intros i name _ Hlt. lia.
  - rewrite Hv. constructor.
  - intros i. rewrite Hv. simpl. by intros [? ?].
Qed.

Lemma visible_indices_nil s :
  Forall (λ kv, kv.2 = false) (trace_visibility s) → visible_indices s = [].
Proof.
  unfold visible_indices. intros Hall.
  induction Hall as [|[k b] d Hb Hd IH]; [done|].
  simpl in Hb. subst b. rewrite filter_cons_False by done. exact IH.
Qed.

Lemma get_NoDup_values_inj {K V} `{EqDecision K} (d : list (K * V)) i j c :
  NoDup (PyDict.values d) →
  PyDict.get d i = Some c → PyDict.get d j = Some c → i = j.
Proof.
  unfold PyDict.values. induction d as [|[k v] d IH]; simpl; [done|].
  rewrite NoDup_cons. intros [Hv Hd].
  destruct (decide (k = i)) as [<-|Hi], (decide (k = j)) as [<-|Hj].
  - done.
  - intros [= ->] Hc. destruct Hv. by eapply (get_Some_values d j).
  - intros Hc [= ->]. destruct Hv. by eapply (get_Some_values d i).
  - by apply IH.
Qed.

(** C10 (amended). The load returns normally and gives every trace a
    colour while every trace is still invisible: the saved colour of the
    trace's name when the configuration has one, else the palette colour at
    the index modulo the palette size.  So a visible trace always has a
    colour, and two traces without a saved colour whose indices are congruent
    modulo the palette size hold the same colour; with no saved colour at all
    and more than twelve traces, traces 0 and 12 do. *)
Theorem load_assigns_every_color (dataext : DataExtraction.t)
    (ptype : analysis * nat) (dinfo : nat * nat) (cfg : Config)
    (spin0 : Q) :
  let names := DataExtraction.NBList dataext in
  ∃ s',
    load_simulation_data (init dataext ptype dinfo cfg spin0)
    = (Return tt, s')
    ∧ (∀ i name, names !! i = Some name →
         PyDict.get (trace_colors s') i = load_color cfg i name
         ∧ is_Some (PyDict.get (trace_colors s') i)
         ∧ PyDict.get (trace_visibility s') i = Some false)
    ∧ visible_indices s' = []
    ∧ (∀ i, is_Some (PyDict.get (trace_visibility s') i) →
            is_Some (PyDict.get (trace_colors s') i))
    ∧ (∀ i j ni nj,
         names !! i = Some ni → names !! j = Some nj →
         PyDict.get (trace_colours cfg) ni = None →
         PyDict.get (trace_colours cfg) nj = None →
         (i mod length VIBRANT_COLOR_PALETTE
          = j mod length VIBRANT_COLOR_PALETTE)%nat →
         PyDict.get (trace_colors s') i = PyDict.get (trace_colors s') j)
    ∧ (trace_colours cfg = [] → (12 < length names)%nat →
       ∃ c, PyDict.get (trace_colors s') 0%nat = Some c
            ∧ PyDict.get (trace_colors s') 12%nat = Some c).
Proof.
  intros names.
  destruct (load_simulation_data_returns dataext ptype dinfo cfg spin0)
    as ([] & s' & Hrun & Hframe & Hdone & Hvis & Hcol).
  fold names in Hdone.
  assert (∀ i name, names !! i = Some name →
            PyDict.get (trace_colors s') i = load_color cfg i name)
    as Hload.
  { intros i name Hname. apply Hdone; [done|]. by eapply lookup_lt_Some. }
  assert (∀ i j ni nj,
         names !! i = Some ni → names !! j = Some nj →
         PyDict.get (trace_colours cfg) ni = None →
         PyDict.get (trace_colours cfg) nj = None →
         (i mod length VIBRANT_COLOR_PALETTE
          = j mod length VIBRANT_COLOR_PALETTE)%nat →
         PyDict.get (trace_colors s') i = PyDict.get (trace_colors s') j)
    as Hsame.
  { intros i j ni nj Hi Hj Hni Hnj Hmod.
    rewrite (Hload i ni Hi), (Hload j nj Hj). unfold load_color.
    by rewrite Hni, Hnj, Hmod. }
  exists s'. split_and!; [done| |by apply visible_indices_nil|done|done|].
  - intros i name Hname. split_and!.
    + by apply Hload.
    + rewrite (Hload i name Hname). unfold load_color.
      destruct (PyDict.get (trace_colours cfg) name); [done|].
      apply palette_lookup.
    + eapply Hdone; [done|]. by eapply lookup_lt_Some.
  - intros Hnone Hlen.
    destruct (lookup_lt_is_Some_2 names 0) as [n0 Hn0]; [lia|].
    destruct (lookup_lt_is_Some_2 names 12) as [n12 Hn12]; [lia|].
    assert (PyDict.get (trace_colors s') 0%nat
            = PyDict.get (trace_colors s') 12%nat) as Heq.
    { apply (Hsame _ _ n0 n12); try done; by rewrite Hnone. }
    rewrite <- Heq, (Hload _ _ Hn0). unfold load_color. rewrite Hnone.
    simpl. eauto.
Qed.

Lemma load_assigns_every_color_witness :
  trace_colours no_config = []
  ∧ (12 < length (DataExtraction.NBList thirteen_data))%nat
  ∧ PyDict.get (trace_colors thirteen_window) 0%nat = Some "#E53935"
  ∧ PyDict.get (trace_colors thirteen_window) 12%nat = Some "#E53935".
Proof.
  assert (12 < length (DataExtraction.NBList thirteen_data))%nat as Hlen.
  { vm_compute. lia. }
  split_and!; [done|exact Hlen| |].
  - destruct (load_assigns_every_color thirteen_data
                (TRANSIENT_ANALYSIS, 0%nat) (14%nat, 13%nat) no_config
                (-100))
      as (s' & Hrun & _ & _ & _ & _ & Hdup).
    destruct (Hdup eq_refl Hlen) as (c & H0 & _).
    unfold thirteen_window, loaded. simpl length.
    change (DataExtraction.volts_length thirteen_data) with 13%nat.
    rewrite Hrun. simpl. rewrite H0. f_equal.
    apply (inj Some). rewrite <- H0.
    replace s' with thirteen_window; [by vm_compute|].
    unfold thirteen_window, loaded. simpl length.
    change (DataExtraction.volts_length thirteen_data) with 13%nat.
    by rewrite Hrun.
  - by vm_compute.
Defined.

(** C10 as stated fails: with a saved colour for trace [n12], the
    thirteen traces hold thirteen different colours after the load. *)
Lemma overflow_without_shared_color :
  ¬ overflow_shares_a_color thirteen_data saved_n12.
Proof.
  unfold overflow_shares_a_color. intros Hclaim.
  destruct Hclaim as (i & j & c & Hne & Hi & Hj).
  { vm_compute. lia. }
  apply Hne. eapply get_NoDup_values_inj; [|exact Hi|exact Hj].
  apply (bool_decide_unpack _). by vm_compute.
Qed.

(** ** CursorMeasurement *)

Ltac step :=
  first [ apply returns_bind | apply returns_gets | apply returns_modify
        | apply returns_skip | apply returns_ret
        | eapply returns_from_option; [first [eassumption|reflexivity]|] ];
  simpl.

Ltac steps := repeat step.

Lemma add_line_returns (l : Line2D) s ax (Q : nat → plotWindow → Prop) :
  axes s = Some ax →
  Q (next_artist s)
    (set_axes (Some (set_ax_lines (ax_lines ax ++ [next_artist s]) ax))
       (set_next_artist (S (next_artist s))
          (set_artists (<[next_artist s := l]> (artists s)) s))) →
  returns (add_line l) s Q.
Proof.
  intros Hax HQ. unfold add_line, update_axes, the_axes.
  steps. exact HQ.
Qed.

Lemma line_remove_returns (id : nat) s (Q : unit → plotWindow → Prop) :
  (∀ s', cursor_lines s' = cursor_lines s →
         cursor_positions s' = cursor_positions s →
         plot_type s' = plot_type s →
         (is_Some (axes s) → is_Some (axes s')) → Q tt s') →
  returns (line_remove id) s Q.
Proof.
  intros HQ. unfold line_remove. step.
  apply HQ; destruct (axes s); simpl; eauto; by intros [? ?].
Qed.

Lemma list_assign_Some {A} (l : list A) (i : nat) (v : A) :
  (i < length l)%nat → list_assign l i v = Some (<[i := v]> l).
Proof. intros Hi. unfold list_assign. by rewrite decide_True. Qed.

(** What [set_cursor] does when there are axes to draw on: the position
    is appended when [cursor_num] is not an index of [cursor_positions], and
    replaces the position at index [cursor_num] otherwise; then the
    measurements are reported. *)
Lemma set_cursor_returns (s : plotWindow) (cursor_num : nat) (x_pos : Q)
    (Q : unit → plotWindow → Prop) :
  is_Some (axes s) →
  length (cursor_lines s) = length (cursor_positions s) →
  (∀ s',
     cursor_positions s'
     = (if decide (length (cursor_positions s) ≤ cursor_num)%nat
        then cursor_positions s ++ [Some x_pos]
        else <[cursor_num := Some x_pos]> (cursor_positions s)) →
     (∀ p0 p1 rest,
        cursor_positions s' = Some p0 :: Some p1 :: rest →
        delta_label s' = F6g "Delta: " (Qabs (p1 - p0)) ""
        ∧ ((plot_type s).1 = AC_ANALYSIS →
           (Qabs (p1 - p0) == 0 →
            measure_label s' = F6g "Freq: " 0 " Hz")
           ∧ (¬ Qabs (p1 - p0) == 0 →
              measure_label s' = F6g "Freq: " (1 / Qabs (p1 - p0)) " Hz"))) →
     Q tt s') →
  returns (set_cursor cursor_num x_pos) s Q.
Proof.
  intros Hax Hlen HQ.
  (* the measurement made at the end, from any state *)
  assert (∀ s1, plot_type s1 = plot_type s →
    returns
      (match cursor_positions s1 with
       | Some p0 :: Some p1 :: _ =>
           let delta := Qabs (p1 - p0) in
           _ ← modify (set_delta_label (F6g "Delta: " delta ""));
           pt ← gets plot_type;
           if decide (pt.1 = AC_ANALYSIS)
           then
             let freq_delta := if Num.ne delta 0 then 1 / delta else 0 in
             modify (set_measure_label (F6g "Freq: " freq_delta " Hz"))
           else skip
       | _ => skip
       end) s1
      (λ _ s',
         cursor_positions s' = cursor_positions s1
         ∧ ∀ p0 p1 rest,
             cursor_positions s' = Some p0 :: Some p1 :: rest →
             delta_label s' = F6g "Delta: " (Qabs (p1 - p0)) ""
             ∧ ((plot_type s).1 = AC_ANALYSIS →
                (Qabs (p1 - p0) == 0 →
                 measure_label s' = F6g "Freq: " 0 " Hz")
                ∧ (¬ Qabs (p1 - p0) == 0 →
                   measure_label s' = F6g "Freq: " (1 / Qabs (p1 - p0))
                                          " Hz")))) as Hmeasure.
  { intros s1 Hpt.
    destruct (cursor_positions s1) as [|[q0|] [|[q1|] rest']] eqn:Hpos;
      try (step; split; [done|]; intros p0 p1 rest; rewrite Hpos;
           congruence).
    steps. rewrite Hpt.
    destruct (decide ((plot_type s).1 = AC_ANALYSIS)) as [Hac|Hac].
    - step. split; [done|].
      intros p0 p1 rest. rewrite Hpos. intros [= <- <- <-].
      split; [done|]. intros _. unfold Num.ne.
      destruct (Qeq_bool (Qabs (q1 - q0)) 0) eqn:Hz; simpl.
      + apply Qeq_bool_iff in Hz. split; [done|]. by intros [].
      + apply Qeq_bool_neq in Hz. split; [by intros ?|done].
    - step. split; [done|].
      intros p0 p1 rest. rewrite Hpos. intros [= <- <- <-].
      split; [done|]. by intros ?. }
  unfold set_cursor. steps.
  assert (returns
            match cursor_lines s !! cursor_num with
            | Some (Some old) => line_remove old
            | _ => skip
            end s
            (λ _ s1, cursor_lines s1 = cursor_lines s
                     ∧ cursor_positions s1 = cursor_positions s
                     ∧ plot_type s1 = plot_type s
                     ∧ is_Some (axes s1))) as Hremove.
  { destruct (cursor_lines s !! cursor_num) as [[old|]|]; try by step.
    apply line_remove_returns. auto. }
  eapply returns_mono; [exact Hremove|].
  intros [] s1 (Hl1 & Hp1 & Hpt1 & [ax1 Hax1]). simpl.
  step. eapply add_line_returns; [exact Hax1|]. steps. rewrite Hl1.
  rewrite <- Hlen in HQ.
  destruct (decide (length (cursor_lines s) ≤ cursor_num)%nat) as [Hge|Hlt].
  - steps.
    destruct (decide (cursor_num = 0%nat)); steps;
      match goal with |- returns _ ?S _ =>
        eapply returns_mono; [by apply (Hmeasure S)|] end;
      intros [] s' [Hpos' Hlabels];
      (apply HQ; [by rewrite Hpos'; simpl; rewrite Hp1|done]).
  - rewrite list_assign_Some by lia. steps. rewrite Hp1.
    rewrite list_assign_Some by lia. steps.
    destruct (decide (cursor_num = 0%nat)); steps;
      match goal with |- returns _ ?S _ =>
        eapply returns_mono; [by apply (Hmeasure S)|] end;
      intros [] s' [Hpos' Hlabels];
      (apply HQ; [by rewrite Hpos'|done]).
Qed.



(** Where [set_cursor] stores a position: at index [cursor_num] when
    the list reaches that far, and at the end of the list otherwise,
    whatever [cursor_num] is. *)
Lemma set_cursor_stores (s : plotWindow) (cursor_num : nat) (x_pos : Q) :
  is_Some (axes s) →
  length (cursor_lines s) = length (cursor_positions s) →
  ∃ s',
    set_cursor cursor_num x_pos s = (Return tt, s')
    ∧ cursor_positions s'
      = if decide (length (cursor_positions s) ≤ cursor_num)%nat
        then cursor_positions s ++ [Some x_pos]
        else <[cursor_num := Some x_pos]> (cursor_positions s).
Proof.
  intros Hax Hlen.
  destruct (set_cursor_returns s cursor_num x_pos
    (λ _ s', cursor_positions s'
             = if decide (length (cursor_positions s) ≤ cursor_num)%nat
               then cursor_positions s ++ [Some x_pos]
               else <[cursor_num := Some x_pos]> (cursor_positions s))
    Hax Hlen) as ([] & s' & Hrun & Hpost).
  - by intros s' Hpos _.
  - by exists s'.
Qed.

(** C6, at the input that breaks it.  On a window without cursors the
    secondary cursor (slot 1) is placed first, then the primary (slot 0): the
    position 5 of the secondary cursor goes to index 0 of
    [cursor_positions], the primary cursor then overwrites it and takes its
    line off the axes; slot 1 holds nothing although its label still shows 5,
    and no delta is reported. *)
Lemma set_cursor_secondary_first :
  let s1 := (set_cursor 1 5 ac_window).2 in
  let s2 := (set_cursor 0 2 s1).2 in
  cursor_positions ac_window = []
  ∧ cursor_positions s1 = [Some 5]
  ∧ cursor_positions s2 = [Some 2]
  ∧ cursor_positions s2 !! 1%nat = None
  ∧ cursor2_label s2 = F6g "Cursor 2: " 5 ""
  ∧ delta_label s2 = FText "Delta: --"
  ∧ (ax_lines <$> axes s1) = Some [0%nat]
  ∧ (ax_lines <$> axes s2) = Some [1%nat].
Proof. by vm_compute. Qed.

(** ** AxisUnitScaler *)

Lemma rescale_lines_lookup (scaled_x : list Q) (active : list (nat * nat))
    (arts : gmap nat Line2D) (id : nat) :
  rescale_lines scaled_x active arts !! id
  = if decide (id ∈ active.*2)
    then set_xdata scaled_x <$> arts !! id
    else arts !! id.
Proof.
  unfold rescale_lines. revert arts.
  induction active as [|[idx id'] active IH]; intros arts.
  - done.
  - rewrite fmap_cons. cbn [foldl snd]. rewrite IH.
    destruct (decide (id' = id)) as [->|Hne].
    + rewrite lookup_alter_eq.
      destruct (decide (id ∈ id :: active.*2)) as [_|Hn];
        [|destruct Hn; left].
      destruct (decide (id ∈ active.*2)); [|done].
      by destruct (arts !! id).
    + rewrite lookup_alter_ne by done.
      destruct (decide (id ∈ active.*2)) as [Hin|Hnin],
               (decide (id ∈ id' :: active.*2)) as [Hin'|Hnin']; try done.
      * destruct Hnin'. by right.
      * apply elem_of_cons in Hin' as [?|?]; [congruence|done].
Qed.

Lemma rescale_lines_idempotent (scaled_x : list Q)
    (active : list (nat * nat)) (arts : gmap nat Line2D) :
  rescale_lines scaled_x active (rescale_lines scaled_x active arts)
  = rescale_lines scaled_x active arts.
Proof.
  apply map_eq. intros id. rewrite !rescale_lines_lookup.
  destruct (decide (id ∈ active.*2)); [|done].
  by destruct (arts !! id).
Qed.

Lemma set_time_axis_label_scaled s ax t_first t_last :
  axes s = Some ax →
  (2 ≤ length (DataExtraction.x (obj_dataext s)))%nat →
  head (DataExtraction.x (obj_dataext s)) = Some t_first →
  last_item (DataExtraction.x (obj_dataext s)) = Some t_last →
  set_time_axis_label s
  = set_axes
      (Some (set_ax_xlabel
               ("Time (" +:+ (time_unit (t_last - t_first)).1 +:+ ")") ax))
      (if Num.ne (time_unit (t_last - t_first)).2 1
       then set_artists
              (rescale_lines
                 (map (λ t, t * (time_unit (t_last - t_first)).2)
                      (DataExtraction.x (obj_dataext s)))
                 (active_traces s) (artists s)) s
       else s).
Proof.
  intros Hax Hlen Hfirst Hlast. unfold set_time_axis_label.
  rewrite Hax, decide_False, Hfirst, Hlast by lia.
  by destruct (time_unit (t_last - t_first)).
Qed.

Lemma head_is_Some {A} (l : list A) : (2 ≤ length l)%nat → is_Some (head l).
Proof. destruct l; simpl; [lia|eauto]. Qed.

Lemma last_is_Some {A} (l : list A) :
  (2 ≤ length l)%nat → is_Some (last_item l).
Proof.
  intros Hlen. unfold last_item. destruct (last l) eqn:Hlast; [eauto|].
  apply last_None in Hlast. subst l. simpl in Hlen. lia.
Qed.

(** C7. Rescaling the time axis twice leaves the window exactly as
    rescaling it once: the scaled x-values are computed from the axis
    [obj_dataext.x] of the data provider, which the rescaling never writes.
    After one or two rescalings every line of [active_traces] carries the
    canonical axis times the scale of its span. *)
Theorem set_time_axis_label_idempotent (s : plotWindow) :
  let time_data := DataExtraction.x (obj_dataext s) in
  (2 ≤ length time_data)%nat →
  set_time_axis_label (set_time_axis_label s) = set_time_axis_label s
  ∧ (is_Some (axes s) →
     ∀ t_first t_last idx id line,
       head time_data = Some t_first → last_item time_data = Some t_last →
       (idx, id) ∈ active_traces s → artists s !! id = Some line →
       let scale := (time_unit (t_last - t_first)).2 in
       let scaled := if Num.ne scale 1
                     then set_xdata (map (λ t, t * scale) time_data) line
                     else line in
       artists (set_time_axis_label s) !! id = Some scaled
       ∧ artists (set_time_axis_label (set_time_axis_label s)) !! id
         = Some scaled).
Proof.
  intros time_data Hlen.
  destruct (head_is_Some _ Hlen) as [t0 Hfirst].
  destruct (last_is_Some _ Hlen) as [tl Hlast].
  assert (set_time_axis_label (set_time_axis_label s)
          = set_time_axis_label s) as Hidem.
  { destruct (axes s) as [ax|] eqn:Hax.
    - rewrite (set_time_axis_label_scaled s ax t0 tl) by done.
      destruct (Num.ne (time_unit (tl - t0)).2 1) eqn:Hne.
      + rewrite (set_time_axis_label_scaled
                   _ (set_ax_xlabel
                        ("Time (" +:+ (time_unit (tl - t0)).1 +:+ ")") ax)
                   t0 tl) by done.
        rewrite Hne. unfold set_axes, set_artists. simpl.
        by rewrite rescale_lines_idempotent.
      + rewrite (set_time_axis_label_scaled
                   _ (set_ax_xlabel
                        ("Time (" +:+ (time_unit (tl - t0)).1 +:+ ")") ax)
                   t0 tl) by done.
        by rewrite Hne.
    - assert (set_time_axis_label s = s) as Hskip.
      { unfold set_time_axis_label. by rewrite Hax. }
      by rewrite !Hskip. }
  split; [exact Hidem|].
  intros [ax Hax] t_first t_last idx id line Hfirst' Hlast' Hactive Hline
         scale scaled.
  rewrite Hidem.
  cut (artists (set_time_axis_label s) !! id = Some scaled); [done|].
  subst scaled scale.
  rewrite (set_time_axis_label_scaled s ax t_first t_last) by done.
  destruct (Num.ne _ 1); simpl; [|done].
  rewrite rescale_lines_lookup, decide_True, Hline; [done|].
  apply list_elem_of_fmap. by exists (idx, id).
Qed.

Lemma set_time_axis_label_idempotent_witness :
  (2 ≤ length (DataExtraction.x (obj_dataext ms_window)))%nat
  ∧ is_Some (axes ms_window)
  ∧ set_time_axis_label (set_time_axis_label ms_window)
    = set_time_axis_label ms_window
  ∧ xdata <$> artists (set_time_axis_label (set_time_axis_label ms_window))
              !! 0%nat
    = Some (map (λ t, t * 1000) [0; 1 # 1000; 2 # 1000]).
Proof.
  assert (2 ≤ length (DataExtraction.x (obj_dataext ms_window)))%nat as Hlen.
  { vm_compute. lia. }
  assert (is_Some (axes ms_window)) as Hax by (vm_compute; eauto).
  destruct (set_time_axis_label_idempotent ms_window Hlen) as [Hidem Hlines].
  split_and!; [done|done|exact Hidem|].
  assert (is_Some (artists ms_window !! 0%nat)) as [line Hline]
    by (vm_compute; eauto).
  destruct (Hlines Hax 0 (2 # 1000) 1%nat 0%nat line) as [_ Htwice];
    [done|done| |done|].
  { apply (bool_decide_unpack _). by vm_compute. }
  rewrite Htwice. by vm_compute.
Defined.

(** ** DigitalTimingRenderer *)

Lemma same_inputs_refl s : same_inputs s s.
Proof. by repeat split. Qed.

Lemma same_inputs_trans s1 s2 s3 :
  same_inputs s1 s2 → same_inputs s2 s3 → same_inputs s1 s3.
Proof.
  unfold same_inputs.
  intros (?&?&?&?&?&?&?&?&?&?) (?&?&?&?&?&?&?&?&?&?).
  repeat split; congruence.
Qed.

Lemma timing_trace_returns (time_data : list Q)
    (t_last vmax spacing base : Q) (rank idx : nat) s ax raw threshold lbl
    final (Q : Q * string → plotWindow → Prop) :
  axes s = Some ax →
  DataExtraction.y (obj_dataext s) !! idx = Some raw →
  logic_threshold s = Some threshold →
  trace_label s idx = Some lbl →
  last_item raw = Some final →
  length time_data = length raw →
  (∀ s' ax' line,
     same_inputs s s' →
     next_artist s' = S (next_artist s) →
     artists s' = <[next_artist s := line]> (artists s) →
     ydata line = stacked_levels raw threshold vmax spacing rank →
     line_drawstyle line = DrawStepsPost →
     axes s' = Some ax' →
     ax_lines ax' = ax_lines ax ++ [next_artist s] →
     Q (inject_Z (Z.of_nat rank) * spacing + vmax / 2, lbl) s') →
  returns (timing_trace time_data t_last vmax spacing base rank idx) s Q.
Proof.
  intros Hax Hraw Hthr Hlbl Hfinal Hlen HQ.
  unfold timing_trace, axes_step, axes_plot, add_line, axes_text,
    update_axes, the_axes.
  steps.
  rewrite decide_True
    by (by rewrite length_map; unfold Num.np_where_gt; rewrite length_map).
  steps. eapply HQ; simpl; try done.
  unfold stacked_levels, Num.np_where_gt. by rewrite map_map.
Qed.

Lemma last_item_is_Some {A} (l : list A) : l ≠ [] → is_Some (last_item l).
Proof.
  intros Hne. unfold last_item. destruct (last l) eqn:Hlast; [eauto|].
  by apply last_None in Hlast.
Qed.

Lemma timing_loop_returns (t_last vmax spacing base threshold : Q)
    (order : list nat) s ax :
  axes s = Some ax →
  logic_threshold s = Some threshold →
  DataExtraction.x (obj_dataext s) ≠ [] →
  (∀ idx, idx ∈ order →
     is_Some (DataExtraction.NBList (obj_dataext s) !! idx)
     ∧ ∃ raw, DataExtraction.y (obj_dataext s) !! idx = Some raw
              ∧ length raw = length (DataExtraction.x (obj_dataext s))) →
  returns
    (for_collect (enumerate order)
       (λ ri, timing_trace (DataExtraction.x (obj_dataext s)) t_last vmax
                           spacing base ri.1 ri.2))
    s
    (λ _ s', traces_drawn s ax order threshold vmax spacing (length order)
                          s').
Proof.
  intros Hax Hthr Hx Hready.
  eapply returns_mono.
  { apply (returns_for_collect _ _
      (λ pre _ s1, traces_drawn s ax order threshold vmax spacing
                                (length pre) s1)).
    - split_and!.
      + apply same_inputs_refl.
      + simpl. lia.
      + exists ax. split; [done|]. by rewrite app_nil_r.
      + intros rank idx _ Hlt. simpl in Hlt. lia.
    - intros pre [rank idx] post bs s1 Hsplit
             (Hsame & Hnext & (ax1 & Hax1 & Hlines) & Hdone).
      apply enumerate_split in Hsplit as [Hrank Hidx].
      simpl in Hrank, Hidx. subst rank. simpl.
      destruct (Hready idx) as [[name Hname] (raw & Hraw & Hlen)].
      { by eapply list_elem_of_lookup_2. }
      destruct (last_item_is_Some raw) as [final Hfinal].
      { intros ->. simpl in Hlen. by destruct (DataExtraction.x _). }
      pose proof Hsame as (Hdata & _ & _ & _ & Hnames & Hthr1 & _).
      eapply (timing_trace_returns _ _ _ _ _ _ _ s1 ax1 raw threshold).
      + done.
      + by rewrite Hdata.
      + by rewrite Hthr1.
      + unfold trace_label. rewrite Hdata, Hname. done.
      + done.
      + done.
      + intros s2 ax2 line Hsame2 Hnext2 Harts Hy Hstyle Hax2 Hlines2.
        rewrite length_app. simpl. split_and!.
        * by eapply same_inputs_trans.
        * lia.
        * exists ax2. split; [done|].
          rewrite Hlines2, Hlines, Hnext, <- app_assoc.
          f_equal. by rewrite seq_app.
        * intros rank idx' Hidx' Hlt. rewrite Harts, Hnext.
          destruct (decide (rank = length pre)) as [->|Hne].
          -- rewrite lookup_insert_eq. exists line, raw.
             assert (idx' = idx) as -> by congruence. done.
          -- rewrite lookup_insert_ne by lia. apply Hdone; [done|lia]. }
  intros bs s'. by rewrite enumerate_length.
Qed.

Local Arguments set_time_axis_label : simpl never.
Local Arguments update_timing_tick_colors : simpl never.

Lemma rescale_lines_keeps_ydata (scaled_x : list Q)
    (active : list (nat * nat)) (arts : gmap nat Line2D) id line :
  arts !! id = Some line →
  ∃ line', rescale_lines scaled_x active arts !! id = Some line'
           ∧ ydata line' = ydata line
           ∧ line_drawstyle line' = line_drawstyle line.
Proof.
  intros Hline. rewrite rescale_lines_lookup, Hline.
  destruct (decide (id ∈ active.*2)); simpl; eauto.
Qed.

Lemma decorations_keep_lines s ax :
  axes s = Some ax →
  decorated s (set_time_axis_label (update_timing_tick_colors s)) ax.
Proof.
  intros Hax. unfold update_timing_tick_colors. rewrite Hax.
  match goal with |- decorated _ (set_time_axis_label ?S) _ =>
    set (s1 := S) end.
  unfold set_time_axis_label.
  replace (axes s1) with
    (Some (set_ax_yticklabels (yticklabels (default ax (axes s1))) ax))
    by (by subst s1).
  destruct (decide (length (DataExtraction.x (obj_dataext s1)) < 2)%nat).
  { unfold decorated, same_inputs. split_and!; simpl; eauto. }
  destruct (head _) as [t_first|];
    [|unfold decorated, same_inputs; split_and!; simpl; eauto].
  destruct (last_item _) as [t_last|];
    [|unfold decorated, same_inputs; split_and!; simpl; eauto].
  destruct (time_unit (t_last - t_first)) as [unit scale].
  destruct (Num.ne scale 1);
    [|unfold decorated, same_inputs; split_and!; simpl; eauto].
  unfold decorated, same_inputs. split_and!; simpl; eauto.
  intros id line Hline. by apply rescale_lines_keeps_ydata.
Qed.

Lemma gather_is_Some (ys : list (list Q)) (indices : list nat) :
  (∀ idx, idx ∈ indices → is_Some (ys !! idx)) →
  is_Some (gather ys indices).
Proof.
  induction indices as [|idx rest IH]; intros Hall; simpl; [eauto|].
  destruct (Hall idx) as [d ->]; [left|]. simpl.
  destruct IH as [more ->]; [|simpl; eauto].
  intros idx' Hin. apply Hall. by right.
Qed.

Lemma elem_of_gather (ys : list (list Q)) (indices : list nat) all v :
  gather ys indices = Some all →
  v ∈ all ↔ ∃ idx raw, idx ∈ indices ∧ ys !! idx = Some raw ∧ v ∈ raw.
Proof.
  revert all. induction indices as [|idx rest IH]; intros all; simpl.
  - intros [= <-]. split; [by intros ?%elem_of_nil|].
    by intros (? & ? & ?%elem_of_nil & _).
  - destruct (ys !! idx) as [d|] eqn:Hd; simpl; [|done].
    destruct (gather ys rest) as [more|]; simpl; [|done].
    intros [= <-]. rewrite elem_of_app, (IH more eq_refl). split.
    + intros [Hv|(idx' & raw & Hin & Hraw & Hv)].
      * exists idx, d. split_and!; [left|done|done].
      * exists idx', raw. split_and!; [by right|done|done].
    + intros (idx' & raw & [->|Hin]%elem_of_cons & Hraw & Hv).
      * left. congruence.
      * right. eauto.
Qed.




Lemma candidate_indices_visible s idx :
  idx ∈ candidate_indices s → idx ∈ visible_indices s.
Proof.
  unfold candidate_indices.
  destruct (decide (filter _ (visible_indices s) = [])); [done|].
  by intros [_ ?]%list_elem_of_filter.
Qed.

Lemma candidate_indices_nonempty s :
  visible_indices s ≠ [] → candidate_indices s ≠ [].
Proof.
  intros Hvis. unfold candidate_indices.
  by destruct (decide (filter _ (visible_indices s) = [])).
Qed.

(** On a ready window the candidate samples exist and have a maximum. *)
Lemma timing_extremes s :
  timing_ready s →
  ∃ all vmin vmax,
    gather (DataExtraction.y (obj_dataext s)) (candidate_indices s)
    = Some all
    ∧ Num.np_min all = Some vmin ∧ Num.np_max all = Some vmax.
Proof.
  intros (Hvis & Hx & Hready).
  destruct (gather_is_Some (DataExtraction.y (obj_dataext s))
                           (candidate_indices s)) as [all Hall].
  { intros idx Hin%candidate_indices_visible.
    destruct (Hready idx Hin) as [_ (raw & -> & _)]. eauto. }
  exists all.
  assert (all ≠ []) as Hne.
  { pose proof (candidate_indices_nonempty s Hvis) as Hcand.
    destruct (candidate_indices s) as [|idx rest] eqn:Hc; [done|].
    assert (idx ∈ candidate_indices s) as Hin by (rewrite Hc; left).
    apply candidate_indices_visible in Hin.
    destruct (Hready idx Hin) as [_ (raw & Hraw & Hlen)].
    destruct raw as [|v raw].
    { simpl in Hlen. by destruct (DataExtraction.x _). }
    intros Hnil.
    assert (v ∈ all) as Hv; [|rewrite Hnil in Hv; by apply elem_of_nil in Hv].
    apply (elem_of_gather _ _ _ _ Hall). exists idx, (v :: raw).
    split_and!; [left|done|left]. }
  destruct all as [|a all]; [done|]. simpl. eauto.
Qed.

(** On a ready window with axes the timing view is drawn to the end. *)
Lemma plot_timing_diagram_returns s ax (Q : unit → plotWindow → Prop) :
  axes s = Some ax →
  timing_ready s →
  (∀ all vmax s',
     gather (DataExtraction.y (obj_dataext s)) (candidate_indices s)
     = Some all →
     Num.np_max all = Some vmax →
     logic_threshold s' = Some (effective_threshold s vmax) →
     controls_kept s s' →
     (∃ ax', axes s' = Some ax'
             ∧ ax_lines ax'
               = ax_lines ax
                 ++ seq (next_artist s) (S (length (visible_indices s)))) →
     (∀ rank idx, reverse (visible_indices s) !! rank = Some idx →
        ∃ line raw,
          artists s' !! (next_artist s + rank)%nat = Some line
          ∧ DataExtraction.y (obj_dataext s) !! idx = Some raw
          ∧ ydata line
            = stacked_levels raw (effective_threshold s vmax) vmax
                             (vertical_spacing s * vmax) rank
          ∧ line_drawstyle line = DrawStepsPost) →
     Q tt s') →
  returns plot_timing_diagram s Q.
Proof.
  intros Hax Hready HQ.
  destruct (timing_extremes s Hready) as (all & vmin & vmax & Hall & Hmin
                                          & Hmax).
  pose proof Hready as (Hvis & Hx & Htraces).
  destruct (last_item_is_Some _ Hx) as [t_last Hlast].
  assert (is_Some (head (DataExtraction.x (obj_dataext s)))) as [t_first Hfirst].
  { by destruct (DataExtraction.x (obj_dataext s)); eauto. }
  unfold plot_timing_diagram. do 2 step. rewrite decide_False by done.
  unfold update_axes, the_axes. steps.
  set (threshold := effective_threshold s vmax).
  eapply (returns_mono _ _
    (λ _ s1, logic_threshold s1 = Some threshold
             ∧ obj_dataext s1 = obj_dataext s
             ∧ axes s1 = axes s
             ∧ next_artist s1 = next_artist s
             ∧ artists s1 = artists s
             ∧ trace_visibility s1 = trace_visibility s
             ∧ trace_names s1 = trace_names s
             ∧ vertical_spacing s1 = vertical_spacing s
             ∧ legend_check s1 = legend_check s
             ∧ timing_check s1 = timing_check s
             ∧ sb_value (threshold_spinbox s1)
               = sb_value (threshold_spinbox s)
             ∧ sb_minimum (threshold_spinbox s1)
               = sb_minimum (threshold_spinbox s))).
  { subst threshold. unfold effective_threshold.
    destruct (Qeq_bool _ _); steps; by repeat split. }
  intros [] s1 (Hthr & Hdata & Hax1 & Hnext1 & Harts1 & Hvis1 & Hnames1
                & Hspacing1 & Hlegend1 & Htiming1 & Hsbv1 & Hsbm1).
  simpl. rewrite Hax in Hax1. rewrite <- Hdata in Hfirst, Hlast.
  steps.
  match goal with |- returns (for_collect _ _) ?S _ => set (s2 := S) end.
  eapply returns_mono.
  { apply (timing_loop_returns t_last vmax (vertical_spacing s1 * vmax)
             (0.01 * (t_last - t_first)) threshold
             (reverse (visible_indices s)) s2
             (set_ax_xlim (Some (t_first, t_last)) ax)).
    - done.
    - done.
    - simpl. by rewrite Hdata.
    - intros idx Hin. rewrite elem_of_reverse in Hin. simpl.
      rewrite Hdata. by apply Htraces. }
  intros ticks s3 (Hsame3 & Hnext3 & (ax3 & Hax3 & Hlines3) & Hdrawn).
  simpl in Hnext3, Hlines3, Hdrawn. rewrite length_reverse in *.
  simpl. steps.
  match goal with
  | |- returns _ (set_time_axis_label (update_timing_tick_colors ?S)) _ =>
      destruct (decorations_keep_lines S _ eq_refl)
        as ((ax4 & Hax4 & Hlines4) & Hsame4 & Hnext4 & Harts4);
      set (s4 := set_time_axis_label (update_timing_tick_colors S)) in *
  end.
  clearbody s4. simpl in Hax4, Hlines4, Hnext4, Harts4.
  pose proof Hsame4 as (_ & _ & _ & _ & _ & Hthr4 & _).
  simpl in Hthr4.
  pose proof Hsame3 as (_ & _ & _ & _ & _ & Hthr3 & _).
  simpl in Hthr3.
  assert (logic_threshold s4 = Some threshold) as Hthr4' by congruence.
  step. step. eapply add_line_returns; [exact Hax4|].
  assert (∀ s' ax',
    logic_threshold s' = Some threshold →
    controls_kept s4 s' →
    axes s' = Some ax' →
    ax_lines ax' = ax_lines ax4 ++ [next_artist s4] →
    artists s' = <[next_artist s4 := mkLine [0; 1] [threshold; threshold]
                     "red" 1 ":" THRESHOLD_ALPHA "" DrawDefault]>
                   (artists s4) →
    Q tt s') as Hdone.
  { intros s' ax' Hthr' Hkept' Hax' Hlines' Harts'.
    apply (HQ all vmax); [done|done|done| | |].
    - destruct Hkept' as (G1 & G2 & G3 & G4 & G5 & G6).
      pose proof Hsame4 as (E1 & E2 & _ & _ & _ & _ & E3 & _ & E4 & E5).
      pose proof Hsame3 as (F1 & F2 & _ & _ & _ & _ & F3 & _ & F4 & F5).
      simpl in E1, E2, E3, E4, E5, F1, F2, F3, F4, F5.
      unfold controls_kept. repeat split; congruence.
    - exists ax'. split; [done|].
      rewrite Hlines', Hlines4, Hlines3, Hnext4, Hnext3, Hnext1.
      rewrite <- app_assoc. f_equal. by rewrite seq_S.
    - intros rank idx Hrank.
      assert (rank < length (visible_indices s))%nat as Hlt.
      { apply lookup_lt_Some in Hrank. by rewrite length_reverse in Hrank. }
      destruct (Hdrawn rank idx Hrank Hlt)
        as (line & raw & Hline & Hraw & Hy & Hstyle).
      destruct (Harts4 _ _ Hline) as (line' & Hline' & Hy' & Hstyle').
      exists line', raw. rewrite Harts', lookup_insert_ne by lia.
      rewrite <- Hnext1. split_and!; [done|by rewrite <- Hdata|
        by rewrite Hy', Hy, Hspacing1|congruence]. }
  steps. destruct (legend_check s4); steps;
    (eapply Hdone; [done|by repeat split|reflexivity|done|done]).
Qed.

(** C1. On a window whose visible traces have data, the timing view is
    drawn to the end.  The visible traces are drawn in reverse registry
    order: the trace at position [k] of the [n] visible ones has rank
    [n - 1 - k] (the last one rank 0) and its line is the one drawn at that
    rank.  The line is a step-after line whose y-series is, sample by sample,
    [vmax] if the raw sample exceeds the threshold and [0] otherwise, plus
    [rank * spacing] with [spacing = vertical_spacing * vmax]; [vmax] is the
    maximum of the candidate samples. *)
Theorem timing_traces_stacked (s : plotWindow) (ax : Axes) :
  axes s = Some ax →
  timing_ready s →
  let visible := visible_indices s in
  ∃ s' ax' all vmax threshold,
    plot_timing_diagram s = (Return tt, s')
    ∧ gather (DataExtraction.y (obj_dataext s)) (candidate_indices s)
      = Some all
    ∧ Num.np_max all = Some vmax
    ∧ logic_threshold s' = Some threshold
    ∧ axes s' = Some ax'
    ∧ ∀ k idx, visible !! k = Some idx →
        let rank := (length visible - 1 - k)%nat in
        ∃ id line raw,
          ax_lines ax' !! (length (ax_lines ax) + rank)%nat = Some id
          ∧ artists s' !! id = Some line
          ∧ DataExtraction.y (obj_dataext s) !! idx = Some raw
          ∧ line_drawstyle line = DrawStepsPost
          ∧ ydata line
            = stacked_levels raw threshold vmax (vertical_spacing s * vmax)
                             rank.
Proof.
  intros Hax Hready visible.
  destruct (plot_timing_diagram_returns s ax
    (λ _ s', ∃ ax' all vmax threshold,
       gather (DataExtraction.y (obj_dataext s)) (candidate_indices s)
       = Some all
       ∧ Num.np_max all = Some vmax
       ∧ logic_threshold s' = Some threshold
       ∧ axes s' = Some ax'
       ∧ ∀ k idx, visible !! k = Some idx →
           let rank := (length visible - 1 - k)%nat in
           ∃ id line raw,
             ax_lines ax' !! (length (ax_lines ax) + rank)%nat = Some id
             ∧ artists s' !! id = Some line
             ∧ DataExtraction.y (obj_dataext s) !! idx = Some raw
             ∧ line_drawstyle line = DrawStepsPost
             ∧ ydata line
               = stacked_levels raw threshold vmax
                                (vertical_spacing s * vmax) rank)
    Hax Hready) as ([] & s' & Hrun & ax' & all & vmax & threshold & Hpost).
  - intros all vmax s' Hall Hmax Hthr _ (ax' & Hax' & Hlines) Hdrawn.
    exists ax', all, vmax, (effective_threshold s vmax).
    split_and!; [done..|].
    intros k idx Hk rank.
    assert (k < length visible)%nat as Hlt by by eapply lookup_lt_Some.
    assert (reverse visible !! rank = Some idx) as Hrank.
    { apply reverse_lookup_Some. subst rank. split; [|lia].
      by replace (length visible - S (length visible - 1 - k))%nat with k
        by lia. }
    destruct (Hdrawn rank idx Hrank) as (line & raw & Hline & Hraw & Hy & Hst).
    exists (next_artist s + rank)%nat, line, raw.
    split_and!; [|done..].
    rewrite Hlines, lookup_app_r by lia.
    replace (length (ax_lines ax) + rank - length (ax_lines ax))%nat
      with rank by lia.
    apply lookup_seq_lt. subst rank. fold visible. lia.
  - exists s', ax', all, vmax, threshold. by split.
Qed.

Lemma timing_window_ready : timing_ready timing_window.
Proof.
  split_and!; [by vm_compute|by vm_compute|].
  change (visible_indices timing_window) with [0%nat; 1%nat].
  intros idx Hin.
  assert (idx = 0%nat ∨ idx = 1%nat) as [-> | ->].
  { apply elem_of_cons in Hin as [->|Hin]; [by left|].
    apply elem_of_cons in Hin as [->|Hin]; [by right|].
    by apply elem_of_nil in Hin. }
  - split; [vm_compute; eauto|]. eexists. split; [by vm_compute|done].
  - split; [vm_compute; eauto|]. eexists. split; [by vm_compute|done].
Qed.

Lemma timing_traces_stacked_witness :
  axes timing_window = Some new_axes
  ∧ timing_ready timing_window
  ∧ visible_indices timing_window = [0%nat; 1%nat]
  ∧ ∃ s' idA idB lineA lineB,
      plot_timing_diagram timing_window = (Return tt, s')
      ∧ artists s' !! idA = Some lineA
      ∧ artists s' !! idB = Some lineB
      ∧ line_label lineA = "v1" ∧ line_label lineB = "v2"
      ∧ Forall2 Qeq (ydata lineA) [6; 11; 6]
      ∧ Forall2 Qeq (ydata lineB) [5; 0; 5].
Proof.

  split_and!; [done|exact timing_window_ready|done|].
  destruct (timing_traces_stacked timing_window new_axes eq_refl
                                  timing_window_ready)
    as (s' & ax' & all & vmax & threshold & Hrun & Hall & Hmax & Hthr & Hax'
        & Hlines).
  assert (s' = (plot_timing_diagram timing_window).2) as Hs'
    by (by rewrite Hrun).
  assert (all = [0; 5; 0; 5; 0; 4]) as ->.
  { apply (inj Some). rewrite <- Hall. by vm_compute. }
  assert (vmax = 5) as ->.
  { apply (inj Some). rewrite <- Hmax. by vm_compute. }
  assert (threshold = 3.5) as ->.
  { apply (inj Some). rewrite <- Hthr, Hs'. by vm_compute. }
  destruct (Hlines 0%nat 0%nat eq_refl)
    as (idA & lineA & rawA & HidA & HlineA & HrawA & _ & HyA).
  destruct (Hlines 1%nat 1%nat eq_refl)
    as (idB & lineB & rawB & HidB & HlineB & HrawB & _ & HyB).
  assert (rawA = [0; 5; 0]) as ->.
  { apply (inj Some). rewrite <- HrawA. by vm_compute. }
  assert (rawB = [5; 0; 4]) as ->.
  { apply (inj Some). rewrite <- HrawB. by vm_compute. }
  assert (ax_lines ax' = [0%nat; 1%nat; 2%nat]) as Hids.
  { assert (ax_lines <$> axes s' = Some [0%nat; 1%nat; 2%nat]) as Hc
      by (rewrite Hs'; by vm_compute).
    rewrite Hax' in Hc. by injection Hc. }
  rewrite Hids in HidA, HidB. simpl in HidA, HidB.
  injection HidA as <-. injection HidB as <-.
  exists s', 1%nat, 0%nat, lineA, lineB.
  split_and!; [done|done|done| | | |].
  - rewrite Hs' in HlineA. vm_compute in HlineA. by injection HlineA as <-.
  - rewrite Hs' in HlineB. vm_compute in HlineB. by injection HlineB as <-.
  - rewrite HyA. vm_compute. by repeat constructor.
  - rewrite HyB. vm_compute. by repeat constructor.
Defined.

Lemma visible_indices_ext s s' :
  trace_visibility s' = trace_visibility s →
  visible_indices s' = visible_indices s.
Proof. unfold visible_indices. by intros ->. Qed.







(** ** ExpressionEvaluator *)

Lemma mapM_imap_Some {A B} (f : nat → A → option B) (g : nat → A → B)
    (l : list A) :
  (∀ i a, l !! i = Some a → f i a = Some (g i a)) →
  mapM id (imap f l) = Some (imap g l).
Proof.
  revert f g. induction l as [|a l IH]; intros f g Hfg; [done|].
  simpl. rewrite (Hfg 0%nat a eq_refl). simpl.
  rewrite (IH (f ∘ S) (g ∘ S)); [done|].
  intros i a' Hi. by apply (Hfg (S i)).
Qed.

(** The expression that the code builds is the one the specification
    describes, as soon as every operand has a sample at [j]. *)
Lemma expression_parts_substituted (py_str : Q → string)
    (parts : list string) (combo_data : list (list Q)) (j n : nat) :
  (length parts / 2 < length combo_data)%nat →
  (∀ data, data ∈ combo_data → length data = n) →
  (j < n)%nat →
  expression_parts py_str parts combo_data j
  = Some (substituted py_str parts combo_data j).
Proof.
  intros Hlen Hsamples Hj. unfold expression_parts, substituted.
  apply mapM_imap_Some. intros i part Hi.
  destruct (Nat.even i); [|done].
  assert (i / 2 < length combo_data)%nat as Hop.
  { apply lookup_lt_Some in Hi.
    eapply Nat.le_lt_trans; [|exact Hlen].
    apply Nat.Div0.div_le_mono. lia. }
  destruct (lookup_lt_is_Some_2 _ _ Hop) as [data Hdata].
  rewrite Hdata.
  assert (j < length data)%nat as Hjd.
  { rewrite (Hsamples data); [done|]. by eapply list_elem_of_lookup_2. }
  destruct (lookup_lt_is_Some_2 _ _ Hjd) as [v Hv].
  rewrite Hv. simpl. f_equal. f_equal.
  rewrite (nth_lookup_Some _ _ _ _ Hdata).
  by rewrite (nth_lookup_Some _ _ _ _ Hv).
Qed.

Section evaluate.
Variable py_str : Q → string.
Variable py_eval : string → M Q.

(** The loop collects the values while every expression has one. *)
Lemma evaluate_values (parts : list string) (combo_data : list (list Q))
    (vals : nat → Q) (js : list nat) (final_result : list Q) s :
  (∀ j, j ∈ js →
     ∃ expr, expression_parts py_str parts combo_data j = Some expr
             ∧ py_eval (join_space expr) s = (Return (vals j), s)) →
  evaluate py_str py_eval parts combo_data js final_result s
  = (Return (Some (final_result ++ map vals js)), s).
Proof.
  revert final_result. induction js as [|j js IH]; intros acc Hvals; simpl.
  - by rewrite app_nil_r.
  - destruct (Hvals j) as (expr & Hexpr & Heval); [left|].
    rewrite Hexpr. unfold mbind, M_bind, try_except, fmap, M_fmap. simpl.
    rewrite Heval.
    rewrite IH; [by rewrite <- app_assoc|].
    intros j' Hj'. apply Hvals. by right.
Qed.

(** The loop stops at the first arithmetic fault: one warning, no
    result. *)
Lemma evaluate_fault (parts : list string) (combo_data : list (list Q))
    (vals : nat → Q) (js : list nat) (k : nat) (rest : list nat)
    (final_result : list Q) (e : exn) s :
  (∀ j, j ∈ js →
     ∃ expr, expression_parts py_str parts combo_data j = Some expr
             ∧ py_eval (join_space expr) s = (Return (vals j), s)) →
  (∃ expr, expression_parts py_str parts combo_data k = Some expr
           ∧ py_eval (join_space expr) s = (Raise e, s)) →
  is_arithmetic e = true →
  evaluate py_str py_eval parts combo_data (js ++ k :: rest) final_result s
  = (Return None,
     set_messages (messages s ++ ["Division by zero or arithmetic error!"])
                  s).
Proof.
  revert final_result. induction js as [|j js IH];
    intros acc Hvals (expr & Hexpr & Heval) Harith; simpl.
  - rewrite Hexpr. unfold mbind, M_bind, try_except, fmap, M_fmap. simpl.
    rewrite Heval, Harith. done.
  - destruct (Hvals j) as (expr' & Hexpr' & Heval'); [left|].
    rewrite Hexpr'. unfold mbind, M_bind, try_except, fmap, M_fmap. simpl.
    rewrite Heval'.
    apply IH; [|by eauto|done].
    intros j' Hj'. apply Hvals. by right.
Qed.

End evaluate.

(** An accepted elementwise request goes to the evaluation loop. *)
Lemma plot_function_elementwise (py_str : Q → string)
    (py_eval : string → M Q) s parts combo_data first :
  elementwise_request s parts combo_data →
  combo_data !! 0%nat = Some first →
  plot_function py_str py_eval s
  = match evaluate py_str py_eval parts combo_data (seq 0 (length first))
                   [] s with
    | (Return None, s') => (Return tt, s')
    | (Return (Some final_result), s') =>
        match axes s' with
        | None => (Return tt, s')
        | Some _ =>
            (_ ← axes_plot (DataExtraction.x (obj_dataext s')) final_result
                           "-" DrawDefault 2 "green" (join_space parts);
             skip) s'
        end
    | (Raise e, s') => (Raise e, s')
    end.
Proof.
  intros (Hparts & Hlen & Hops & Hvs & Hmixed & Hcombo) Hfirst.
  unfold plot_function, mbind, M_bind, gets. simpl.
  rewrite <- Hparts.
  rewrite decide_False by lia.
  rewrite decide_False by (intros ?; done).
  rewrite decide_False by done.
  rewrite decide_False by done.
  rewrite Hcombo. simpl. rewrite Hfirst. simpl.
  destruct (evaluate _ _ _ _ _ _ s) as [[[final|]|e] s']; try done.
  simpl. by destruct (axes s').
Qed.

Lemma seq_split_at (n k : nat) :
  (k < n)%nat → seq 0 n = seq 0 k ++ k :: seq (S k) (n - S k).
Proof.
  intros Hk. replace n with (k + S (n - S k))%nat at 1 by lia.
  by rewrite seq_app.
Qed.

(** C4. When the evaluation of an accepted elementwise request raises
    an arithmetic fault at sample [k], the samples before it having been
    evaluated, [plot_function] returns after one warning: nothing is drawn,
    the axes and the lines are as before, and the values computed so far are
    dropped. *)
Theorem arithmetic_fault_aborts (py_str : Q → string)
    (py_eval : string → M Q) (s : plotWindow) (parts : list string)
    (combo_data : list (list Q)) (first : list Q) (vals : nat → Q)
    (k : nat) (e : exn) :
  elementwise_request s parts combo_data →
  combo_data !! 0%nat = Some first →
  (k < length first)%nat →
  (∀ j, (j < k)%nat →
     ∃ expr, expression_parts py_str parts combo_data j = Some expr
             ∧ py_eval (join_space expr) s = (Return (vals j), s)) →
  (∃ expr, expression_parts py_str parts combo_data k = Some expr
           ∧ py_eval (join_space expr) s = (Raise e, s)) →
  is_arithmetic e = true →
  ∃ s',
    plot_function py_str py_eval s = (Return tt, s')
    ∧ messages s'
      = messages s ++ ["Division by zero or arithmetic error!"]
    ∧ axes s' = axes s
    ∧ artists s' = artists s
    ∧ active_traces s' = active_traces s.
Proof.
  intros Hreq Hfirst Hk Hvals Hfault Harith.
  rewrite (plot_function_elementwise _ _ _ _ _ _ Hreq Hfirst).
  rewrite (seq_split_at _ _ Hk).
  rewrite (evaluate_fault py_str py_eval parts combo_data vals _ _ _ _ e);
    try done.
  - eexists. by split_and!.
  - intros j Hj. apply Hvals. apply elem_of_seq in Hj. lia.
Qed.

Lemma division_request :
  elementwise_request (function_window "v1 / v2") ["v1"; "/"; "v2"]
                      [[0; 5; 0]; [5; 0; 4]].
Proof.
  split_and!.
  - by vm_compute.
  - vm_compute. lia.
  - by vm_compute.
  - intros [_ Hvs]. by vm_compute in Hvs.
  - intros [_ Hcurrent]. by vm_compute in Hcurrent.
  - by vm_compute.
Qed.

Lemma arithmetic_fault_aborts_witness :
  let s := function_window "v1 / v2" in
  elementwise_request s ["v1"; "/"; "v2"] [[0; 5; 0]; [5; 0; 4]]
  ∧ is_arithmetic ZeroDivisionError = true
  ∧ ∃ s', plot_function show_sample sample_eval s = (Return tt, s')
          ∧ messages s' = ["Division by zero or arithmetic error!"]
          ∧ artists s' = ∅.
Proof.
  intros s. split_and!; [exact division_request|done|].
  destruct (arithmetic_fault_aborts show_sample sample_eval s
              ["v1"; "/"; "v2"] [[0; 5; 0]; [5; 0; 4]] [0; 5; 0]
              (λ _, 0) 1%nat ZeroDivisionError division_request eq_refl)
    as (s' & Hrun & Hmsg & _ & Harts & _).
  - simpl. lia.
  - intros j Hj. assert (j = 0%nat) as -> by lia.
    eexists. split; by vm_compute.
  - eexists. split; by vm_compute.
  - done.
  - exists s'. split_and!; [done|by rewrite Hmsg|by rewrite Harts].
Defined.

(** C3 (amended). For an accepted elementwise request whose operands
    have [n] samples each, [plot_function] builds for every sample index the
    token sequence with each operand replaced by the text of its sample and
    every other token kept as it was typed, joins it with spaces and gives
    the string to Python's [eval]; when [eval] answers a value for each, the
    values are drawn as one green line against the time axis.  No token is
    checked against a grammar. *)
Theorem plot_function_evaluates_by_eval (py_str : Q → string)
    (py_eval : string → M Q) (s : plotWindow) (ax : Axes)
    (parts : list string) (combo_data : list (list Q)) (n : nat)
    (vals : nat → Q) :
  elementwise_request s parts combo_data →
  (∀ data, data ∈ combo_data → length data = n) →
  length (DataExtraction.x (obj_dataext s)) = n →
  axes s = Some ax →
  (∀ j, (j < n)%nat →
     py_eval (join_space (substituted py_str parts combo_data j)) s
     = (Return (vals j), s)) →
  (∀ j i op, Nat.odd i = true → parts !! i = Some op →
             substituted py_str parts combo_data j !! i = Some op)
  ∧ ∃ s',
      plot_function py_str py_eval s = (Return tt, s')
      ∧ artists s' !! next_artist s
        = Some (mkLine (DataExtraction.x (obj_dataext s))
                       (map vals (seq 0 n)) "green" 2 "-" 1
                       (join_space parts) DrawDefault)
      ∧ axes s' = Some (set_ax_lines (ax_lines ax ++ [next_artist s]) ax)
      ∧ messages s' = messages s.
Proof.
  intros Hreq Hsamples Hx Hax Heval. split.
  { intros j i op Hodd Hop. unfold substituted.
    rewrite list_lookup_imap, Hop. simpl.
    rewrite <- Nat.negb_odd, Hodd. done. }
  pose proof Hreq as (_ & _ & Hops & _ & _ & Hcombo).
  apply length_mapM in Hcombo. rewrite Hops in Hcombo.
  destruct (lookup_lt_is_Some_2 combo_data 0) as [first Hfirst]; [lia|].
  assert (length first = n) as Hn.
  { apply Hsamples. by eapply list_elem_of_lookup_2. }
  rewrite (plot_function_elementwise _ _ _ _ _ _ Hreq Hfirst).
  rewrite (evaluate_values py_str py_eval parts combo_data vals).
  - rewrite Hax, Hn.
    assert (returns
      (_ ← axes_plot (DataExtraction.x (obj_dataext s))
                     ([] ++ map vals (seq 0 n)) "-" DrawDefault 2 "green"
                     (join_space parts);
       skip) s
      (λ _ s',
         artists s' !! next_artist s
         = Some (mkLine (DataExtraction.x (obj_dataext s))
                        (map vals (seq 0 n)) "green" 2 "-" 1
                        (join_space parts) DrawDefault)
         ∧ axes s' = Some (set_ax_lines (ax_lines ax ++ [next_artist s]) ax)
         ∧ messages s' = messages s)) as ([] & s' & Hrun & Hpost).
    { unfold axes_plot, the_axes. steps.
      rewrite decide_True by (by rewrite length_map, length_seq).
      eapply add_line_returns; [exact Hax|]. steps.
      split_and!; [|done|done]. simpl. by rewrite lookup_insert_eq. }
    exists s'. by split.
  - intros j Hj. apply elem_of_seq in Hj.
    exists (substituted py_str parts combo_data j). split.
    + apply (expression_parts_substituted _ _ _ _ n); [lia|done|lia].
    + apply Heval. lia.
Qed.

Lemma addition_request :
  elementwise_request (function_window "v1 + v2") ["v1"; "+"; "v2"]
                      [[0; 5; 0]; [5; 0; 4]].
Proof.
  split_and!.
  - by vm_compute.
  - vm_compute. lia.
  - by vm_compute.
  - intros [_ Hvs]. by vm_compute in Hvs.
  - intros [_ Hcurrent]. by vm_compute in Hcurrent.
  - by vm_compute.
Qed.

Lemma plot_function_evaluates_by_eval_witness :
  let s := function_window "v1 + v2" in
  elementwise_request s ["v1"; "+"; "v2"] [[0; 5; 0]; [5; 0; 4]]
  ∧ axes s = Some new_axes
  ∧ ∃ s' line, plot_function show_sample sample_eval s = (Return tt, s')
               ∧ artists s' !! 0%nat = Some line
               ∧ ydata line = [5; 5; 4].
Proof.
  intros s. split_and!; [exact addition_request|done|].
  destruct (plot_function_evaluates_by_eval show_sample sample_eval s
              new_axes ["v1"; "+"; "v2"] [[0; 5; 0]; [5; 0; 4]] 3%nat
              (λ j, nth j [5; 5; 4] 0) addition_request)
    as [_ (s' & Hrun & Hline & _)].
  - intros data Hdata.
    apply elem_of_cons in Hdata as [->|Hdata]; [done|].
    apply elem_of_cons in Hdata as [->|Hdata]; [done|].
    by apply elem_of_nil in Hdata.
  - done.
  - done.
  - intros j Hj.
    destruct j as [|[|[|j]]]; [by vm_compute..|lia].
  - exists s'. eexists. split_and!; [done|exact Hline|done].
Defined.

(** C3 as stated fails.  The input [v1 ** v2] is accepted, and its
    expressions [0 ** 5], [5 ** 0] and [0 ** 4] are outside the grammar of
    [+ - * /] and parentheses; yet the plot is made of what the general
    evaluator answers on them: two evaluators that agree on the whole
    grammar and differ outside it give different plots. *)
Lemma power_reaches_eval :
  ¬ restricted_evaluation show_sample (function_window "v1 ** v2").
Proof.
  intros Hrestricted.
  specialize (Hrestricted
    (pure_eval (λ _, Return 0))
    (pure_eval (λ e, if restricted_expression e then Return 0
                     else Return 1))).
  apply (f_equal (λ r : outcome unit * plotWindow,
                    ydata <$> artists r.2 !! 0%nat)) in Hrestricted.
  - by vm_compute in Hrestricted.
  - intros e He. unfold pure_eval. by rewrite He.
Qed.

(** * Further properties of the handlers *)

(** ** Statements that keep an invariant *)

Section always.
Context {A B : Type} (K : plotWindow → Prop).

Lemma always_ret (a : A) : always K (mret a).
Proof. by intros s. Qed.

Lemma always_gets (f : plotWindow → A) : always K (gets f).
Proof. by intros s. Qed.

Lemma always_raise (e : exn) : always K (raise (A := A) e).
Proof. by intros s. Qed.

Lemma always_from_option (e : exn) (o : option A) :
  always K (from_option e o).
Proof. destruct o; by intros s. Qed.

Lemma always_bind (m : M A) (f : A → M B) :
  always K m → (∀ a, always K (f a)) → always K (m ≫= f).
Proof.
  intros Hm Hf s Hs. specialize (Hm s Hs).
  unfold mbind, M_bind. destruct (m s) as [[a|e] s1]; simpl in *.
  - by apply Hf.
  - done.
Qed.

(** A value read from the window is a value of a window that satisfies
    the invariant. *)
Lemma always_gets_bind (g : plotWindow → A) (f : A → M B) :
  (∀ a, (∃ s, K s ∧ a = g s) → always K (f a)) → always K (gets g ≫= f).
Proof. intros Hf s Hs. apply (Hf (g s)); eauto. Qed.

Lemma always_fmap (g : A → B) (m : M A) : always K m → always K (g <$> m).
Proof.
  intros Hm s Hs. specialize (Hm s Hs).
  unfold fmap, M_fmap. by destruct (m s) as [[a|e] s1].
Qed.

Lemma always_try_except (m handler : M A) (caught : exn → bool) :
  always K m → always K handler → always K (try_except m caught handler).
Proof.
  intros Hm Hh s Hs. specialize (Hm s Hs).
  unfold try_except. destruct (m s) as [[a|e] s1]; simpl in *; [done|].
  destruct (caught e); [by apply Hh|done].
Qed.

End always.

Lemma always_modify (K : plotWindow → Prop) (f : plotWindow → plotWindow) :
  (∀ s, K s → K (f s)) → always K (modify f).
Proof. intros Hf s Hs. by apply Hf. Qed.

Lemma always_skip (K : plotWindow → Prop) : always K skip.
Proof. by intros s. Qed.

Lemma always_for_each {A} (K : plotWindow → Prop) (l : list A)
    (body : A → M unit) :
  (∀ a, always K (body a)) → always K (for_each l body).
Proof.
  intros Hbody. induction l as [|a l IH]; simpl.
  - apply always_skip.
  - apply always_bind; [apply Hbody|]. by intros [].
Qed.

Lemma always_for_collect {A B} (K : plotWindow → Prop) (l : list A)
    (body : A → M B) :
  (∀ a, always K (body a)) → always K (for_collect l body).
Proof.
  intros Hbody. induction l as [|a l IH]; simpl.
  - apply always_ret.
  - apply always_bind; [apply Hbody|]. intros b.
    apply always_bind; [apply IH|]. intros bs. apply always_ret.
Qed.

(** One step of a proof that a statement keeps an invariant. *)
Ltac always_step :=
  lazymatch goal with
  | |- always _ (mbind _ (gets _)) => apply always_gets_bind; intros ? ?
  | |- always _ (mbind _ _) => apply always_bind; [|intros ?]
  | |- always _ (gets _) => apply always_gets
  | |- always _ (mret _) => apply always_ret
  | |- always _ skip => apply always_skip
  | |- always _ (raise _) => apply always_raise
  | |- always _ (from_option _ _) => apply always_from_option
  | |- always _ (for_each _ _) => apply always_for_each; intros ?
  | |- always _ (for_collect _ _) => apply always_for_collect; intros ?
  | |- always _ (if ?b then _ else _) => destruct b
  | |- always _ (match ?x with _ => _ end) => destruct x
  end.

(** ** A redraw keeps the registry and draws on new axes *)

Section redrawing.
Variables (s0 : plotWindow) (lo : nat).
Implicit Types s : plotWindow.

Lemma redrawing_frame (s s' : plotWindow) :
  redrawing s0 lo s → registry s' = registry s →
  next_artist s' = next_artist s →
  ax_lines <$> axes s' = ax_lines <$> axes s →
  redrawing s0 lo s'.
Proof.
  intros (Hreg & Hlo & ax & Hax & Hlines) Hreg' Hnext Heq. split_and!.
  - congruence.
  - by rewrite Hnext.
  - rewrite Hax in Heq. destruct (axes s') as [ax'|]; [|done].
    exists ax'. split; [done|]. injection Heq as ->. done.
Qed.

Lemma redrawing_update_axes (f : Axes → Axes) :
  (∀ ax, ax_lines (f ax) = ax_lines ax) →
  always (redrawing s0 lo) (update_axes f).
Proof.
  intros Hf s Hs. pose proof Hs as (_ & _ & ax & Hax & _).
  unfold update_axes, the_axes, mbind, M_bind, gets. simpl.
  rewrite Hax. simpl.
  eapply redrawing_frame; [exact Hs|done|done|].
  simpl. by rewrite Hax, Hf.
Qed.

Lemma redrawing_add_line (l : Line2D) :
  always (redrawing s0 lo) (add_line l).
Proof.
  intros s (Hreg & Hlo & ax & Hax & Hlines).
  unfold add_line, update_axes, the_axes, mbind, M_bind, gets, modify.
  simpl. rewrite Hax. simpl. rewrite Hax. simpl.
  split_and!; simpl; [done|lia|].
  eexists. split; [done|]. simpl. intros id.
  rewrite elem_of_app, list_elem_of_singleton.
  intros [Hid| ->]; [by apply Hlines|done].
Qed.

Lemma redrawing_axes_plot xs ys style ds lw c lbl :
  always (redrawing s0 lo) (axes_plot xs ys style ds lw c lbl).
Proof.
  unfold axes_plot, the_axes.
  repeat first [always_step | apply redrawing_add_line].
Qed.

Lemma redrawing_axes_text (t : Text) :
  always (redrawing s0 lo) (axes_text t).
Proof. unfold axes_text. by apply redrawing_update_axes. Qed.

Lemma redrawing_palette_cycle (i : nat) :
  always (redrawing s0 lo) (palette_cycle i).
Proof. unfold palette_cycle. repeat always_step. Qed.

(** An assignment to an attribute outside the registry. *)
Lemma redrawing_modify (f : plotWindow → plotWindow) :
  (∀ s, registry (f s) = registry s ∧ next_artist (f s) = next_artist s
        ∧ ax_lines <$> axes (f s) = ax_lines <$> axes s) →
  always (redrawing s0 lo) (modify f).
Proof.
  intros Hf. apply always_modify. intros s Hs.
  destruct (Hf s) as (Hreg & Hnext & Hax).
  by eapply redrawing_frame.
Qed.

Lemma redrawing_plot_trace (kind : analysis_type) (trace_index : nat) :
  always (redrawing s0 lo) (plot_trace kind trace_index).
Proof.
  unfold plot_trace, axes_step, the_axes.
  repeat first [ always_step | apply redrawing_palette_cycle
               | apply redrawing_axes_plot
               | by apply redrawing_update_axes
               | by apply redrawing_modify ].
Qed.

Lemma redrawing_tick_colors s :
  registry (update_timing_tick_colors s) = registry s
  ∧ next_artist (update_timing_tick_colors s) = next_artist s
  ∧ ax_lines <$> axes (update_timing_tick_colors s) = ax_lines <$> axes s.
Proof.
  unfold update_timing_tick_colors.
  destruct (axes s) as [ax|] eqn:Hax; split_and!; simpl; by rewrite ?Hax.
Qed.

Lemma redrawing_time_axis_label s :
  registry (set_time_axis_label s) = registry s
  ∧ next_artist (set_time_axis_label s) = next_artist s
  ∧ ax_lines <$> axes (set_time_axis_label s) = ax_lines <$> axes s.
Proof.
  unfold set_time_axis_label. destruct (axes s) as [ax|] eqn:Hax.
  2: { split_and!; simpl; by rewrite ?Hax. }
  destruct (decide _).
  { split_and!; simpl; by rewrite ?Hax. }
  destruct (head (DataExtraction.x (obj_dataext s))),
    (last_item (DataExtraction.x (obj_dataext s)));
    try (split_and!; simpl; by rewrite ?Hax).
  destruct (time_unit _) as [unit scale].
  destruct (Num.ne scale 1); split_and!; simpl; by rewrite ?Hax.
Qed.

Lemma redrawing_timing_trace time_data t_last vmax spacing base rank idx :
  always (redrawing s0 lo)
         (timing_trace time_data t_last vmax spacing base rank idx).
Proof.
  unfold timing_trace, axes_step.
  repeat first [ always_step | apply redrawing_axes_plot
               | apply redrawing_axes_text
               | by apply redrawing_modify ].
Qed.

Lemma redrawing_plot_timing_diagram :
  always (redrawing s0 lo) plot_timing_diagram.
Proof.
  unfold plot_timing_diagram, the_axes.
  repeat first [ always_step | apply redrawing_timing_trace
               | apply redrawing_add_line
               | by apply redrawing_update_axes
               | by apply redrawing_modify
               | apply redrawing_modify, redrawing_tick_colors
               | apply redrawing_modify, redrawing_time_axis_label ].
  match goal with H : ∃ s, _ ∧ ?sb = threshold_spinbox s |- _ =>
    destruct H as (s1 & (Hreg1 & _) & ->) end.
  apply always_modify. intros s Hs.
  eapply redrawing_frame; [exact Hs| |done|done].
  destruct Hs as (Hreg & _). rewrite <- Hreg in Hreg1.
  unfold registry in *. simpl. congruence.
Qed.

(** [_plot_analysis_data] after it has made its axes. *)
Lemma redrawing_plot_analysis_data (kind : analysis_type) :
  always (redrawing s0 lo)
         (visible ← gets visible_indices;
          _ ← for_each visible (plot_trace kind);
          fv ← gets first_visible;
          vl ← gets volts_length;
          _ ← update_axes
                (set_ax_xlabel
                   match kind with
                   | ac_linear | ac_log => "freq-->"
                   | transient => "time-->"
                   | dc => "Voltage Sweep(V)-->"
                   end);
          _ ← update_axes
                (set_ax_ylabel
                   (if decide (fv < vl)%nat then "Voltage(V)-->"
                    else "Current(I)-->"));
          if decide (length visible = 0%nat)
          then axes_text (mkText 0.5 0.5
                                 (FText "Please select at least one waveform")
                                 "black")
          else skip).
Proof.
  repeat first [ always_step | apply redrawing_plot_trace
               | apply redrawing_axes_text
               | by apply redrawing_update_axes ].
Qed.

End redrawing.

(** Whatever way [refresh_plot] ends, it leaves a window whose registry is
    the one it found and whose axes hold only lines made by this redraw. *)
Lemma refresh_plot_redrawing s :
  redrawing s (next_artist s) (refresh_plot s).2.
Proof.
  assert (∀ s1, registry s1 = registry s → next_artist s1 = next_artist s →
                redrawing s (next_artist s) (set_axes (Some new_axes) s1))
    as Hstart.
  { intros s1 Hreg Hnext. split_and!; simpl; [done|lia|].
    exists new_axes. split; [done|]. simpl. by intros id ?%elem_of_nil. }
  unfold refresh_plot.
  unfold mbind at 1, M_bind at 1, modify at 1. simpl.
  unfold mbind at 1, M_bind at 1, gets at 1. simpl.
  destruct (timing_check s) eqn:Htiming.
  - unfold mbind at 1, M_bind at 1, modify at 1. simpl.
    by apply redrawing_plot_timing_diagram, Hstart.
  - unfold mbind at 1, M_bind at 1, gets at 1. simpl.
    assert (∀ kind, redrawing s (next_artist s)
              (_plot_analysis_data kind (set_active_traces [] s)).2)
      as Hkind.
    { intros kind. unfold _plot_analysis_data.
      unfold mbind at 1, M_bind at 1, modify at 1. simpl.
      by apply redrawing_plot_analysis_data, Hstart. }
    destruct (plot_type s).1; [destruct (decide _)|..]; apply Hkind.
Qed.


(** [refresh_plot] draws on new axes and [redraw_cursors] is never called:
    after it, however it ends, no line made before is on the axes, so a
    cursor line is gone from the picture, while [cursor_lines] and
    [cursor_positions] still hold the cursor and the labels still show
    it. *)
Theorem refresh_plot_drops_old_lines (s : plotWindow) (id : nat) :
  (id < next_artist s)%nat →
  let s' := (refresh_plot s).2 in
  (∃ ax', axes s' = Some ax' ∧ id ∉ ax_lines ax')
  ∧ cursor_lines s' = cursor_lines s
  ∧ cursor_positions s' = cursor_positions s
  ∧ cursor1_label s' = cursor1_label s
  ∧ cursor2_label s' = cursor2_label s
  ∧ delta_label s' = delta_label s.
Proof.
  intros Hid s'.
  destruct (refresh_plot_redrawing s) as (Hreg & _ & ax' & Hax & Hlines).
  fold s' in Hreg, Hax. split.
  - exists ax'. split; [done|]. intros Hin%Hlines. lia.
  - unfold registry in Hreg. by simplify_eq.
Qed.

Lemma refresh_plot_drops_old_lines_witness :
  let s := (set_cursor 0 2 ac_window).2 in
  let s' := (refresh_plot s).2 in
  cursor_lines s = [Some 0%nat]
  ∧ (ax_lines <$> axes s) = Some [0%nat]
  ∧ (0 < next_artist s)%nat
  ∧ (∃ ax', axes s' = Some ax' ∧ 0%nat ∉ ax_lines ax')
  ∧ cursor_lines s' = [Some 0%nat]
  ∧ cursor_positions s' = [Some 2]
  ∧ cursor1_label s' = F6g "Cursor 1: " 2 "".
Proof.
  intros s s'.
  assert (0 < next_artist s)%nat as Hid by (vm_compute; lia).
  destruct (refresh_plot_drops_old_lines s 0 Hid)
    as (Hgone & Hlines & Hpos & Hl1 & _).
  split_and!; [by vm_compute|by vm_compute|done|done| | |].
  - subst s'. rewrite Hlines. by vm_compute.
  - subst s'. rewrite Hpos. by vm_compute.
  - subst s'. rewrite Hl1. by vm_compute.
Defined.

(** ** CursorMeasurement: clearing and re-placing *)

Lemma filter_all {A} (P : A → Prop) `{∀ a, Decision (P a)} (l : list A) :
  (∀ a, a ∈ l → P a) → filter P l = l.
Proof.
  induction l as [|a l IH]; [done|]. intros Hall.
  rewrite filter_cons_True by (apply Hall; left).
  f_equal. apply IH. intros a' Ha'. apply Hall. by right.
Qed.

Lemma set_ax_lines_same (ax : Axes) : set_ax_lines (ax_lines ax) ax = ax.
Proof. by destruct ax. Qed.

(** The loop of [clear_cursors]: every line of [lines] leaves the axes,
    the other lines keep their order, and nothing else changes. *)
Lemma clear_loop (lines : list (option nat)) (s : plotWindow) :
  ∃ s',
    for_each lines (λ line, match line with
                            | Some id => line_remove id
                            | None => skip
                            end) s = (Return tt, s')
    ∧ set_axes None s' = set_axes None s
    ∧ axes s'
      = (λ ax, set_ax_lines (filter (λ id, Some id ∉ lines) (ax_lines ax)) ax)
        <$> axes s.
Proof.
  revert s. induction lines as [|line lines IH]; intros s; simpl.
  - exists s. split_and!; [done|done|].
    destruct (axes s) as [ax|]; [|done]. simpl. f_equal.
    rewrite filter_all; [by rewrite set_ax_lines_same|].
    intros id _. apply not_elem_of_nil.
  - destruct line as [old|].
    + unfold mbind, M_bind.
      destruct (line_remove old s) as [o s1] eqn:Hrm.
      unfold line_remove, modify in Hrm. injection Hrm as <- <-.
      match goal with |- context [for_each lines ?b ?s1] =>
        destruct (IH s1) as (s' & Hrun & Hframe & Hax) end.
      exists s'. split_and!.
      * exact Hrun.
      * rewrite Hframe. destruct (axes s); reflexivity.
      * rewrite Hax.
        destruct (axes s) as [ax|] eqn:Hs; simpl; rewrite ?Hs; [|done].
        simpl. f_equal. unfold set_ax_lines. simpl. f_equal.
        rewrite list_filter_filter.
        apply list_filter_iff. intros id. rewrite not_elem_of_cons.
        split; [intros [? ?]|intros [? ?]]; split; congruence.
    + unfold mbind, M_bind. unfold skip at 1, mret at 1, M_ret at 1.
      destruct (IH s) as (s' & Hrun & Hframe & Hax).
      exists s'. rewrite Hrun. split_and!; [done|done|].
      rewrite Hax. destruct (axes s) as [ax|]; [|done]. simpl.
      f_equal. unfold set_ax_lines. f_equal. apply list_filter_iff.
      intros id. rewrite not_elem_of_cons.
      split; [by intros ?|by intros [_ ?]].
Qed.

(** [clear_cursors] never raises.  It takes exactly the cursor lines off
    the axes (the other lines keep their order), empties both cursor lists
    and resets the four labels; the traces and their lines are untouched. *)
Theorem clear_cursors_removes_cursor_lines (s : plotWindow) :
  ∃ s',
    clear_cursors s = (Return tt, s')
    ∧ cursor_lines s' = [] ∧ cursor_positions s' = []
    ∧ cursor1_label s' = FText "Cursor 1: Not set"
    ∧ cursor2_label s' = FText "Cursor 2: Not set"
    ∧ delta_label s' = FText "Delta: --"
    ∧ measure_label s' = FText ""
    ∧ axes s'
      = (λ ax, set_ax_lines
                 (filter (λ id, Some id ∉ cursor_lines s) (ax_lines ax)) ax)
        <$> axes s
    ∧ artists s' = artists s
    ∧ active_traces s' = active_traces s
    ∧ trace_visibility s' = trace_visibility s.
Proof.
  destruct (clear_loop (cursor_lines s) s) as (s1 & Hrun & Hframe & Hax).
  unfold clear_cursors.
  unfold mbind at 1, M_bind at 1, gets at 1. simpl.
  unfold mbind at 1, M_bind at 1. rewrite Hrun.
  eexists. split; [reflexivity|]. simpl.
  split_and!; try done.
  - by apply (f_equal artists) in Hframe.
  - by apply (f_equal active_traces) in Hframe.
  - by apply (f_equal trace_visibility) in Hframe.
Qed.

(** The measurement at the end of [set_cursor] writes labels only. *)
Lemma cursor_measurement_returns (s1 : plotWindow)
    (Q : unit → plotWindow → Prop) :
  (∀ s', axes s' = axes s1 → artists s' = artists s1 →
         cursor_lines s' = cursor_lines s1 → Q tt s') →
  returns
    (match cursor_positions s1 with
     | Some p0 :: Some p1 :: _ =>
         let delta := Qabs (p1 - p0) in
         _ ← modify (set_delta_label (F6g "Delta: " delta ""));
         pt ← gets plot_type;
         if decide (pt.1 = AC_ANALYSIS)
         then
           let freq_delta := if Num.ne delta 0 then 1 / delta else 0 in
           modify (set_measure_label (F6g "Freq: " freq_delta " Hz"))
         else skip
     | _ => skip
     end) s1 Q.
Proof.
  intros HQ.
  destruct (cursor_positions s1) as [|[q0|] [|[q1|] rest']];
    try (step; by apply HQ).
  steps. destruct (decide _); step; by apply HQ.
Qed.

(** Placing a cursor draws one dashed vertical line at [x_pos], red for
    cursor 0 and blue otherwise, records it at the cursor's slot, and takes
    the line that the slot held before off the axes; every other line of
    the axes stays where it is. *)
Theorem set_cursor_replaces_line (s : plotWindow) (cursor_num : nat)
    (x_pos : Q) (ax : Axes) :
  axes s = Some ax →
  length (cursor_lines s) = length (cursor_positions s) →
  ∃ s' ax',
    set_cursor cursor_num x_pos s = (Return tt, s')
    ∧ axes s' = Some ax'
    ∧ ax_lines ax'
      = filter (λ id, cursor_lines s !! cursor_num ≠ Some (Some id))
               (ax_lines ax)
        ++ [next_artist s]
    ∧ artists s'
      = <[next_artist s :=
            mkLine [x_pos; x_pos] [0; 1]
                   (if decide (cursor_num = 0%nat) then "red" else "blue")
                   RC_LINEWIDTH "--" CURSOR_ALPHA "" DrawDefault]>
        (artists s)
    ∧ cursor_lines s'
      = if decide (length (cursor_lines s) ≤ cursor_num)%nat
        then cursor_lines s ++ [Some (next_artist s)]
        else <[cursor_num := Some (next_artist s)]> (cursor_lines s).
Proof.
  intros Hax Hlen.
  cut (returns (set_cursor cursor_num x_pos) s (λ _ s', ∃ ax',
         axes s' = Some ax'
         ∧ ax_lines ax'
           = filter (λ id, cursor_lines s !! cursor_num ≠ Some (Some id))
                    (ax_lines ax)
             ++ [next_artist s]
         ∧ artists s'
           = <[next_artist s :=
                 mkLine [x_pos; x_pos] [0; 1]
                        (if decide (cursor_num = 0%nat) then "red"
                         else "blue")
                        RC_LINEWIDTH "--" CURSOR_ALPHA "" DrawDefault]>
             (artists s)
         ∧ cursor_lines s'
           = if decide (length (cursor_lines s) ≤ cursor_num)%nat
             then cursor_lines s ++ [Some (next_artist s)]
             else <[cursor_num := Some (next_artist s)]> (cursor_lines s))).
  { intros ([] & s' & Hrun & ax' & Hpost). by exists s', ax'. }
  unfold set_cursor. steps.
  assert (returns
            match cursor_lines s !! cursor_num with
            | Some (Some old) => line_remove old
            | _ => skip
            end s
            (λ _ s1, set_axes None s1 = set_axes None s
                     ∧ axes s1
                       = Some (set_ax_lines
                                 (filter (λ id, cursor_lines s !! cursor_num
                                                ≠ Some (Some id))
                                         (ax_lines ax)) ax))) as Hremove.
  { destruct (cursor_lines s !! cursor_num) as [[old|]|] eqn:Hold.
    - unfold line_remove. step. rewrite Hax. simpl. split; [done|].
      f_equal. unfold set_ax_lines. f_equal. apply list_filter_iff.
      intros id. split; [congruence|]. intros Hne ->. done.
    - step. split; [done|]. rewrite Hax. f_equal.
      rewrite filter_all; [by rewrite set_ax_lines_same|]. done.
    - step. split; [done|]. rewrite Hax. f_equal.
      rewrite filter_all; [by rewrite set_ax_lines_same|]. done. }
  eapply returns_mono; [exact Hremove|].
  intros [] s1 (Hframe & Hax1). simpl.
  assert (cursor_lines s1 = cursor_lines s) as Hl1
    by (by apply (f_equal cursor_lines) in Hframe).
  assert (cursor_positions s1 = cursor_positions s) as Hp1
    by (by apply (f_equal cursor_positions) in Hframe).
  assert (artists s1 = artists s) as Ha1
    by (by apply (f_equal artists) in Hframe).
  assert (next_artist s1 = next_artist s) as Hn1
    by (by apply (f_equal next_artist) in Hframe).
  step. eapply add_line_returns; [exact Hax1|]. steps. rewrite Hl1.
  destruct (decide (length (cursor_lines s) ≤ cursor_num)%nat) as [Hge|Hlt].
  - steps.
    destruct (decide (cursor_num = 0%nat)); steps;
      match goal with |- returns _ ?S _ =>
        apply (cursor_measurement_returns S) end; simpl;
      intros s' -> -> ->; eexists; rewrite Hl1, Ha1, Hn1; by split_and!.
  - rewrite list_assign_Some by lia. steps. rewrite Hp1.
    rewrite list_assign_Some by lia. steps.
    destruct (decide (cursor_num = 0%nat)); steps;
      match goal with |- returns _ ?S _ =>
        apply (cursor_measurement_returns S) end; simpl;
      intros s' -> -> ->; eexists; rewrite Ha1, Hn1; by split_and!.
Qed.

Lemma set_cursor_replaces_line_witness :
  let s := (set_cursor 0 2 ac_window).2 in
  cursor_lines s = [Some 0%nat]
  ∧ length (cursor_lines s) = length (cursor_positions s)
  ∧ ∃ ax s' ax',
      axes s = Some ax ∧ ax_lines ax = [0%nat]
      ∧ set_cursor 0 7 s = (Return tt, s')
      ∧ axes s' = Some ax' ∧ ax_lines ax' = [1%nat]
      ∧ cursor_lines s' = [Some 1%nat].
Proof.
  intros s.
  assert (∃ ax, axes s = Some ax ∧ ax_lines ax = [0%nat])
    as (ax & Hax & Hlines) by (vm_compute; eauto).
  assert (length (cursor_lines s) = length (cursor_positions s)) as Hlen
    by (by vm_compute).
  destruct (set_cursor_replaces_line s 0 7 ax Hax Hlen)
    as (s' & ax' & Hrun & Hax' & Hal & _ & Hcl).
  split_and!; [by vm_compute|done|].
  exists ax, s', ax'. split_and!; [done..| |].
  - rewrite Hal, Hlines. by vm_compute.
  - rewrite Hcl. by vm_compute.
Defined.

(** ** ExpressionEvaluator: the operand check *)

Lemma half_even (k : nat) : (2 * k / 2 = k)%nat.
Proof. symmetry. apply (Nat.div_unique _ _ _ 0); lia. Qed.

Lemma half_odd (k : nat) : ((2 * k + 1) / 2 = k)%nat.
Proof. symmetry. apply (Nat.div_unique _ _ _ 1); lia. Qed.

Lemma half_succ (n : nat) : ((S (S n) + 1) / 2 = S ((n + 1) / 2))%nat.
Proof.
  destruct (Nat.Even_or_Odd n) as [[k ->]|[k ->]].
  - replace (S (S (2 * k)) + 1)%nat with (2 * (k + 1) + 1)%nat by lia.
    rewrite !half_odd. lia.
  - replace (S (S (2 * k + 1)) + 1)%nat with (2 * (k + 2))%nat by lia.
    replace (2 * k + 1 + 1)%nat with (2 * (k + 1))%nat by lia.
    rewrite !half_even. lia.
Qed.

Lemma operands_length (parts : list string) :
  length (operands parts) = ((length parts + 1) / 2)%nat.
Proof.
  cut (∀ n parts, (length parts ≤ n)%nat →
         length (operands parts) = ((length parts + 1) / 2)%nat).
  { intros Hgen. by apply (Hgen (length parts)). }
  clear parts. induction n as [|n IH]; intros parts Hn.
  - destruct parts; [done|simpl in Hn; lia].
  - destruct parts as [|a [|b rest]]; [done|done|].
    change (operands (a :: b :: rest)) with (a :: operands rest).
    rewrite !length_cons, IH by (simpl in Hn; lia).
    by rewrite half_succ.
Qed.

Lemma find_trace_is_Some (names : list string) (name : string) :
  is_Some (find_trace names name) ↔ name ∈ names.
Proof.
  unfold find_trace. rewrite fmap_is_Some. split.
  - intros [[i n] (Hi & <- & _)%list_find_Some].
    by eapply list_elem_of_lookup_2.
  - intros Hin. apply list_find_elem_of with (x := name); done.
Qed.

Lemma omap_cons_eq {A B} (f : A → option B) (a : A) (l : list A) :
  omap f (a :: l)
  = match f a with Some b => b :: omap f l | None => omap f l end.
Proof. done. Qed.

Lemma length_omap_le {A B} (f : A → option B) (l : list A) :
  (length (omap f l) ≤ length l)%nat.
Proof.
  induction l as [|a l IH]; [done|]. rewrite omap_cons_eq.
  destruct (f a); simpl; lia.
Qed.

Lemma length_omap_eq {A B} (f : A → option B) (l : list A) :
  length (omap f l) = length l ↔ ∀ a, a ∈ l → is_Some (f a).
Proof.
  induction l as [|a l IH].
  - split; [|done]. by intros _ a ?%elem_of_nil.
  - pose proof (length_omap_le f l) as Hle. rewrite omap_cons_eq.
    destruct (f a) as [b|] eqn:Hfa; simpl.
    + split.
      * intros Hlen a' [->|Hin]%elem_of_cons; [by rewrite Hfa|].
        apply IH; [lia|done].
      * intros Hall. f_equal. apply IH. intros a' Ha'. apply Hall.
        by right.
    + split; [lia|]. intros Hall.
      destruct (Hall a) as [b Hb]; [left|]. congruence.
Qed.

Lemma operand_check_passes_iff_aux (names parts : list string) :
  length (match_traces names parts) = (length parts / 2 + 1)%nat
  ↔ Nat.Odd (length parts) ∧ ∀ o, o ∈ operands parts → o ∈ names.
Proof.
  unfold match_traces.
  pose proof (length_omap_le (find_trace names) (operands parts)) as Hle.
  pose proof (length_omap_eq (find_trace names) (operands parts)) as Heq.
  rewrite operands_length in Hle, Heq.
  destruct (Nat.Even_or_Odd (length parts)) as [[k Hk]|[k Hk]].
  - split.
    + intros Hlen. rewrite Hk, half_odd in Hle. rewrite Hk, half_even in Hlen.
      lia.
    + intros [[k' Hk'] _]. lia.
  - assert ((length parts + 1) / 2 = length parts / 2 + 1)%nat as Hhalf.
    { rewrite Hk. replace (2 * k + 1 + 1)%nat with (2 * (k + 1))%nat by lia.
      by rewrite half_even, half_odd. }
    rewrite <- Hhalf, Heq. split.
    + intros Hall. split; [by exists k|].
      intros o Ho. by apply find_trace_is_Some, Hall.
    + intros [_ Hall] o Ho. by apply find_trace_is_Some, Hall.
Qed.

(** The operand check of [plot_function] lets through exactly the inputs
    with an odd number of tokens whose tokens at the even positions all name
    a trace.  An input with an even number of tokens is turned down even
    when every operand is a trace. *)
Theorem operand_check_passes_iff (names parts : list string) :
  length (match_traces names parts) = (length parts / 2 + 1)%nat
  ↔ Nat.Odd (length parts) ∧ ∀ o, o ∈ operands parts → o ∈ names.
Proof. apply operand_check_passes_iff_aux. Qed.

(** An input of three tokens or more that fails the operand check, because
    it has an even number of tokens or because a token at an even position
    names no trace, gets the operand warning and nothing else: no line is
    drawn and nothing is evaluated, whatever [eval] would do. *)
Theorem plot_function_rejects_operands (py_str : Q → string)
    (py_eval : string → M Q) (s : plotWindow) :
  let parts := function_parts s in
  let names := DataExtraction.NBList (obj_dataext s) in
  (2 < length parts)%nat →
  Nat.Even (length parts) ∨ (∃ o, o ∈ operands parts ∧ o ∉ names) →
  plot_function py_str py_eval s
  = (Return tt,
     set_messages
       (messages s
        ++ ["One of the operands doesn't belong to the above list of Nodes!!"])
       s).
Proof.
  intros parts names Hlen Hbad.
  assert (length (match_traces names parts) ≠ (length parts / 2 + 1)%nat)
    as Hcheck.
  { rewrite operand_check_passes_iff_aux. intros [[k Hk] Hall].
    destruct Hbad as [[k' Hk']|(o & Ho & Hno)]; [lia|]. by apply Hno, Hall. }
  unfold plot_function, mbind, M_bind, gets. simpl.
  fold parts names.
  rewrite decide_False by lia.
  by rewrite decide_True by done.
Qed.

Lemma plot_function_rejects_operands_witness :
  let s := function_window "v1 + v2 +" in
  function_parts s = ["v1"; "+"; "v2"; "+"]
  ∧ plot_function show_sample sample_eval s
    = (Return tt,
       set_messages
         ["One of the operands doesn't belong to the above list of Nodes!!"]
         s).
Proof.
  intros s. split; [by vm_compute|].
  apply (plot_function_rejects_operands show_sample sample_eval s).
  - vm_compute. lia.
  - left. exists 2%nat. by vm_compute.
Defined.

(** An input that passes the operand check, is not of the form [a vs b]
    and names both a voltage trace and a current trace gets the mixing
    warning and nothing else. *)
Theorem plot_function_rejects_mixed (py_str : Q → string)
    (py_eval : string → M Q) (s : plotWindow) (i j : nat) :
  let parts := function_parts s in
  let names := DataExtraction.NBList (obj_dataext s) in
  (2 < length parts)%nat →
  Nat.Odd (length parts) →
  (∀ o, o ∈ operands parts → o ∈ names) →
  ¬ (length parts = 3%nat ∧ parts !! 1%nat = Some "vs") →
  i ∈ match_traces names parts → (i < volts_length s)%nat →
  j ∈ match_traces names parts → (volts_length s ≤ j)%nat →
  plot_function py_str py_eval s
  = (Return tt,
     set_messages (messages s ++ ["Do not combine Voltage and Current!!"])
                  s).
Proof.
  intros parts names Hlen Hodd Hall Hvs Hi Hiv Hj Hjc.
  assert (length (match_traces names parts) = (length parts / 2 + 1)%nat)
    as Hcheck by (by apply operand_check_passes_iff_aux).
  unfold plot_function, mbind, M_bind, gets. simpl.
  fold parts names.
  rewrite decide_False by lia.
  rewrite decide_False by (by intros ?).
  rewrite decide_False by done.
  rewrite decide_True; [done|]. split.
  - intros Hnil. by eapply (filter_nil_not_elem_of _ _ i Hnil).
  - intros Hnil. by eapply (filter_nil_not_elem_of _ _ j Hnil).
Qed.

Lemma plot_function_rejects_mixed_witness :
  let s := function_window "v1 + i1" in
  function_parts s = ["v1"; "+"; "i1"]
  ∧ volts_length s = 2%nat
  ∧ plot_function show_sample sample_eval s
    = (Return tt,
       set_messages ["Do not combine Voltage and Current!!"] s).
Proof.
  intros s. split_and!; [by vm_compute|by vm_compute|].
  apply (plot_function_rejects_mixed show_sample sample_eval s 0 2).
  - vm_compute. lia.
  - exists 1%nat. by vm_compute.
  - intros o Ho. vm_compute in Ho. vm_compute.
    apply elem_of_cons in Ho as [->|Ho]; [left|].
    apply elem_of_cons in Ho as [->|Ho]; [do 2 right; left|].
    by apply elem_of_nil in Ho.
  - intros [_ Hvs]. by vm_compute in Hvs.
  - vm_compute. left.
  - vm_compute. lia.
  - vm_compute. right. left.
  - vm_compute. lia.
Defined.

(** The form [a vs b].  When both names are traces with as many samples
    each, one green line is added whose x-data are the samples of [a] and
    whose y-data are the samples of [b]; both axis labels read voltage when
    both traces are voltages and current otherwise.  The form is not checked
    for a mix of voltage and current, nothing is evaluated and no warning is
    shown. *)
Theorem plot_function_versus (py_str : Q → string) (py_eval : string → M Q)
    (s : plotWindow) (a b : string) (i j : nat) (xs ys : list Q)
    (ax : Axes) :
  function_parts s = [a; "vs"; b] →
  find_trace (DataExtraction.NBList (obj_dataext s)) a = Some i →
  find_trace (DataExtraction.NBList (obj_dataext s)) b = Some j →
  DataExtraction.y (obj_dataext s) !! i = Some xs →
  DataExtraction.y (obj_dataext s) !! j = Some ys →
  length xs = length ys →
  axes s = Some ax →
  ∃ s' ax',
    plot_function py_str py_eval s = (Return tt, s')
    ∧ axes s' = Some ax'
    ∧ ax_lines ax' = ax_lines ax ++ [next_artist s]
    ∧ artists s'
      = <[next_artist s :=
            mkLine xs ys "green" RC_LINEWIDTH "-" 1 (a +:+ " vs " +:+ b)
                   DrawDefault]> (artists s)
    ∧ xlabel ax' = (if decide (i `max` j < volts_length s)%nat
                    then "Voltage(V)-->" else "Current(I)-->")
    ∧ ylabel ax' = xlabel ax'
    ∧ messages s' = messages s.
Proof.
  intros Hparts Hi Hj Hxs Hys Hlen Hax.
  cut (returns (plot_function py_str py_eval) s (λ _ s', ∃ ax',
         axes s' = Some ax'
         ∧ ax_lines ax' = ax_lines ax ++ [next_artist s]
         ∧ artists s'
           = <[next_artist s :=
                 mkLine xs ys "green" RC_LINEWIDTH "-" 1
                        (a +:+ " vs " +:+ b) DrawDefault]> (artists s)
         ∧ xlabel ax' = (if decide (i `max` j < volts_length s)%nat
                         then "Voltage(V)-->" else "Current(I)-->")
         ∧ ylabel ax' = xlabel ax'
         ∧ messages s' = messages s)).
  { intros ([] & s' & Hrun & ax' & Hpost). by exists s', ax'. }
  unfold plot_function. step. step. rewrite Hparts. simpl.
  step. step. unfold match_traces. simpl. rewrite Hi, Hj. simpl.
  unfold plot_versus. steps. rewrite Hax. simpl.
  steps. unfold axes_plot, the_axes. steps.
  rewrite decide_True by done.
  eapply add_line_returns; [exact Hax|]. simpl.
  step. step.
  replace (i `max` (j `max` 0))%nat with (i `max` j)%nat by lia.
  unfold update_axes, the_axes.
  destruct (decide (i `max` j < volts_length s)%nat); steps;
    eexists; by split_and!.
Qed.

Lemma plot_function_versus_witness :
  let s := function_window "v1 vs i1" in
  ∃ s' ax' line,
    plot_function show_sample sample_eval s = (Return tt, s')
    ∧ axes s' = Some ax'
    ∧ ax_lines ax' = [0%nat]
    ∧ artists s' !! 0%nat = Some line
    ∧ xdata line = [0; 5; 0] ∧ ydata line = [1; 1; 1]
    ∧ line_label line = "v1 vs i1"
    ∧ xlabel ax' = "Current(I)-->".
Proof.
  intros s.
  destruct (plot_function_versus show_sample sample_eval s "v1" "i1" 0 2
              [0; 5; 0] [1; 1; 1] new_axes)
    as (s' & ax' & Hrun & Hax' & Hlines & Harts & Hxl & _);
    try (by vm_compute).
  exists s', ax',
    (mkLine [0; 5; 0] [1; 1; 1] "green" RC_LINEWIDTH "-" 1 "v1 vs i1"
            DrawDefault).
  split_and!; try done.
  all: rewrite ?Harts, ?Hxl, ?Hlines; by vm_compute.
Defined.

(** ** The normal view *)

Lemma plot_trace_returns (kind : analysis_type) (idx : nat) s ax raw lbl
    fallback (Q : unit → plotWindow → Prop) :
  axes s = Some ax →
  color_palette s !! (idx mod length (color_palette s))%nat = Some fallback →
  trace_label s idx = Some lbl →
  DataExtraction.y (obj_dataext s) !! idx = Some raw →
  length raw = length (DataExtraction.x (obj_dataext s)) →
  (∀ s' line ax',
     registry s' = registry s →
     next_artist s' = S (next_artist s) →
     artists s' = <[next_artist s := line]> (artists s) →
     active_traces s' = PyDict.set (active_traces s) idx (next_artist s) →
     axes s' = Some ax' →
     ax_lines ax' = ax_lines ax ++ [next_artist s] →
     ax_texts ax' = ax_texts ax →
     xdata line = DataExtraction.x (obj_dataext s) →
     ydata line = raw →
     styled_as s kind idx line →
     Q tt s') →
  returns (plot_trace kind idx) s Q.
Proof.
  intros Hax Hfb Hlbl Hraw Hlen HQ.
  assert (color_palette s ≠ []) as Hpal.
  { intros Hnil. by rewrite Hnil in Hfb. }
  unfold plot_trace, palette_cycle. steps.
  rewrite decide_False by (by destruct (color_palette s)).
  steps.
  assert (Some (PyDict.get_default (trace_colors s) idx fallback)
               = match PyDict.get (trace_colors s) idx with
                 | Some c => Some c
                 | None => color_palette s
                           !! (idx mod length (color_palette s))%nat
                 end) as Hcolor.
  { unfold PyDict.get_default.
    by destruct (PyDict.get (trace_colors s) idx). }
  unfold axes_step, axes_plot, the_axes.
  set (style := PyDict.get_default (trace_style s) idx "-").
  destruct kind; destruct (decide (style = "steps-post")) as [Hst|Hst];
    unfold update_axes, the_axes; steps;
    rewrite ?decide_True by done; steps;
    (eapply HQ; simpl; [reflexivity..|]);
    (unfold styled_as; fold style; simpl;
     rewrite ?decide_True by done; rewrite ?decide_False by done;
     split_and!; try done; try (by split; [|intros [? ?]]);
     try (split; [done|intros [? [?|?]]; done]);
     try (split; [done|]; intros _; split; [done|]; by eauto)).
  all: split; [intros _|done]; split; [done|]; by eauto.
Qed.

(** What the drawing reads of the registry. *)
Lemma registry_inputs s s' :
  registry s' = registry s →
  obj_dataext s' = obj_dataext s
  ∧ volts_length s' = volts_length s
  ∧ color_palette s' = color_palette s
  ∧ trace_visibility s' = trace_visibility s
  ∧ trace_colors s' = trace_colors s
  ∧ trace_thickness s' = trace_thickness s
  ∧ trace_style s' = trace_style s
  ∧ trace_names s' = trace_names s.
Proof. unfold registry. intros Hreg. by simplify_eq. Qed.

Lemma registry_styled_as s s' kind idx line :
  registry s' = registry s →
  styled_as s' kind idx line → styled_as s kind idx line.
Proof.
  intros (Hd & _ & Hp & _ & Hc & Ht & Hs & Hn)%registry_inputs.
  unfold styled_as, trace_label. by rewrite Hd, Hp, Hc, Ht, Hs, Hn.
Qed.

Lemma visible_indices_NoDup s :
  NoDup (PyDict.keys (trace_visibility s)) → NoDup (visible_indices s).
Proof.
  unfold visible_indices, PyDict.keys. intros Hnd.
  eapply sublist_NoDup; [exact Hnd|].
  apply fmap_sublist, sublist_filter.
Qed.

(** The normal view is drawn to the end on a ready window. *)
Lemma plot_analysis_data_returns (kind : analysis_type) s
    (Q : unit → plotWindow → Prop) :
  plot_ready s →
  NoDup (PyDict.keys (trace_visibility s)) →
  (∀ s' ax',
     registry s' = registry s →
     axes s' = Some ax' →
     ax_lines ax' = seq (next_artist s) (length (visible_indices s)) →
     ax_texts ax'
     = (if decide (visible_indices s = [])
        then [mkText 0.5 0.5 (FText "Please select at least one waveform")
                     "black"]
        else []) →
     xlabel ax' = match kind with
                  | ac_linear | ac_log => "freq-->"
                  | transient => "time-->"
                  | dc => "Voltage Sweep(V)-->"
                  end →
     ylabel ax' = (if decide (first_visible s < volts_length s)%nat
                   then "Voltage(V)-->" else "Current(I)-->") →
     (∀ k idx, visible_indices s !! k = Some idx →
        ∃ line raw,
          artists s' !! (next_artist s + k)%nat = Some line
          ∧ PyDict.get (active_traces s') idx = Some (next_artist s + k)%nat
          ∧ DataExtraction.y (obj_dataext s) !! idx = Some raw
          ∧ xdata line = DataExtraction.x (obj_dataext s)
          ∧ ydata line = raw
          ∧ styled_as s kind idx line) →
     Q tt s') →
  returns (_plot_analysis_data kind) s Q.
Proof.
  intros (Hpal & Hready) Hnd HQ.
  apply visible_indices_NoDup in Hnd.
  unfold _plot_analysis_data. steps.
  set (s0 := set_axes (Some new_axes) s).
  set (visible := visible_indices s) in *.
  set (I := λ (pre : list nat) (s1 : plotWindow),
         registry s1 = registry s
         ∧ next_artist s1 = (next_artist s + length pre)%nat
         ∧ (∃ ax1, axes s1 = Some ax1
                   ∧ ax_lines ax1 = seq (next_artist s) (length pre)
                   ∧ ax_texts ax1 = [])
         ∧ ∀ k idx, pre !! k = Some idx →
             ∃ line raw,
               artists s1 !! (next_artist s + k)%nat = Some line
               ∧ PyDict.get (active_traces s1) idx
                 = Some (next_artist s + k)%nat
               ∧ DataExtraction.y (obj_dataext s) !! idx = Some raw
               ∧ xdata line = DataExtraction.x (obj_dataext s)
               ∧ ydata line = raw
               ∧ styled_as s kind idx line).
  eapply returns_mono.
  { apply (returns_for_each visible (plot_trace kind) I s0).
    - split_and!; simpl; [done|lia| |].
      + exists new_axes. by split_and!.
      + intros k idx. by rewrite lookup_nil.
    - intros pre a post s1 Hsplit (Hreg & Hnext & (ax1 & Hax1 & Hl1 & Ht1)
                                   & Hdrawn).
      assert (a ∈ visible) as Ha.
      { rewrite Hsplit. apply elem_of_app. right. left. }
      destruct (Hready a Ha) as ([name Hname] & raw & Hraw & Hlen).
      assert (a ∉ pre) as Hfresh.
      { rewrite Hsplit in Hnd. apply NoDup_app in Hnd as (_ & Hnd & _).
        intros Hin. apply (Hnd a Hin). left. }
      destruct (registry_inputs s s1 Hreg)
        as (Hd1 & _ & Hp1 & _ & _ & _ & _ & Hn1).
      assert (is_Some (color_palette s1
                       !! (a mod length (color_palette s1))%nat))
        as [fallback Hfb].
      { apply lookup_lt_is_Some. apply Nat.mod_upper_bound.
        destruct (color_palette s1) eqn:Hp; [|done]. congruence. }
      eapply (plot_trace_returns kind a s1 ax1 raw
                (PyDict.get_default (trace_names s1) a name) fallback);
        [done|done| |congruence|congruence|].
      { unfold trace_label. by rewrite Hd1, Hname. }
      intros s2 line ax2 Hreg2 Hnext2 Harts2 Hact2 Hax2 Hl2 Ht2 Hx Hy Hst.
      split_and!.
      + congruence.
      + rewrite length_app. simpl. lia.
      + exists ax2. split_and!; [done| |congruence].
        rewrite Hl2, Hl1, length_app. simpl.
        rewrite seq_app. simpl. by rewrite Hnext.
      + intros k idx Hk.
        destruct (decide (k = length pre)) as [->|Hne].
        * rewrite list_lookup_middle in Hk by done. injection Hk as <-.
          exists line, raw. rewrite Harts2, Hact2, Hnext.
          rewrite lookup_insert_eq, get_set_eq.
          split_and!; [done|done|done|congruence|done|].
          by apply (registry_styled_as s s1).
        * assert (pre !! k = Some idx) as Hk'.
          { apply lookup_lt_Some in Hk as Hlt.
            rewrite length_app in Hlt. simpl in Hlt.
            rewrite lookup_app_l in Hk by lia. done. }
          destruct (Hdrawn k idx Hk')
            as (line' & raw' & Hline' & Hact' & Hraw' & Hx' & Hy' & Hst').
          exists line', raw'. rewrite Harts2, Hact2.
          rewrite lookup_insert_ne by lia.
          rewrite get_set_ne.
          { by split_and!. }
          intros ->. apply Hfresh. by eapply list_elem_of_lookup_2. }
  intros [] s1 (Hreg & Hnext & (ax1 & Hax1 & Hl1 & Ht1) & Hdrawn). simpl.
  unfold update_axes, the_axes, axes_text. steps.
  destruct (registry_inputs s s1 Hreg) as (_ & -> & _ & Hv1 & _).
  change (visible_indices s0) with visible.
  assert (first_visible s1 = first_visible s) as ->.
  { unfold first_visible. by rewrite (visible_indices_ext s s1). }
  destruct (decide (length visible = 0%nat)) as [Hz|Hnz].
  - unfold update_axes, the_axes. steps.
    eapply HQ; simpl; try done.
    rewrite Ht1. destruct (decide (visible = [])) as [|Hne]; [done|].
    destruct Hne. by apply length_zero_iff_nil.
  - steps. eapply HQ; simpl; try done.
    unfold set_ax_ylabel, set_ax_xlabel. simpl.
    rewrite Ht1. destruct (decide (visible = [])) as [Hnil|]; [|done].
    by rewrite Hnil in Hnz.
Qed.

(** The normal view draws every visible trace as it is.  On a ready
    window [_plot_analysis_data] returns; the axes hold one new line per
    visible trace, in the order of the registry (the first visible trace
    first, where the timing view puts it last); the line of a trace is
    recorded in [active_traces], carries the axis data and the samples of
    the trace unchanged, and is styled from the registry.  The x label
    follows the kind of analysis and the y label the first visible trace;
    the placeholder text is shown exactly when no trace is visible. *)
Theorem plot_analysis_data_draws_traces (kind : analysis_type)
    (s : plotWindow) :
  plot_ready s →
  NoDup (PyDict.keys (trace_visibility s)) →
  ∃ s' ax',
    _plot_analysis_data kind s = (Return tt, s')
    ∧ axes s' = Some ax'
    ∧ ax_lines ax' = seq (next_artist s) (length (visible_indices s))
    ∧ (∀ k idx, visible_indices s !! k = Some idx →
         ∃ line raw,
           artists s' !! (next_artist s + k)%nat = Some line
           ∧ PyDict.get (active_traces s') idx = Some (next_artist s + k)%nat
           ∧ DataExtraction.y (obj_dataext s) !! idx = Some raw
           ∧ xdata line = DataExtraction.x (obj_dataext s)
           ∧ ydata line = raw
           ∧ styled_as s kind idx line)
    ∧ xlabel ax' = match kind with
                   | ac_linear | ac_log => "freq-->"
                   | transient => "time-->"
                   | dc => "Voltage Sweep(V)-->"
                   end
    ∧ ylabel ax' = (if decide (first_visible s < volts_length s)%nat
                    then "Voltage(V)-->" else "Current(I)-->")
    ∧ ax_texts ax'
      = (if decide (visible_indices s = [])
         then [mkText 0.5 0.5 (FText "Please select at least one waveform")
                      "black"]
         else []).
Proof.
  intros Hready Hnd.
  destruct (plot_analysis_data_returns kind s
    (λ _ s', ∃ ax',
       axes s' = Some ax'
       ∧ ax_lines ax' = seq (next_artist s) (length (visible_indices s))
       ∧ (∀ k idx, visible_indices s !! k = Some idx →
            ∃ line raw,
              artists s' !! (next_artist s + k)%nat = Some line
              ∧ PyDict.get (active_traces s') idx
                = Some (next_artist s + k)%nat
              ∧ DataExtraction.y (obj_dataext s) !! idx = Some raw
              ∧ xdata line = DataExtraction.x (obj_dataext s)
              ∧ ydata line = raw
              ∧ styled_as s kind idx line)
       ∧ xlabel ax' = match kind with
                      | ac_linear | ac_log => "freq-->"
                      | transient => "time-->"
                      | dc => "Voltage Sweep(V)-->"
                      end
       ∧ ylabel ax' = (if decide (first_visible s < volts_length s)%nat
                       then "Voltage(V)-->" else "Current(I)-->")
       ∧ ax_texts ax'
         = (if decide (visible_indices s = [])
            then [mkText 0.5 0.5
                         (FText "Please select at least one waveform")
                         "black"]
            else []))
    Hready Hnd) as ([] & s' & Hrun & ax' & Hpost).
  - intros s' ax' _ Hax Hlines Htexts Hxl Hyl Hdrawn. by exists ax'.
  - by exists s', ax'.
Qed.

Lemma normal_window_ready : plot_ready normal_window.
Proof.
  split; [by vm_compute|].
  change (visible_indices normal_window) with [0%nat; 2%nat].
  intros idx Hin.
  assert (idx = 0%nat ∨ idx = 2%nat) as [-> | ->].
  { apply elem_of_cons in Hin as [->|Hin]; [by left|].
    apply elem_of_cons in Hin as [->|Hin]; [by right|].
    by apply elem_of_nil in Hin. }
  - split; [vm_compute; eauto|]. eexists. split; [by vm_compute|done].
  - split; [vm_compute; eauto|]. eexists. split; [by vm_compute|done].
Qed.

Lemma plot_analysis_data_draws_traces_witness :
  plot_ready normal_window
  ∧ NoDup (PyDict.keys (trace_visibility normal_window))
  ∧ visible_indices normal_window = [0%nat; 2%nat]
  ∧ ∃ s' ax' line0 line1,
      _plot_analysis_data transient normal_window = (Return tt, s')
      ∧ axes s' = Some ax'
      ∧ ax_lines ax' = [0%nat; 1%nat]
      ∧ artists s' !! 0%nat = Some line0 ∧ ydata line0 = [0; 5; 0]
      ∧ artists s' !! 1%nat = Some line1 ∧ ydata line1 = [1; 1; 1]
      ∧ line_color line0 = "#E53935" ∧ line_color line1 = "#43A047"
      ∧ active_traces s' = [(0%nat, 0%nat); (2%nat, 1%nat)].
Proof.
  assert (NoDup (PyDict.keys (trace_visibility normal_window))) as Hnd.
  { apply (bool_decide_unpack _). by vm_compute. }
  split_and!; [exact normal_window_ready|done|done|].
  destruct (plot_analysis_data_draws_traces transient normal_window
              normal_window_ready Hnd)
    as (s' & ax' & Hrun & Hax & Hlines & Hdrawn & _).
  destruct (Hdrawn 0%nat 0%nat eq_refl)
    as (line0 & raw0 & Hl0 & _ & Hraw0 & _ & Hy0 & Hc0 & _).
  destruct (Hdrawn 1%nat 2%nat eq_refl)
    as (line1 & raw1 & Hl1 & _ & Hraw1 & _ & Hy1 & Hc1 & _).
  exists s', ax', line0, line1.
  vm_compute in Hraw0. vm_compute in Hraw1.
  injection Hraw0 as <-. injection Hraw1 as <-.
  assert (Some (line_color line0) = Some "#E53935") as [= Hcol0]
    by (rewrite Hc0; by vm_compute).
  assert (Some (line_color line1) = Some "#43A047") as [= Hcol1]
    by (rewrite Hc1; by vm_compute).
  split_and!; try done.
  assert (s' = (_plot_analysis_data transient normal_window).2) as ->
    by (by rewrite Hrun).
  by vm_compute.
Defined.

(** ** Persistence: what is saved is what is loaded *)

Lemma get_snoc {K V} `{EqDecision K} (d : list (K * V)) k v k' :
  PyDict.get (d ++ [(k, v)]) k'
  = match PyDict.get d k' with
    | Some v' => Some v'
    | None => if decide (k = k') then Some v else None
    end.
Proof.
  induction d as [|[k0 v0] d IH]; simpl; [done|].
  destruct (decide (k0 = k')); [done|]. exact IH.
Qed.

Lemma by_name_snoc {V} s (d : list (nat * V)) k v :
  by_name s (d ++ [(k, v)])
  = (acc ← by_name s d; name ← trace_label s k;
     Some (PyDict.set acc name v)).
Proof. unfold by_name. by rewrite foldl_app. Qed.

Lemma by_name_is_Some {V} s (d : list (nat * V)) :
  (∀ k, k ∈ PyDict.keys d → is_Some (trace_label s k)) →
  is_Some (by_name s d).
Proof.
  unfold PyDict.keys.
  induction d as [|[k v] d IH] using rev_ind; intros Hall; [by eexists|].
  rewrite by_name_snoc.
  destruct IH as [acc ->].
  { intros k' Hk'. apply Hall. rewrite fmap_app. apply elem_of_app. by left. }
  destruct (Hall k) as [name ->].
  { rewrite fmap_app. apply elem_of_app. right. simpl. left. }
  by eexists.
Qed.

(** The saved dictionary gives back, under the name of a trace, the value
    that the registry holds for it, as long as no two traces of the registry
    share a name. *)
Lemma by_name_get {V} s (d : list (nat * V)) out i v name :
  by_name s d = Some out →
  NoDup (PyDict.keys d) →
  (∀ j k n, j ∈ PyDict.keys d → k ∈ PyDict.keys d →
            trace_label s j = Some n → trace_label s k = Some n → j = k) →
  PyDict.get d i = Some v →
  trace_label s i = Some name →
  PyDict.get out name = Some v.
Proof.
  unfold PyDict.keys. revert out.
  induction d as [|[k w] d IH] using rev_ind;
    intros out Hout Hnd Hinj Hget Hname; [done|].
  rewrite by_name_snoc in Hout.
  destruct (by_name s d) as [acc|] eqn:Hacc; [|done]. simpl in Hout.
  destruct (trace_label s k) as [name_k|] eqn:Hk; [|done]. simpl in Hout.
  injection Hout as <-.
  rewrite fmap_app in Hnd, Hinj. simpl in Hnd, Hinj.
  apply NoDup_app in Hnd as (Hnd & Hfresh & _).
  rewrite get_snoc in Hget.
  destruct (PyDict.get d i) as [v'|] eqn:Hdi.
  - injection Hget as ->.
    assert (i ∈ d.*1) as Hin.
    { apply (get_is_Some_keys d i). by rewrite Hdi. }
    assert (name_k ≠ name) as Hne.
    { intros ->.
      assert (k = i) as ->.
      { apply (Hinj k i name); [|by apply elem_of_app; left|done|done].
        apply elem_of_app. right. left. }
      apply (Hfresh i Hin). left. }
    rewrite get_set_ne by done.
    apply (IH acc); try done.
    intros j k' n Hj Hk'. apply Hinj; apply elem_of_app; by left.
  - destruct (decide (k = i)) as [->|]; [|done]. injection Hget as ->.
    assert (name_k = name) as -> by congruence.
    apply get_set_eq.
Qed.

(** The load, with the thickness and the style that it gives. *)
Lemma load_simulation_data_styles dataext ptype dinfo cfg spin0 :
  returns load_simulation_data (init dataext ptype dinfo cfg spin0)
    (λ _ s',
       populated cfg (DataExtraction.NBList dataext)
                 (length (DataExtraction.NBList dataext)) s'
       ∧ styles_loaded cfg (DataExtraction.NBList dataext)
                       (length (DataExtraction.NBList dataext)) s'
       ∧ obj_dataext s' = dataext).
Proof.
  set (names := DataExtraction.NBList dataext).
  set (ready := λ s : plotWindow,
         load_frame cfg names s ∧ trace_colors s = []
         ∧ trace_visibility s = [] ∧ obj_dataext s = dataext).
  unfold load_simulation_data.
  apply returns_bind, returns_gets. simpl.
  apply returns_bind.
  eapply returns_mono.
  { apply (returns_for_each _ _
             (λ pre s', ready s' ∧ length (color s') = length pre)).
    - repeat split; simpl; try done.
    - intros pre i post s1 Hsplit [((Hpal & Hcfg & Hnames & Hcolor)
                                     & Hc & Hv & Hd) Hlen].
      apply seq_split in Hsplit as ->.
      apply returns_bind. apply palette_cycle_returns; [done|].
      intros col Hcol. apply returns_modify.
      repeat split; simpl; try done.
      + intros k c. destruct (decide (k = length (color s1))) as [->|Hne].
        * rewrite lookup_app_r, Nat.sub_diag by done. simpl.
          intros [= <-]. by rewrite Hlen.
        * intros Hk. apply Hcolor.
          destruct (decide (k < length (color s1))%nat).
          -- by rewrite lookup_app_l in Hk.
          -- apply lookup_lt_Some in Hk. rewrite length_app in Hk.
             simpl in Hk. lia.
      + rewrite !length_app. simpl. lia. }
  intros [] s1 [Hready _]. simpl.
  apply returns_bind, returns_modify. simpl.
  apply returns_bind, returns_gets. simpl.
  apply returns_bind.
  eapply returns_mono.
  { apply (returns_for_each _ _ (λ _ s', ready s')).
    - destruct Hready as ((? & ? & ? & ?) & ? & ? & ?). by repeat split.
    - intros pre kv post s2 _ ((? & ? & ? & ?) & ? & ? & ?).
      apply returns_modify. by repeat split. }
  intros [] s2 (Hframe & Hc & Hv & Hd). simpl.
  unfold populate_waveform_list.
  apply returns_bind, returns_gets. simpl.
  pose proof Hframe as (_ & _ & -> & _).
  eapply returns_mono.
  { apply (returns_for_each _ _
             (λ pre s', populated cfg names (length pre) s'
                        ∧ styles_loaded cfg names (length pre) s'
                        ∧ obj_dataext s' = dataext)).
    - split_and!; [split_and!| |done]; try done.
      + intros i name _ Hlt. simpl in Hlt. lia.
      + rewrite Hv. constructor.
      + intros i. rewrite Hv. simpl. by intros [? ?].
      + intros i name _ Hlt. simpl in Hlt. lia.
    - intros pre [i name] post s3 Hsplit
        ((Hfr & Hdone & Hvis & Hcol) & Hsty & Hd3).
      apply enumerate_split in Hsplit as [Hi Hname]. simpl in Hi, Hname.
      subst i. eapply populate_item_returns; [exact Hfr|].
      intros col Hload. simpl in Hload. rewrite length_app. simpl.
      split_and!; [split_and!| |done].
      + exact Hfr.
      + intros i name' Hname' Hlt. simpl.
        destruct (decide (length pre = i)) as [<-|Hne].
        * rewrite !get_set_eq. split; [|done]. congruence.
        * rewrite !get_set_ne by done. apply Hdone; [done|lia].
      + simpl. by apply Forall_dict_set.
      + intros i. simpl.
        destruct (decide (length pre = i)) as [<-|Hne].
        * rewrite !get_set_eq. eauto.
        * rewrite !get_set_ne by done. apply Hcol.
      + intros i name' Hname' Hlt. simpl.
        destruct (decide (length pre = i)) as [<-|Hne].
        * rewrite !get_set_eq. split; congruence.
        * rewrite !get_set_ne by done. apply Hsty; [done|lia]. }
  intros [] s'. by rewrite enumerate_length.
Qed.

Lemma saveable_label s k :
  saveable s →
  (k < length (DataExtraction.NBList (obj_dataext s)))%nat →
  trace_label s k = DataExtraction.NBList (obj_dataext s) !! k.
Proof.
  intros (_ & Hnames & _) Hk. unfold trace_label, PyDict.get_default.
  destruct (lookup_lt_is_Some_2 _ _ Hk) as [n Hn]. rewrite Hn. simpl.
  destruct (PyDict.get (trace_names s) k) as [n'|] eqn:Hn'; [|done].
  simpl. apply Hnames in Hn'. congruence.
Qed.

(** On a saveable registry a styling dictionary is saved whole. *)
Lemma by_name_saved {V} s (d : list (nat * V)) :
  saveable s →
  NoDup (PyDict.keys d) →
  (∀ k, k ∈ PyDict.keys d →
        (k < length (DataExtraction.NBList (obj_dataext s)))%nat) →
  ∃ out, by_name s d = Some out
         ∧ ∀ i v name,
             PyDict.get d i = Some v →
             DataExtraction.NBList (obj_dataext s) !! i = Some name →
             PyDict.get out name = Some v.
Proof.
  intros Hs Hnd Hrange.
  destruct (by_name_is_Some s d) as [out Hout].
  { intros k Hk. rewrite saveable_label by auto.
    apply lookup_lt_is_Some. auto. }
  exists out. split; [done|]. intros i v name Hget Hname.
  assert (i ∈ PyDict.keys d) as Hi.
  { apply get_is_Some_keys. by rewrite Hget. }
  eapply (by_name_get s d out i v name); try done.
  - intros j k n Hj Hk. rewrite !saveable_label by auto.
    intros Hjn Hkn. destruct Hs as (Hnames & _).
    exact (NoDup_lookup _ j k n Hnames Hjn Hkn).
  - rewrite saveable_label by auto. done.
Qed.

(** Saving and loading go round.  The configuration that [save_config]
    builds from a saveable registry, handed to a new window on the same
    dataset, makes the load give every trace the colour, the thickness and
    the style that the old registry held for it. *)
Theorem saved_styling_is_restored (s : plotWindow)
    (ptype : analysis * nat) (dinfo : nat * nat) (spin0 : Q) :
  saveable s →
  ∃ s',
    load_simulation_data
      (init (obj_dataext s) ptype dinfo (config (save_config s)) spin0)
    = (Return tt, s')
    ∧ ∀ i,
        (∀ c, PyDict.get (trace_colors s) i = Some c →
              PyDict.get (trace_colors s') i = Some c)
        ∧ (∀ t, PyDict.get (trace_thickness s) i = Some t →
                PyDict.get (trace_thickness s') i = Some t)
        ∧ (∀ st, PyDict.get (trace_style s) i = Some st →
                 PyDict.get (trace_style s') i = Some st).
Proof.
  intros Hs. pose proof Hs as (_ & _ & [Hndc Hrc] & [Hndt Hrt] & [Hnds Hrs]).
  destruct (by_name_saved s (trace_colors s) Hs Hndc Hrc)
    as (colours & Hcolours & Hgc).
  destruct (by_name_saved s (trace_thickness s) Hs Hndt Hrt)
    as (thickness & Hthickness & Hgt).
  destruct (by_name_saved s (trace_style s) Hs Hnds Hrs)
    as (style & Hstyle & Hgs).
  assert (config (save_config s)
          = mkConfig colours thickness style
                     (experimental_acdc (config s))) as Hcfg.
  { unfold save_config. by rewrite Hcolours, Hthickness, Hstyle. }
  destruct (load_simulation_data_styles (obj_dataext s) ptype dinfo
              (config (save_config s)) spin0)
    as ([] & s' & Hrun & (_ & Hcol & _) & Hsty & _).
  exists s'. split; [done|]. intros i. split_and!.
  - intros c Hc.
    assert (i < length (DataExtraction.NBList (obj_dataext s)))%nat as Hi.
    { apply Hrc, get_is_Some_keys. by rewrite Hc. }
    destruct (lookup_lt_is_Some_2 _ _ Hi) as [name Hname].
    destruct (Hcol i name Hname Hi) as [-> _].
    unfold load_color. rewrite Hcfg. simpl.
    by rewrite (Hgc i c name Hc Hname).
  - intros t Ht.
    assert (i < length (DataExtraction.NBList (obj_dataext s)))%nat as Hi.
    { apply Hrt, get_is_Some_keys. by rewrite Ht. }
    destruct (lookup_lt_is_Some_2 _ _ Hi) as [name Hname].
    destruct (Hsty i name Hname Hi) as [-> _].
    unfold PyDict.get_default. rewrite Hcfg. simpl.
    by rewrite (Hgt i t name Ht Hname).
  - intros st Hst.
    assert (i < length (DataExtraction.NBList (obj_dataext s)))%nat as Hi.
    { apply Hrs, get_is_Some_keys. by rewrite Hst. }
    destruct (lookup_lt_is_Some_2 _ _ Hi) as [name Hname].
    destruct (Hsty i name Hname Hi) as [_ ->].
    unfold PyDict.get_default. rewrite Hcfg. simpl.
    by rewrite (Hgs i st name Hst Hname).
Qed.

Lemma restyled_window_saveable : saveable restyled_window.
Proof.
  assert (∀ (l : list nat) (n : nat),
            bool_decide (Forall (λ k, k < n)%nat l) = true →
            ∀ k, k ∈ l → (k < n)%nat) as Hall.
  { intros l n Hb k Hk. apply bool_decide_eq_true in Hb.
    by eapply Forall_forall in Hb. }
  split_and!.
  - apply (bool_decide_unpack _). by vm_compute.
  - intros k name Hget.
    assert (k = 0 ∨ k = 1 ∨ k = 2)%nat as [->|[->| ->]].
    { assert (k ∈ PyDict.keys (trace_names restyled_window)) as Hk.
      { apply get_is_Some_keys. by rewrite Hget. }
      vm_compute in Hk.
      repeat (apply elem_of_cons in Hk as [->|Hk]; [by auto|]).
      by apply elem_of_nil in Hk. }
    all: vm_compute in Hget; injection Hget as <-; by vm_compute.
  - apply (bool_decide_unpack _). by vm_compute.
  - apply Hall. by vm_compute.
  - apply (bool_decide_unpack _). by vm_compute.
  - apply Hall. by vm_compute.
  - apply (bool_decide_unpack _). by vm_compute.
  - apply Hall. by vm_compute.
Qed.

Lemma saved_styling_is_restored_witness :
  saveable restyled_window
  ∧ ∃ s',
      load_simulation_data
        (init sample_data (TRANSIENT_ANALYSIS, 0%nat) (4%nat, 2%nat)
              (config (save_config restyled_window)) 0)
      = (Return tt, s')
      ∧ PyDict.get (trace_colors s') 1%nat = Some "#000000"
      ∧ PyDict.get (trace_thickness s') 1%nat = Some 3
      ∧ PyDict.get (trace_style s') 1%nat = Some "--"
      ∧ PyDict.get (trace_colors s') 0%nat = Some "#E53935".
Proof.
  split; [exact restyled_window_saveable|].
  destruct (saved_styling_is_restored restyled_window
              (TRANSIENT_ANALYSIS, 0%nat) (4%nat, 2%nat) 0
              restyled_window_saveable) as (s' & Hrun & Hback).
  exists s'. split; [exact Hrun|].
  destruct (Hback 1%nat) as (Hc & Ht & Hs).
  destruct (Hback 0%nat) as (Hc0 & _).
  split_and!; [by apply Hc|by apply Ht|by apply Hs|by apply Hc0].
Defined.
